(** * The study-schedule allocator of [App.tsx] ([generateSchedule])

    A shallow embedding of the schedule-generation part of the React
    component in [src/2days/src/App.tsx], of its calendar, its timer
    and its handlers, and theorems about them.

    Modelling conventions.
    - A JS [number] holding minutes, hours, a difficulty or a count is a
      [Z]: the program only adds, subtracts, multiplies by 3 and 60,
      compares and takes minima and maxima of them. The model covers the
      whole-number values of these numbers, negative ones included;
      fractional hours are outside it.
    - A JS [string] is a [string]; [===] is [String.eqb], [<=] on two
      strings is the code-unit order [String.leb].
    - A JS [Date] taken at local midnight is represented by its local
      calendar fields (what [getFullYear], [getMonth] and [getDate]
      return); [getDay] and [setDate] follow the ECMAScript definitions
      of [WeekDay] and [MakeDay].
    - [Set<string>] is a [gset string].
    - [uuid ()] reads the next value of an unknown source of identifiers:
      a function [nat -> string] and a position in it.
    - The work items of [pendingWork] are objects shared between the
      array and the queue of the day ([activeSubjects]); the queue is
      therefore a list of references (indices) into [pendingWork].
    - The state variables of the component are the fields of a record
      ([App.State]); a handler is a function from state to state, and
      what the platform hands to it (the date of [new Date ()], the
      colour drawn, the number [parseInt] reads) is an argument. *)

From Stdlib Require Import ZArith String Ascii List Lia Bool.
From Stdlib Require Import Decimal DecimalString DecimalPos DecimalZ.
From stdpp Require Import base option list sets gmap strings.

Local Open Scope Z_scope.

(** ** Types (lines 24-51) *)

Record Subject := mkSubject {
  id : string;
  name : string;
  difficulty : Z;
  testDate : string;
  color : string
}.

Record UserSettings := mkUserSettings {
  weekdayHours : Z;
  weekendHours : Z;
  maxSubjectsPerDay : Z
}.

Record DailyTask := mkDailyTask {
  task_id : string;
  subjectId : string;
  date : string;
  plannedMinutes : Z;
  completed : bool;
  actualMinutes : Z;
  isFixed : bool
}.

(** The element type of [pendingWork] (lines 237-240). *)
Record WorkItem := mkWorkItem {
  subject : Subject;
  minutesNeeded : Z
}.

(** ** Dates *)

Module JSDate.

Record Date := mkDate {
  getFullYear : Z;
  getMonth : Z;      (* 0 .. 11 *)
  getDate : Z        (* 1 .. 31 *)
}.

Definition InLeapYear (y : Z) : bool :=
  ((y mod 4 =? 0) && negb (y mod 100 =? 0)) || (y mod 400 =? 0).

Definition DaysInMonth (y m : Z) : Z :=
  if m =? 1 then (if InLeapYear y then 29 else 28)
  else if (m =? 3) || (m =? 5) || (m =? 8) || (m =? 10) then 30
  else 31.

(** Day number of the first day of year [y], counted from 1970-01-01. *)
Definition DayFromYear (y : Z) : Z :=
  365 * (y - 1970) + (y - 1969) / 4 - (y - 1901) / 100 + (y - 1601) / 400.

Fixpoint DaysBeforeMonth (y : Z) (m : nat) : Z :=
  match m with
  | O => 0
  | S k => DaysBeforeMonth y k + DaysInMonth y (Z.of_nat k)
  end.

Definition MakeDay (d : Date) : Z :=
  DayFromYear (getFullYear d)
  + DaysBeforeMonth (getFullYear d) (Z.to_nat (getMonth d))
  + getDate d - 1.

(** 0 is Sunday, 6 is Saturday; 1970-01-01 was a Thursday. *)
Definition getDay (d : Date) : Z := (MakeDay d + 4) mod 7.

(** [setDate d dt], for a day of the month [dt] that overflows the
    month by less than a month, which is all [getDate () + 1] asks. *)
Definition setDate (d : Date) (dt : Z) : Date :=
  let y := getFullYear d in
  let m := getMonth d in
  if dt <=? DaysInMonth y m then mkDate y m dt
  else if m <? 11 then mkDate y (m + 1) (dt - DaysInMonth y m)
  else mkDate (y + 1) 0 (dt - DaysInMonth y m).

(** A date as a [Date] object can hold it. *)
Definition valid (d : Date) : Prop :=
  0 <= getMonth d <= 11 /\
  1 <= getDate d <= DaysInMonth (getFullYear d) (getMonth d).

End JSDate.
Import JSDate.

(** [String (n)] for an integer [n]. *)
Definition String_ (n : Z) : string := NilZero.string_of_int (Z.to_int n).

Fixpoint repeat_string (n : nat) (p : string) : string :=
  match n with
  | O => EmptyString
  | S k => (p ++ repeat_string k p)%string
  end.

Definition padStart (s : string) (targetLength : nat) (padString : string) : string :=
  let fillLen := (targetLength - String.length s)%nat in
  (String.substring 0 fillLen (repeat_string fillLen padString) ++ s)%string.

(** Lines 78-83. *)
Definition toLocalDateString (d : Date) : string :=
  let y := getFullYear d in
  let m := padStart (String_ (getMonth d + 1)) 2 "0" in
  let dd := padStart (String_ (getDate d)) 2 "0" in
  (String_ y ++ "-" ++ m ++ "-" ++ dd)%string.

(** ** Array helpers *)

(** [arr.reduce ((sum, t) => sum + f t, 0)]. *)
Definition reduce_sum {A} (f : A -> Z) (l : list A) : Z :=
  fold_left (fun sum t => sum + f t) l 0.

(** [arr.findIndex (p)]; [None] stands for the result [-1]. *)
Fixpoint findIndex {A} (p : A -> bool) (l : list A) : option nat :=
  match l with
  | [] => None
  | x :: l' => if p x then Some O else S <$> findIndex p l'
  end.

(** [a.localeCompare (b)], on the date strings it is applied to. *)
Definition localeCompare (a b : string) : Z :=
  match String.compare a b with Lt => -1 | Eq => 0 | Gt => 1 end.

(** [arr.sort (cmp)]: a stable sort with a comparator. *)
Fixpoint sort_insert {A} (cmp : A -> A -> Z) (x : A) (l : list A) : list A :=
  match l with
  | [] => [x]
  | y :: l' => if cmp x y <=? 0 then x :: y :: l' else y :: sort_insert cmp x l'
  end.

Definition sort {A} (cmp : A -> A -> Z) (l : list A) : list A :=
  fold_right (sort_insert cmp) [] l.

(** A [while] loop over a state; the body may fail, and [None] is also
    the answer when the [fuel] is used up before the guard turns false. *)
Fixpoint while {S} (fuel : nat) (guard : S -> bool) (body : S -> option S)
    (s : S) : option S :=
  if guard s then
    match fuel with
    | O => None
    | Datatypes.S fuel' =>
        match body s with
        | None => None
        | Some s' => while fuel' guard body s'
        end
    end
  else Some s.

(** ** [generateSchedule] (lines 214-348) *)

(** Line 215. *)
Definition calculateTotalHoursNeeded (diff : Z) : Z := diff * 3.

Definition MAX_DAYS : Z := 365.
Definition slot : Z := 30.

(** Lines 221-223. *)
Definition fixedOrCompleted (schedule : list DailyTask) : list DailyTask :=
  List.filter (fun t => isFixed t || completed t) schedule.

(** The minutes a kept task counts for (line 233). *)
Definition creditedMinutes (t : DailyTask) : Z :=
  if completed t then actualMinutes t else plannedMinutes t.

(** Lines 226-242. *)
Definition initialPendingWork (subjects : list Subject)
    (fixedOrCompletedTasks : list DailyTask) : list WorkItem :=
  List.filter (fun w => 0 <? minutesNeeded w)
    (List.map (fun s =>
       let totalNeededMins := calculateTotalHoursNeeded (difficulty s) * 60 in
       let allocatedMins :=
         reduce_sum creditedMinutes
           (List.filter (fun t => String.eqb (subjectId t) (id s))
              fixedOrCompletedTasks) in
       mkWorkItem s (Z.max 0 (totalNeededMins - allocatedMins)))
     subjects).

(** The variables of a run that the loops assign to. [uuidCalls] counts
    the calls of [uuid ()] made so far. *)
Record Locals := mkLocals {
  pendingWork : list WorkItem;
  newAutoTasks : list DailyTask;
  currentDate : Date;
  daysCount : Z;
  assignedSubjectIdsToday : gset string;
  minutesAllocatedToday : Z;
  activeSubjects : list nat;
  uuidCalls : nat
}.

(** Lines 280-285. *)
Definition compareWork (a b : WorkItem) : Z :=
  if negb (String.eqb (testDate (subject a)) (testDate (subject b)))
  then localeCompare (testDate (subject a)) (testDate (subject b))
  else difficulty (subject b) - difficulty (subject a).

(** Lines 278-285; each element of the result refers to the work item
    at that position of [pendingWork]. *)
Definition buildActiveSubjects (dateStr : string) (pw : list WorkItem) : list nat :=
  List.map fst
    (sort (fun a b => compareWork (snd a) (snd b))
       (List.filter
          (fun iw => String.leb dateStr (testDate (subject (snd iw)))
                     && (0 <? minutesNeeded (snd iw)))
          (combine (seq 0 (length pw)) pw))).

Definition addPlanned (m : Z) (t : DailyTask) : DailyTask :=
  mkDailyTask (task_id t) (subjectId t) (date t) (plannedMinutes t + m)
    (completed t) (actualMinutes t) (isFixed t).

Section Run.

(** What the successive calls of [uuid ()] return. *)
Variable uuids : nat -> string.
Variable settings : UserSettings.
Variable fixedOrCompletedTasks : list DailyTask.

(** The guard of the inner loop (line 288). *)
Definition slotGuard (maxMinutes : Z) (st : Locals) : bool :=
  (minutesAllocatedToday st <? maxMinutes)
  && (0 <? Z.of_nat (length (activeSubjects st))).

(** The subject-count check (lines 293-296). *)
Definition capGate (assigned : gset string) (sid : string) : bool :=
  negb (bool_decide (sid ∈ assigned))
  && (maxSubjectsPerDay settings <=? Z.of_nat (size assigned)).

(** The test of the search of line 311. *)
Definition isTaskOfDay (dateStr sid : string) (t : DailyTask) : bool :=
  String.eqb (date t) dateStr && String.eqb (subjectId t) sid.

(** The task of lines 317-325. *)
Definition newTask (dateStr sid : string) (timeToAllocate : Z) (calls : nat)
    : DailyTask :=
  mkDailyTask (uuids calls) sid dateStr timeToAllocate false 0 false.

(** Creating or extending the task of the day for a subject
    (lines 310-326); the second component is the new number of
    [uuid ()] calls. *)
Definition mergeTask (dateStr sid : string) (timeToAllocate : Z)
    (tasks : list DailyTask) (calls : nat) : list DailyTask * nat :=
  let existingAutoTaskIndex := findIndex (isTaskOfDay dateStr sid) tasks in
  match existingAutoTaskIndex with
  | Some k => (alter (addPlanned timeToAllocate) k tasks, calls)
  | None =>
      (tasks ++ [newTask dateStr sid timeToAllocate calls], Datatypes.S calls)
  end.

(** One pass through the body of the inner loop (lines 289-336).
    [None] is the [TypeError] of reading a field of [undefined]. *)
Definition slotBody (dateStr : string) (maxMinutes : Z) (st : Locals)
    : option Locals :=
  match activeSubjects st with
  | [] => None
  | r :: rest =>
    match pendingWork st !! r with
    | None => None
    | Some work =>
      if capGate (assignedSubjectIdsToday st) (id (subject work)) then
        Some (mkLocals (pendingWork st) (newAutoTasks st) (currentDate st)
                (daysCount st) (assignedSubjectIdsToday st)
                (minutesAllocatedToday st) rest (uuidCalls st))
      else
        let timeToAllocate :=
          Z.min (Z.min slot (maxMinutes - minutesAllocatedToday st))
                (minutesNeeded work) in
        let tasks_calls :=
          mergeTask dateStr (id (subject work)) timeToAllocate
            (newAutoTasks st) (uuidCalls st) in
        let work' :=
          mkWorkItem (subject work) (minutesNeeded work - timeToAllocate) in
        Some (mkLocals
                (<[r := work']> (pendingWork st))
                (fst tasks_calls)
                (currentDate st) (daysCount st)
                ({[ id (subject work) ]} ∪ assignedSubjectIdsToday st)
                (minutesAllocatedToday st + timeToAllocate)
                (if minutesNeeded work' <=? 0 then rest else rest ++ [r])
                (snd tasks_calls))
    end
  end.

(** The guard of the outer loop (lines 253-256). *)
Definition dayGuard (st : Locals) : bool :=
  existsb (fun w => 0 <? minutesNeeded w) (pendingWork st)
  && (daysCount st <? MAX_DAYS).

Definition isWeekend (d : Date) : bool :=
  let dayOfWeek := getDay d in (dayOfWeek =? 0) || (dayOfWeek =? 6).

(** Lines 260-261. *)
Definition maxMinutesOf (d : Date) : Z :=
  (if isWeekend d then weekendHours settings else weekdayHours settings) * 60.

Definition tasksOn (dateStr : string) (tasks : list DailyTask) : list DailyTask :=
  List.filter (fun t => String.eqb (date t) dateStr) tasks.

(** Lines 264-266. *)
Definition existingMinsOn (dateStr : string) : Z :=
  reduce_sum plannedMinutes (tasksOn dateStr fixedOrCompletedTasks).

(** Lines 269-272. *)
Definition assignedOn (dateStr : string) : gset string :=
  fold_left (fun acc t => {[ subjectId t ]} ∪ acc)
    (tasksOn dateStr fixedOrCompletedTasks) ∅.

(** The state at the head of the inner loop (lines 257-285). *)
Definition dayStart (st : Locals) : Locals :=
  let dateStr := toLocalDateString (currentDate st) in
  mkLocals (pendingWork st) (newAutoTasks st) (currentDate st) (daysCount st)
    (assignedOn dateStr) (existingMinsOn dateStr)
    (buildActiveSubjects dateStr (pendingWork st)) (uuidCalls st).

(** A bound on the passes of the inner loop from [st]. *)
Definition slotFuel (maxMinutes : Z) (st : Locals) : nat :=
  (Z.to_nat (maxMinutes - minutesAllocatedToday st)
   + length (activeSubjects st))%nat.

(** One pass through the body of the outer loop (lines 257-340). The
    variables of the day keep their last values until [dayStart] sets
    them again. *)
Definition dayBody (st : Locals) : option Locals :=
  let dateStr := toLocalDateString (currentDate st) in
  let maxMinutes := maxMinutesOf (currentDate st) in
  let st0 := dayStart st in
  match while (slotFuel maxMinutes st0) (slotGuard maxMinutes)
          (slotBody dateStr maxMinutes) st0 with
  | None => None
  | Some st1 =>
      Some (mkLocals (pendingWork st1) (newAutoTasks st1)
              (setDate (currentDate st1) (getDate (currentDate st1) + 1))
              (daysCount st1 + 1)
              (assignedSubjectIdsToday st1) (minutesAllocatedToday st1)
              (activeSubjects st1) (uuidCalls st1))
  end.

End Run.

(** What a call leaves behind: the value of the [schedule] state, the
    tasks the call created, and the final values of its variables. *)
Record Outcome := mkOutcome {
  out_schedule : list DailyTask;
  out_newAutoTasks : list DailyTask;
  out_pendingWork : list WorkItem;
  out_daysCount : Z;
  out_uuidCalls : nat
}.

(** The allocation loop from its initial state (lines 244-341). *)
Definition allocate (uuids : nat -> string) (calls : nat)
    (settings : UserSettings) (fixedOrCompletedTasks : list DailyTask)
    (pw : list WorkItem) (today : Date) : option Locals :=
  while (Z.to_nat MAX_DAYS) (dayGuard)
    (dayBody uuids settings fixedOrCompletedTasks)
    (mkLocals pw [] today 0 ∅ 0 [] calls).

(** [generateSchedule], as a function of the component state it reads
    ([subjects], [schedule], [settings]), of the date [new Date ()]
    falls on, and of the identifier source. With no subject the call
    returns at line 218 and [schedule] keeps its value. *)
Definition generateSchedule (uuids : nat -> string) (calls : nat)
    (subjects : list Subject) (schedule : list DailyTask)
    (settings : UserSettings) (today : Date) : option Outcome :=
  match subjects with
  | [] => Some (mkOutcome schedule [] [] 0 calls)
  | _ :: _ =>
      let fixedOrCompletedTasks := fixedOrCompleted schedule in
      let pw := initialPendingWork subjects fixedOrCompletedTasks in
      match allocate uuids calls settings fixedOrCompletedTasks pw today with
      | None => None
      | Some st =>
          Some (mkOutcome (fixedOrCompletedTasks ++ newAutoTasks st)
                  (newAutoTasks st) (pendingWork st) (daysCount st)
                  (uuidCalls st))
      end
  end.

(** ** The quantities the statements are about *)

(** The date [n] days after [d], as the outer loop reaches it. *)
Definition addDays (n : nat) (d : Date) : Date :=
  Nat.iter n (fun c => setDate c (getDate c + 1)) d.

(** Planned minutes of the tasks of a list on a date. *)
Definition minutesOn (dateStr : string) (tasks : list DailyTask) : Z :=
  reduce_sum plannedMinutes (tasksOn dateStr tasks).

(** The subjects with a task on a date. *)
Definition subjectIdsOn (dateStr : string) (tasks : list DailyTask) : gset string :=
  list_to_set (List.map subjectId (tasksOn dateStr tasks)).

Definition tasksOf (sid : string) (tasks : list DailyTask) : list DailyTask :=
  List.filter (fun t => String.eqb (subjectId t) sid) tasks.

(** Planned minutes of the tasks of a list for a subject. *)
Definition minutesFor (sid : string) (tasks : list DailyTask) : Z :=
  reduce_sum plannedMinutes (tasksOf sid tasks).

(** The pair a task is filed under. *)
Definition taskKey (t : DailyTask) : string * string := (subjectId t, date t).

(** A task without its identifier. *)
Definition taskContent (t : DailyTask) : string * string * Z * bool * Z * bool :=
  (subjectId t, date t, plannedMinutes t, completed t, actualMinutes t, isFixed t).




(** ** Dates in order, and digits *)

Definition nextDay (d : Date) : Date := setDate d (getDate d + 1).

(** A number that orders the dates as the calendar does. *)
Definition dateRank (d : Date) : Z :=
  (getFullYear d * 12 + getMonth d) * 32 + getDate d.

Definition digit (k : Z) : ascii := ascii_of_N (48 + Z.to_N k).

Definition twoDigits (k : Z) : string :=
  String (digit (k / 10)) (String (digit (k mod 10)) EmptyString).

Definition fourDigits (k : Z) : string :=
  String (digit (k / 1000)) (String (digit (k / 100 mod 10))
    (String (digit (k / 10 mod 10)) (String (digit (k mod 10)) EmptyString))).

(** ** Invariants of the loops *)

(** The queue of a day holds each position of [pendingWork] at most
    once, and only positions of items that need minutes and whose test
    is not before the day. *)
Definition queueOK (dateStr : string) (st : Locals) : Prop :=
  NoDup (activeSubjects st) /\
  forall r, r ∈ activeSubjects st ->
    exists w, pendingWork st !! r = Some w /\ 0 < minutesNeeded w
              /\ String.leb dateStr (testDate (subject w)) = true.

(** The minutes of a day: [existing] is what the kept tasks take of
    it, [tasks0] the new tasks at the start of the day. *)
Definition minutesInv (dateStr : string) (maxMinutes : Z) (existing : Z)
    (tasks0 : list DailyTask) (st : Locals) : Prop :=
  minutesAllocatedToday st = existing + minutesOn dateStr (newAutoTasks st)
  /\ (forall x, x <> dateStr ->
        minutesOn x (newAutoTasks st) = minutesOn x tasks0)
  /\ 0 <= minutesOn dateStr (newAutoTasks st)
  /\ (minutesOn dateStr (newAutoTasks st) = 0
      \/ minutesAllocatedToday st <= maxMinutes).

(** The subjects of a day: [assigned0] are those of the kept tasks. *)
Definition subjectsInv (settings : UserSettings) (dateStr : string)
    (assigned0 : gset string) (tasks0 : list DailyTask)
    (st : Locals) : Prop :=
  assignedSubjectIdsToday st = assigned0 ∪ subjectIdsOn dateStr (newAutoTasks st)
  /\ (forall x, x <> dateStr ->
        subjectIdsOn x (newAutoTasks st) = subjectIdsOn x tasks0)
  /\ Z.of_nat (size (assignedSubjectIdsToday st))
     <= Z.max (Z.of_nat (size assigned0)) (maxSubjectsPerDay settings).

(** With everything a multiple of 30 at the start of a slot, the slot
    is a full 30 minutes. *)
Definition divisibleInv (st : Locals) : Prop :=
  (30 | minutesAllocatedToday st)
  /\ Forall (fun w => (30 | minutesNeeded w)) (pendingWork st)
  /\ Forall (fun t => (30 | plannedMinutes t)) (newAutoTasks st).

(** The date of a new task is that of one of the days walked. *)
Definition walked (today : Date) (n : nat) (k : string * string) : Prop :=
  exists j, (j < n)%nat /\ snd k = toLocalDateString (addDays j today).

(** What a run keeps true of every date [x]. *)
Definition walkInv (settings : UserSettings) (preserved : list DailyTask)
    (today : Date) (n : nat) (s : Locals) : Prop :=
  Forall (walked today n) (List.map taskKey (newAutoTasks s))
  /\ (forall x,
        minutesOn x (newAutoTasks s) = 0
        \/ exists j, (j < n)%nat /\ x = toLocalDateString (addDays j today)
                     /\ minutesOn x preserved + minutesOn x (newAutoTasks s)
                        <= maxMinutesOf settings (addDays j today))
  /\ (forall x,
        Z.of_nat (size (subjectIdsOn x preserved
                        ∪ subjectIdsOn x (newAutoTasks s)))
        <= Z.max (Z.of_nat (size (subjectIdsOn x preserved)))
                 (maxSubjectsPerDay settings)).

(** The test of the subject of a new task is not before the date of
    the task, which is one of the days walked. *)
Definition dueKey (subjects : list Subject) (today : Date)
    (k : string * string) : Prop :=
  exists s j, s ∈ subjects /\ id s = fst k
              /\ String.leb (snd k) (testDate s) = true
              /\ (j < 365)%nat /\ snd k = toLocalDateString (addDays j today).

(** With a limit of no subject the gate lets through the subjects of
    the kept tasks of the day only. *)
Definition keptInv (preserved : list DailyTask) (dateStr : string)
    (st : Locals) : Prop :=
  assignedSubjectIdsToday st ⊆ subjectIdsOn dateStr preserved
  /\ Forall (fun k => k ∈ List.map taskKey preserved)
       (List.map taskKey (newAutoTasks st)).


(** A subject that is among the subjects of the day stays in the
    queue until it needs no more. *)
Definition servedInv (r : nat) (s0 : Subject) (st : Locals) : Prop :=
  id s0 ∈ assignedSubjectIdsToday st
  /\ exists w, pendingWork st !! r = Some w /\ subject w = s0
               /\ (r ∈ activeSubjects st \/ minutesNeeded w <= 0).

(** Two states that differ in the identifiers of the new tasks, and
    in how many identifiers were drawn, at most. *)
Definition sameButIds (s1 s2 : Locals) : Prop :=
  pendingWork s1 = pendingWork s2
  /\ List.map taskContent (newAutoTasks s1) = List.map taskContent (newAutoTasks s2)
  /\ currentDate s1 = currentDate s2
  /\ daysCount s1 = daysCount s2
  /\ assignedSubjectIdsToday s1 = assignedSubjectIdsToday s2
  /\ minutesAllocatedToday s1 = minutesAllocatedToday s2
  /\ activeSubjects s1 = activeSubjects s2.

(** ** Dates from their fields *)

(** The date that the day number [MakeDay (year, month, day)] of
    ECMAScript falls on: [month] may be any integer, and [day] may
    leave the month by less than a month on either side. *)
Definition dateOfFields (year month day : Z) : Date :=
  let ym := year + month / 12 in
  let mn := month mod 12 in
  if 1 <=? day then setDate (mkDate ym mn 1) day
  else
    let py := if mn =? 0 then ym - 1 else ym in
    let pm := if mn =? 0 then 11 else mn - 1 in
    mkDate py pm (DaysInMonth py pm + day).

(** The year [new Date (year, ...)] is in: a [year] from 0 to 99
    stands for 1900 + [year]. *)
Definition fullYearOf (year : Z) : Z :=
  if (0 <=? year) && (year <=? 99) then 1900 + year else year.

(** [new Date (year, month, day)]. *)
Definition newDate (year month day : Z) : Date :=
  dateOfFields (fullYearOf year) month day.

(** The months from year 0 to the month of a date. *)
Definition monthIndex (d : Date) : Z := getFullYear d * 12 + getMonth d.

(** [d.setMonth (month)]. *)
Definition setMonth (d : Date) (month : Z) : Date :=
  dateOfFields (getFullYear d) month (getDate d).

(** ** The calendar (lines 387-407) *)

(** Lines 388-389. *)
Definition getDaysInMonth (year month : Z) : Z :=
  getDate (newDate year (month + 1) 0).

(** Lines 390-391. *)
Definition getFirstDayOfMonth (year month : Z) : Z :=
  getDay (newDate year month 1).

(** Lines 393-407; [None] is the [null] of an empty cell. *)
Definition generateCalendarGrid (currentDateForCalendar : Date)
    : list (option Date) :=
  let year := getFullYear currentDateForCalendar in
  let month := getMonth currentDateForCalendar in
  let daysInMonth := getDaysInMonth year month in
  let firstDay := getFirstDayOfMonth year month in
  repeat None (Z.to_nat firstDay)
  ++ List.map (fun i => Some (newDate year month (Z.of_nat i)))
       (seq 1 (Z.to_nat daysInMonth)).

(** The subject a task is shown with (lines 428 and 872-875). *)
Definition subjectOfTask (subjects : list Subject) (task : DailyTask)
    : option Subject :=
  List.find (fun s => String.eqb (id s) (subjectId task)) subjects.

(** The tasks a cell of the calendar lists (lines 830 and 838). *)
Definition dayTasks (schedule : list DailyTask) (d : Date) : list DailyTask :=
  List.filter (fun t => String.eqb (date t) (toLocalDateString d)) schedule.

(** A list in an order: every element is related to the elements
    after it. *)
Fixpoint ordered {A} (R : A -> A -> Prop) (l : list A) : Prop :=
  match l with
  | [] => True
  | x :: l' => Forall (R x) l' /\ ordered R l'
  end.

(** The order of the queue of a day (lines 277-285, and the stability
    of [sort]): the earlier test first; of two tests of one date, the
    higher difficulty first; of two subjects equal in both, the one
    that is first in [pendingWork]. *)
Definition hasPriority (a b : nat * WorkItem) : Prop :=
  String.leb (testDate (subject (snd a))) (testDate (subject (snd b))) = true
  /\ (testDate (subject (snd a)) = testDate (subject (snd b)) ->
      difficulty (subject (snd b)) <= difficulty (subject (snd a))
      /\ (difficulty (subject (snd b)) = difficulty (subject (snd a)) ->
          (fst a < fst b)%nat)).

(** ** The next test (lines 410-420) *)

(** [now] is the date [new Date ()] falls on. *)
Definition getNextTestDays (subjects : list Subject) (now : Date) : option Subject :=
  match subjects with
  | [] => None
  | _ :: _ =>
      let today := toLocalDateString now in
      let upcoming :=
        sort (fun a b => localeCompare (testDate a) (testDate b))
          (List.filter (fun s => String.leb today (testDate s)) subjects) in
      match upcoming with
      | [] => None
      | s :: _ => Some s
      end
  end.

(** ** The timer (lines 438-445 and 482) *)

(** [totalSeconds % k] takes the sign of [totalSeconds]. *)
Definition formatTime (totalSeconds : Z) : string :=
  let h := totalSeconds / 3600 in
  let m := Z.rem totalSeconds 3600 / 60 in
  let s := Z.rem totalSeconds 60 in
  ((if (0 <? h)%Z then String_ h ++ ":" else "")
   ++ padStart (String_ m) 2 "0" ++ ":" ++ padStart (String_ s) 2 "0")%string.

(** [Math.ceil (a / b)] for a positive [b]. *)
Definition ceilDiv (a b : Z) : Z := - ((- a) / b).

(** ** Further invariants of the loops *)

(** What a run keeps true of its new tasks: they are open, and their
    identifiers are the values drawn from [uuid ()], in their order. *)
Definition newTasksInv (uuids : nat -> string) (calls0 : nat) (s : Locals) : Prop :=
  Forall (fun t => completed t = false /\ actualMinutes t = 0 /\ isFixed t = false)
    (newAutoTasks s)
  /\ uuidCalls s = (calls0 + length (newAutoTasks s))%nat
  /\ List.map task_id (newAutoTasks s)
     = List.map uuids (seq calls0 (length (newAutoTasks s))).

(** A work item that left the queue of the day needs no more, or was
    turned away by the limit of subjects; the limit then still turns
    it away. *)
Definition busyInv (settings : UserSettings) (dateStr : string) (s : Locals) : Prop :=
  forall r w, pendingWork s !! r = Some w ->
    minutesNeeded w <= 0
    \/ String.leb dateStr (testDate (subject w)) = false
    \/ r ∈ activeSubjects s
    \/ capGate settings (assignedSubjectIdsToday s) (id (subject w)) = true.



(** ** The state of the component and its handlers *)

Module App.

Inductive ViewMode := dashboard | timer.

Inductive FeedbackType := praise | scold.

Record Feedback := mkFeedback {
  message : string;
  type : FeedbackType
}.

(** The state variables of lines 98-161. [idsDrawn] counts the calls
    of [uuid ()] made so far. *)
Record State := mkState {
  subjects : list Subject;
  schedule : list DailyTask;
  settings : UserSettings;
  view : ViewMode;
  feedback : option Feedback;
  currentDateForCalendar : Date;
  formSubjectName : string;
  formDifficulty : Z;
  formDate : string;
  activeTask : option DailyTask;
  timerSeconds : Z;
  isTimerRunning : bool;
  idsDrawn : nat
}.

Definition setSubjects (v : list Subject) (st : State) : State :=
  mkState v (schedule st) (settings st) (view st) (feedback st)
    (currentDateForCalendar st) (formSubjectName st) (formDifficulty st)
    (formDate st) (activeTask st) (timerSeconds st) (isTimerRunning st)
    (idsDrawn st).

Definition setSchedule (v : list DailyTask) (st : State) : State :=
  mkState (subjects st) v (settings st) (view st) (feedback st)
    (currentDateForCalendar st) (formSubjectName st) (formDifficulty st)
    (formDate st) (activeTask st) (timerSeconds st) (isTimerRunning st)
    (idsDrawn st).

Definition setSettings (v : UserSettings) (st : State) : State :=
  mkState (subjects st) (schedule st) v (view st) (feedback st)
    (currentDateForCalendar st) (formSubjectName st) (formDifficulty st)
    (formDate st) (activeTask st) (timerSeconds st) (isTimerRunning st)
    (idsDrawn st).

Definition setView (v : ViewMode) (st : State) : State :=
  mkState (subjects st) (schedule st) (settings st) v (feedback st)
    (currentDateForCalendar st) (formSubjectName st) (formDifficulty st)
    (formDate st) (activeTask st) (timerSeconds st) (isTimerRunning st)
    (idsDrawn st).

Definition setFeedback (v : option Feedback) (st : State) : State :=
  mkState (subjects st) (schedule st) (settings st) (view st) v
    (currentDateForCalendar st) (formSubjectName st) (formDifficulty st)
    (formDate st) (activeTask st) (timerSeconds st) (isTimerRunning st)
    (idsDrawn st).

Definition setCurrentDateForCalendar (v : Date) (st : State) : State :=
  mkState (subjects st) (schedule st) (settings st) (view st) (feedback st)
    v (formSubjectName st) (formDifficulty st)
    (formDate st) (activeTask st) (timerSeconds st) (isTimerRunning st)
    (idsDrawn st).

Definition setFormSubjectName (v : string) (st : State) : State :=
  mkState (subjects st) (schedule st) (settings st) (view st) (feedback st)
    (currentDateForCalendar st) v (formDifficulty st)
    (formDate st) (activeTask st) (timerSeconds st) (isTimerRunning st)
    (idsDrawn st).

Definition setFormDifficulty (v : Z) (st : State) : State :=
  mkState (subjects st) (schedule st) (settings st) (view st) (feedback st)
    (currentDateForCalendar st) (formSubjectName st) v
    (formDate st) (activeTask st) (timerSeconds st) (isTimerRunning st)
    (idsDrawn st).

Definition setFormDate (v : string) (st : State) : State :=
  mkState (subjects st) (schedule st) (settings st) (view st) (feedback st)
    (currentDateForCalendar st) (formSubjectName st) (formDifficulty st)
    v (activeTask st) (timerSeconds st) (isTimerRunning st)
    (idsDrawn st).

Definition setActiveTask (v : option DailyTask) (st : State) : State :=
  mkState (subjects st) (schedule st) (settings st) (view st) (feedback st)
    (currentDateForCalendar st) (formSubjectName st) (formDifficulty st)
    (formDate st) v (timerSeconds st) (isTimerRunning st)
    (idsDrawn st).

Definition setTimerSeconds (v : Z) (st : State) : State :=
  mkState (subjects st) (schedule st) (settings st) (view st) (feedback st)
    (currentDateForCalendar st) (formSubjectName st) (formDifficulty st)
    (formDate st) (activeTask st) v (isTimerRunning st)
    (idsDrawn st).

Definition setIsTimerRunning (v : bool) (st : State) : State :=
  mkState (subjects st) (schedule st) (settings st) (view st) (feedback st)
    (currentDateForCalendar st) (formSubjectName st) (formDifficulty st)
    (formDate st) (activeTask st) (timerSeconds st) v
    (idsDrawn st).

Definition setIdsDrawn (v : nat) (st : State) : State :=
  mkState (subjects st) (schedule st) (settings st) (view st) (feedback st)
    (currentDateForCalendar st) (formSubjectName st) (formDifficulty st)
    (formDate st) (activeTask st) (timerSeconds st) (isTimerRunning st)
    v.

(** The state of a first visit (lines 98-161), with the calendar on
    the date [now]. *)
Definition initial (now : Date) : State :=
  mkState [] [] (mkUserSettings 2 5 3) dashboard None now "" 3 "" None 0 false O.

Section Handlers.

(** What the successive calls of [uuid ()] return. *)
Variable uuids : nat -> string.

(** Lines 172-203; [color] is what [getRandomColor ()] returns. *)
Definition addSubject (color : string) (st : State) : State :=
  if String.eqb (formSubjectName st) "" || String.eqb (formDate st) "" then st
  else
    let existingSubject :=
      List.find (fun s => String.eqb (name s) (formSubjectName st)) (subjects st) in
    match existingSubject with
    | Some _ =>
        setFeedback
          (Some (mkFeedback
                   ("「" ++ formSubjectName st ++ "」は既に追加されています。")
                   scold)) st
    | None =>
        let newSubject :=
          mkSubject (uuids (idsDrawn st)) (formSubjectName st)
            (formDifficulty st) (formDate st) color in
        setFormDate ""
          (setFormSubjectName ""
             (setFeedback
                (Some (mkFeedback
                         ("「" ++ formSubjectName st ++ "」を追加しました（テスト日: "
                          ++ formDate st
                          ++ "）。自動作成ボタンでスケジュールを生成してください。")
                         praise))
                (setSubjects (subjects st ++ [newSubject])
                   (setIdsDrawn (S (idsDrawn st)) st))))
    end.

(** Lines 205-208. *)
Definition deleteSubject (id_ : string) (st : State) : State :=
  setSchedule
    (List.filter (fun t => negb (String.eqb (subjectId t) id_)) (schedule st))
    (setSubjects
       (List.filter (fun s => negb (String.eqb (id s) id_)) (subjects st)) st).

(** Lines 210-212. *)
Definition deleteTask (taskId : string) (st : State) : State :=
  setSchedule
    (List.filter (fun t => negb (String.eqb (task_id t) taskId)) (schedule st)) st.

(** [generateSchedule] as a step of the component (lines 217-348):
    with no subject nothing is set. *)
Definition runGenerateSchedule (today : Date) (st : State) : option State :=
  match subjects st with
  | [] => Some st
  | _ :: _ =>
      match generateSchedule uuids (idsDrawn st) (subjects st) (schedule st)
              (settings st) today with
      | None => None
      | Some out =>
          Some (setFeedback
                  (Some (mkFeedback
                           ("スケジュールを再生成しました（1日最大"
                            ++ String_ (maxSubjectsPerDay (settings st))
                            ++ "科目）")
                           praise))
                  (setSchedule (out_schedule out)
                     (setIdsDrawn (out_uuidCalls out) st)))
      end
  end.

(** Lines 351-356. *)
Definition markCompleted (task : DailyTask) (actualMins : Z) (t : DailyTask)
    : DailyTask :=
  if String.eqb (task_id t) (task_id task)
  then mkDailyTask (task_id t) (subjectId t) (date t) (plannedMinutes t)
         true actualMins (isFixed t)
  else t.

(** Lines 360-379. *)
Definition completionFeedback (task : DailyTask) (actualMins : Z) : Feedback :=
  let diff := actualMins - plannedMinutes task in
  if 0 <=? diff then
    mkFeedback
      ("素晴らしい！予定より"
       ++ (if (diff =? 0)%Z then "ぴったり" else String_ diff ++ "分多く")
       ++ "勉強しました。")
      praise
  else if 0 <? actualMins then
    mkFeedback
      ("お疲れ様。予定より" ++ String_ (Z.abs diff)
       ++ "分少ないですが、継続が大事です。")
      scold
  else
    mkFeedback "サボりは禁物です。次は頑張りましょう。" scold.

(** Lines 350-385. *)
Definition handleTaskComplete (task : DailyTask) (actualMins : Z) (st : State)
    : State :=
  let updatedSchedule := List.map (markCompleted task actualMins) (schedule st) in
  setView dashboard
    (setIsTimerRunning false
       (setTimerSeconds 0
          (setActiveTask None
             (setFeedback (Some (completionFeedback task actualMins))
                (setSchedule updatedSchedule st))))).

(** The minutes the button of lines 480-493 records. [userActual] is
    the answer to the prompt: [None] when it is dismissed, and
    otherwise what [parseInt] makes of the text, [None] standing for
    [NaN]. *)
Definition recordedMinutes (timerSeconds : Z) (parsed : option Z) : Z :=
  let actual := ceilDiv timerSeconds 60 in
  match parsed with
  | Some n => if n =? 0 then actual else n
  | None => actual
  end.

Definition completeClick (userActual : option (option Z)) (st : State) : State :=
  match activeTask st, userActual with
  | Some task, Some parsed =>
      handleTaskComplete task (recordedMinutes (timerSeconds st) parsed) st
  | _, _ => st
  end.

(** A click on the chip of a task (lines 880-885). *)
Definition openTask (task : DailyTask) (st : State) : State :=
  if completed task then st
  else setView timer (setActiveTask (Some task) st).

(** Lines 502-506. *)
Definition cancelTimer (st : State) : State :=
  setIsTimerRunning false (setActiveTask None (setView dashboard st)).

(** One second of the running timer (line 433). *)
Definition tick (st : State) : State :=
  setTimerSeconds (timerSeconds st + 1) st.

(** The arrows of the calendar (lines 766-774 and 786-794). *)
Definition showMonth (delta : Z) (st : State) : State :=
  setCurrentDateForCalendar
    (setMonth (currentDateForCalendar st)
       (getMonth (currentDateForCalendar st) + delta)) st.

(** What a user can do to the component, and the second of the timer
    (lines 433, 466, 481-506, 568-696, 737-796, 880-906 and 955). *)
Inductive Event :=
| TypeSubjectName (v : string)
| PickDifficulty (v : Z)
| PickDate (v : string)
| AddSubject (color : string)
| ChangeWeekdayHours (v : Z)
| ChangeWeekendHours (v : Z)
| ChangeMaxSubjectsPerDay (v : Z)
| DeleteSubject (id_ : string)
| GenerateSchedule (today : Date)
| PreviousMonth
| ThisMonth (now : Date)
| NextMonth
| OpenTask (task : DailyTask)
| DeleteTask (taskId : string)
| CloseFeedback
| Tick
| ToggleTimer
| CompleteTask (userActual : option (option Z))
| CancelTimer.

Definition handle (e : Event) (st : State) : option State :=
  match e with
  | TypeSubjectName v => Some (setFormSubjectName v st)
  | PickDifficulty v => Some (setFormDifficulty v st)
  | PickDate v => Some (setFormDate v st)
  | AddSubject color => Some (addSubject color st)
  | ChangeWeekdayHours v =>
      Some (setSettings
              (mkUserSettings v (weekendHours (settings st))
                 (maxSubjectsPerDay (settings st))) st)
  | ChangeWeekendHours v =>
      Some (setSettings
              (mkUserSettings (weekdayHours (settings st)) v
                 (maxSubjectsPerDay (settings st))) st)
  | ChangeMaxSubjectsPerDay v =>
      Some (setSettings
              (mkUserSettings (weekdayHours (settings st))
                 (weekendHours (settings st)) v) st)
  | DeleteSubject id_ => Some (deleteSubject id_ st)
  | GenerateSchedule today => runGenerateSchedule today st
  | PreviousMonth => Some (showMonth (-1) st)
  | ThisMonth now => Some (setCurrentDateForCalendar now st)
  | NextMonth => Some (showMonth 1 st)
  | OpenTask task => Some (openTask task st)
  | DeleteTask taskId => Some (deleteTask taskId st)
  | CloseFeedback => Some (setFeedback None st)
  | Tick => Some (tick st)
  | ToggleTimer => Some (setIsTimerRunning (negb (isTimerRunning st)) st)
  | CompleteTask userActual => Some (completeClick userActual st)
  | CancelTimer => Some (cancelTimer st)
  end.

(** The state after a sequence of events. *)
Fixpoint run (es : list Event) (st : State) : option State :=
  match es with
  | [] => Some st
  | e :: es' =>
      match handle e st with
      | None => None
      | Some st' => run es' st'
      end
  end.

End Handlers.

End App.


(** A state in good order: no two subjects have the same name or the
    same identifier, no two tasks have the same identifier, every
    task is of a subject of the list, and the identifiers are values
    that [uuid ()] has returned. *)
Definition wellFormed (uuids : nat -> string) (st : App.State) : Prop :=
  NoDup (List.map name (App.subjects st))
  /\ NoDup (List.map id (App.subjects st))
  /\ NoDup (List.map task_id (App.schedule st))
  /\ (forall t, t ∈ App.schedule st ->
        exists s, s ∈ App.subjects st /\ id s = subjectId t)
  /\ (forall x, x ∈ List.map id (App.subjects st)
                    ++ List.map task_id (App.schedule st) ->
        exists k, (k < App.idsDrawn st)%nat /\ x = uuids k).

(** ** Sample data *)

Definition ex_uuids (n : nat) : string := ("task-" ++ String_ (Z.of_nat n))%string.

(** Tuesday 3 November 2026. *)
Definition ex_today : Date := mkDate 2026 10 3.

Definition ex_settings : UserSettings := mkUserSettings 2 5 3.

Definition ex_math : Subject :=
  mkSubject "s-math" "Math" 1 "2026-11-20" "bg-red-200 text-red-800".

Definition ex_physics : Subject :=
  mkSubject "s-phys" "Physics" 2 "2026-11-20" "bg-sky-200 text-sky-800".


(** Two completed tasks of the day, each 60 minutes of 60 planned. *)
Definition ex_math_done : DailyTask :=
  mkDailyTask "t2" "s-math" "2026-11-03" 60 true 60 false.

Definition ex_physics_done : DailyTask :=
  mkDailyTask "t3" "s-phys" "2026-11-03" 60 true 60 false.

(** A task of the day, planned for 120 minutes and completed after
    170. *)
Definition ex_overrun : DailyTask :=
  mkDailyTask "t4" "s-math" "2026-11-03" 120 true 170 false.

(** A task of the second day, planned for 60 minutes and completed
    after 30. *)
Definition ex_short_done : DailyTask :=
  mkDailyTask "t6" "s-math" "2026-11-04" 60 true 30 false.

(** A task that was never started. *)
Definition ex_stale : DailyTask :=
  mkDailyTask "t7" "s-gone" "2026-11-03" 60 false 0 false.

(** A subject whose test was yesterday. *)
Definition ex_history : Subject :=
  mkSubject "s-hist" "History" 3 "2026-11-02" "bg-teal-200 text-teal-800".


(** * Proofs *)

(** ** The model on small inputs *)

Example toLocalDateString_ex :
  toLocalDateString (mkDate 2026 10 3) = "2026-11-03"%string
  /\ toLocalDateString (addDays 364 (mkDate 2026 10 3)) = "2027-11-02"%string.
Proof. split; vm_compute; reflexivity. Qed.

(** Thursday 1 January 1970, Thursday 29 February 2024, and a Tuesday,
    a Saturday and a Sunday of November 2026. *)
Example getDay_ex :
  getDay (mkDate 1970 0 1) = 4 /\ getDay (mkDate 2024 1 29) = 4
  /\ getDay (mkDate 2026 10 3) = 2 /\ getDay (mkDate 2026 10 7) = 6
  /\ getDay (mkDate 2026 10 8) = 0.
Proof. repeat split; reflexivity. Qed.

Example setDate_ex :
  setDate (mkDate 2026 11 31) 32 = mkDate 2027 0 1
  /\ setDate (mkDate 2028 1 28) 29 = mkDate 2028 1 29
  /\ setDate (mkDate 2027 1 28) 29 = mkDate 2027 2 1.
Proof. repeat split; reflexivity. Qed.

(** One subject of 360 minutes, 2 hours on weekdays, from a Tuesday:
    three days of 120 minutes, each put together from slots of 30. *)
Example one_subject_ex :
  exists out,
    generateSchedule ex_uuids 0 [ex_physics] [] ex_settings ex_today = Some out
    /\ List.map taskContent (out_schedule out)
       = [("s-phys", "2026-11-03", 120, false, 0, false);
          ("s-phys", "2026-11-04", 120, false, 0, false);
          ("s-phys", "2026-11-05", 120, false, 0, false)]%string
    /\ out_daysCount out = 3.
Proof. eexists. split; [vm_compute; reflexivity|]. split; reflexivity. Qed.

(** Two subjects with the same test date, 1 hour a day, one subject a
    day: the harder one has the first day to itself. *)
Example one_subject_a_day_ex :
  exists out,
    generateSchedule ex_uuids 0 [ex_math; ex_physics] [] (mkUserSettings 1 1 1)
      ex_today = Some out
    /\ List.map taskContent (tasksOn "2026-11-03" (out_schedule out))
       = [("s-phys", "2026-11-03", 60, false, 0, false)]%string.
Proof. eexists. split; [vm_compute; reflexivity|]. reflexivity. Qed.

(** Two subjects share a day of 2 hours by turns of 30 minutes. *)
Example round_robin_ex :
  exists out,
    generateSchedule ex_uuids 0 [ex_math; ex_physics] [] ex_settings ex_today
    = Some out
    /\ List.map taskContent (tasksOn "2026-11-03" (out_schedule out))
       = [("s-phys", "2026-11-03", 60, false, 0, false);
          ("s-math", "2026-11-03", 60, false, 0, false)]%string.
Proof. eexists. split; [vm_compute; reflexivity|]. reflexivity. Qed.

(** ** Sums, searches, sorting *)

Lemma fold_left_sum_acc {A} (f : A -> Z) (l : list A) (a : Z) :
  fold_left (fun sum t => sum + f t) l a = a + reduce_sum f l.
Proof.
  unfold reduce_sum. revert a.
  induction l as [|x l IH]; intros a; simpl; [lia|].
  rewrite IH, (IH (0 + f x)). lia.
Qed.

Lemma reduce_sum_nil {A} (f : A -> Z) : reduce_sum f [] = 0.
Proof. reflexivity. Qed.

Lemma reduce_sum_cons {A} (f : A -> Z) (x : A) (l : list A) :
  reduce_sum f (x :: l) = f x + reduce_sum f l.
Proof. unfold reduce_sum at 1. simpl. rewrite fold_left_sum_acc. lia. Qed.


Lemma sort_insert_Permutation {A} (cmp : A -> A -> Z) (x : A) (l : list A) :
  Permutation (sort_insert cmp x l) (x :: l).
Proof.
  induction l as [|y l IH]; simpl; [done|].
  destruct (cmp x y <=? 0); [done|].
  rewrite IH. apply perm_swap.
Qed.

Lemma sort_Permutation {A} (cmp : A -> A -> Z) (l : list A) :
  Permutation (sort cmp l) l.
Proof.
  induction l as [|x l IH]; simpl; [done|].
  rewrite sort_insert_Permutation. by constructor.
Qed.

(** ** The [while] loop *)

(** An invariant of the body holds at the exit, where the guard is
    false. *)
Lemma while_ind {S} (P : S -> Prop) (guard : S -> bool) (body : S -> option S) :
  (forall s s', P s -> guard s = true -> body s = Some s' -> P s') ->
  forall fuel s r, P s -> while fuel guard body s = Some r ->
                   P r /\ guard r = false.
Proof.
  intros Hstep fuel. induction fuel as [|fuel IH]; intros s r HP Hw; simpl in Hw.
  - destruct (guard s) eqn:Hg; [discriminate|]. by inversion Hw; subst.
  - destruct (guard s) eqn:Hg; [|by inversion Hw; subst].
    destruct (body s) as [s'|] eqn:Hb; [|discriminate].
    eapply IH; [|exact Hw]. eauto.
Qed.

(** With a measure that every pass decreases, fuel above the measure
    is enough. *)
Lemma while_total {S} (P : S -> Prop) (mu : S -> nat) (guard : S -> bool)
    (body : S -> option S) :
  (forall s, P s -> guard s = true ->
             exists s', body s = Some s' /\ P s' /\ (mu s' < mu s)%nat) ->
  forall fuel s, P s -> (mu s <= fuel)%nat ->
                 exists r, while fuel guard body s = Some r.
Proof.
  intros Hstep fuel. induction fuel as [|fuel IH]; intros s HP Hmu; simpl.
  - destruct (guard s) eqn:Hg; [|eauto].
    destruct (Hstep s HP Hg) as (s' & _ & _ & Hlt). lia.
  - destruct (guard s) eqn:Hg; [|eauto].
    destruct (Hstep s HP Hg) as (s' & -> & HP' & Hlt).
    apply IH; [done|lia].
Qed.

(** Two loops that run in step end in related states. *)
Lemma while_rel {S} (R : S -> S -> Prop) (guard1 guard2 : S -> bool)
    (body1 body2 : S -> option S) :
  (forall s1 s2, R s1 s2 -> guard1 s1 = guard2 s2) ->
  (forall s1 s2 s1', R s1 s2 -> body1 s1 = Some s1' ->
                     exists s2', body2 s2 = Some s2' /\ R s1' s2') ->
  forall fuel s1 s2 r1, R s1 s2 -> while fuel guard1 body1 s1 = Some r1 ->
    exists r2, while fuel guard2 body2 s2 = Some r2 /\ R r1 r2.
Proof.
  intros Hg Hb fuel. induction fuel as [|fuel IH]; intros s1 s2 r1 HR Hw; simpl in *.
  - rewrite <- (Hg _ _ HR). destruct (guard1 s1); [discriminate|].
    inversion Hw; subst. eauto.
  - rewrite <- (Hg _ _ HR). destruct (guard1 s1); [|inversion Hw; subst; eauto].
    destruct (body1 s1) as [s1'|] eqn:Hb1; [|discriminate].
    destruct (Hb _ _ _ HR Hb1) as (s2' & -> & HR'). eauto.
Qed.

(** ** Tasks and their keys *)

Lemma String_eqb_true (a b : string) : String.eqb a b = true <-> a = b.
Proof. apply String.eqb_eq. Qed.

Lemma elem_of_tasksOn (x : string) (t : DailyTask) (l : list DailyTask) :
  t ∈ tasksOn x l <-> t ∈ l /\ date t = x.
Proof.
  unfold tasksOn. rewrite !list_elem_of_In, List.filter_In, String_eqb_true. tauto.
Qed.

Lemma elem_of_subjectIdsOn (x s : string) (l : list DailyTask) :
  s ∈ subjectIdsOn x l <-> (s, x) ∈ List.map taskKey l.
Proof.
  unfold subjectIdsOn. rewrite elem_of_list_to_set, !list_elem_of_In, !List.in_map_iff.
  split.
  - intros (t & <- & Ht). apply list_elem_of_In, elem_of_tasksOn in Ht as [Ht <-].
    exists t. split; [done|]. by apply list_elem_of_In.
  - intros (t & Hk & Ht). inversion Hk; subst. exists t. split; [done|].
    apply list_elem_of_In, elem_of_tasksOn. split; [|done]. by apply list_elem_of_In.
Qed.

Lemma tasksOn_app (x : string) (l1 l2 : list DailyTask) :
  tasksOn x (l1 ++ l2) = tasksOn x l1 ++ tasksOn x l2.
Proof. apply List.filter_app. Qed.


Lemma subjectIdsOn_app (x : string) (l1 l2 : list DailyTask) :
  subjectIdsOn x (l1 ++ l2) = subjectIdsOn x l1 ∪ subjectIdsOn x l2.
Proof.
  unfold subjectIdsOn. rewrite tasksOn_app, List.map_app.
  apply list_to_set_app_L.
Qed.

(** Without a task on the date, a list has neither minutes nor
    subjects there. *)
Lemma tasksOn_fresh (x : string) (l : list DailyTask) :
  (forall t, t ∈ l -> date t <> x) -> tasksOn x l = [].
Proof.
  intros H. induction l as [|t l IH]; [done|]. unfold tasksOn in *. simpl.
  destruct (String.eqb (date t) x) eqn:E.
  - apply String_eqb_true in E. exfalso. eapply H; [|exact E]. by left.
  - apply IH. intros t' Ht'. apply H. by right.
Qed.

Lemma addPlanned_key (m : Z) (t : DailyTask) : taskKey (addPlanned m t) = taskKey t.
Proof. reflexivity. Qed.

Section MergeTask.

Variable uuids : nat -> string.
Variables dateStr sid : string.
Variable timeToAllocate : Z.

Local Abbreviation isTaskOfDay := (isTaskOfDay dateStr sid).
Local Abbreviation newTask := (newTask uuids dateStr sid timeToAllocate).

Lemma isTaskOfDay_true (t : DailyTask) :
  isTaskOfDay t = true <-> taskKey t = (sid, dateStr).
Proof.
  unfold isTaskOfDay, taskKey. rewrite andb_true_iff, !String_eqb_true.
  split; [intros [-> ->]; done | intros H; inversion H; done].
Qed.

Lemma mergeTask_nil (calls : nat) :
  mergeTask uuids dateStr sid timeToAllocate [] calls = ([newTask calls], S calls).
Proof. reflexivity. Qed.

(** The search and the update, read off the head of the list. *)
Lemma mergeTask_cons (t : DailyTask) (l : list DailyTask) (calls : nat) :
  mergeTask uuids dateStr sid timeToAllocate (t :: l) calls =
  if isTaskOfDay t then (addPlanned timeToAllocate t :: l, calls)
  else (t :: fst (mergeTask uuids dateStr sid timeToAllocate l calls),
        snd (mergeTask uuids dateStr sid timeToAllocate l calls)).
Proof.
  unfold mergeTask, isTaskOfDay. simpl.
  destruct (String.eqb (date t) dateStr && String.eqb (subjectId t) sid); [done|].
  destruct (findIndex _ l); reflexivity.
Qed.

(** The keys of the list: unchanged when the key of the day is there,
    extended by it otherwise. *)
Lemma mergeTask_keys (l : list DailyTask) (calls : nat) :
  List.map taskKey (fst (mergeTask uuids dateStr sid timeToAllocate l calls)) =
  if decide ((sid, dateStr) ∈ List.map taskKey l) then List.map taskKey l
  else List.map taskKey l ++ [(sid, dateStr)].
Proof.
  induction l as [|t l IH].
  - rewrite mergeTask_nil. reflexivity.
  - rewrite mergeTask_cons. destruct (isTaskOfDay t) eqn:E.
    + apply isTaskOfDay_true in E. cbn [fst List.map]. rewrite addPlanned_key, E.
      rewrite decide_True; [done|by left].
    + cbn [fst List.map]. rewrite IH.
      assert (taskKey t <> (sid, dateStr)) as Hne.
      { intros Hk. apply isTaskOfDay_true in Hk. congruence. }
      destruct (decide ((sid, dateStr) ∈ List.map taskKey l)) as [Hin|Hin];
        destruct (decide ((sid, dateStr) ∈ taskKey t :: List.map taskKey l))
          as [Hin'|Hin']; try done.
      * exfalso. apply Hin'. by right.
      * apply elem_of_cons in Hin' as [?|?]; [congruence|done].
Qed.

(** Planned minutes summed over the tasks whose key satisfies [q]. *)
Lemma mergeTask_minutes (q : string * string -> bool) (l : list DailyTask)
    (calls : nat) :
  reduce_sum plannedMinutes
    (List.filter (fun t => q (taskKey t))
       (fst (mergeTask uuids dateStr sid timeToAllocate l calls))) =
  reduce_sum plannedMinutes (List.filter (fun t => q (taskKey t)) l)
  + (if q (sid, dateStr) then timeToAllocate else 0).
Proof.
  induction l as [|t l IH].
  - rewrite mergeTask_nil. simpl. unfold taskKey at 1. simpl.
    destruct (q (sid, dateStr)); simpl; rewrite ?reduce_sum_cons, ?reduce_sum_nil; simpl; lia.
  - rewrite mergeTask_cons. destruct (isTaskOfDay t) eqn:E.
    + apply isTaskOfDay_true in E. simpl. rewrite addPlanned_key, E.
      destruct (q (sid, dateStr)); [|lia].
      rewrite !reduce_sum_cons. simpl. lia.
    + simpl. destruct (q (taskKey t)); [|exact IH].
      rewrite !reduce_sum_cons, IH. lia.
Qed.

(** A property kept by the update and true of a fresh task holds of
    all tasks afterwards. *)
Lemma mergeTask_Forall (P : DailyTask -> Prop) (l : list DailyTask) (calls : nat) :
  (forall t, P t -> taskKey t = (sid, dateStr) -> P (addPlanned timeToAllocate t)) ->
  P (newTask calls) ->
  Forall P l ->
  Forall P (fst (mergeTask uuids dateStr sid timeToAllocate l calls)).
Proof.
  intros Hadd Hnew. induction l as [|t l IH]; intros Hl.
  - rewrite mergeTask_nil. simpl. by repeat constructor.
  - rewrite mergeTask_cons. inversion Hl as [|?? Ht Hl']; subst.
    destruct (isTaskOfDay t) eqn:E; simpl.
    + constructor; [|done]. apply Hadd; [done|]. by apply isTaskOfDay_true.
    + constructor; [done|]. by apply IH.
Qed.

End MergeTask.

(** ** The queue of a day *)

Lemma combine_seq_lookup {A} (l : list A) (a i : nat) (x : A) :
  (i, x) ∈ combine (seq a (length l)) l <-> (a <= i)%nat /\ l !! (i - a)%nat = Some x.
Proof.
  revert a. induction l as [|y l IH]; intros a; simpl.
  - split; [intros H; by apply elem_of_nil in H|intros [_ H]; done].
  - rewrite elem_of_cons, IH. split.
    + intros [Heq|[Hle Hl]].
      * inversion Heq; subst. split; [lia|]. by rewrite Nat.sub_diag.
      * split; [lia|]. replace (i - a)%nat with (S (i - S a)) by lia. done.
    + intros [Hle Hl]. destruct (decide (i = a)) as [->|Hne].
      * left. rewrite Nat.sub_diag in Hl. simpl in Hl. congruence.
      * right. split; [lia|]. replace (i - a)%nat with (S (i - S a)) in Hl by lia. done.
Qed.

Lemma combine_seq_NoDup {A} (l : list A) (a : nat) :
  NoDup (List.map fst (combine (seq a (length l)) l)).
Proof.
  assert (List.map fst (combine (seq a (length l)) l) = seq a (length l)) as ->.
  { revert a. induction l as [|y l IH]; intros a; simpl; [done|]. by rewrite IH. }
  apply NoDup_ListNoDup, List.seq_NoDup.
Qed.

Lemma NoDup_map_filter {A B} (f : A -> B) (p : A -> bool) (l : list A) :
  NoDup (List.map f l) -> NoDup (List.map f (List.filter p l)).
Proof.
  induction l as [|x l IH]; simpl; [done|].
  intros Hnd. apply NoDup_cons in Hnd as [Hx Hnd].
  destruct (p x); simpl; [|by apply IH].
  apply NoDup_cons. split; [|by apply IH].
  intros Hin. apply Hx. apply list_elem_of_In, List.in_map_iff in Hin as (y & Hy & Hin).
  apply List.filter_In in Hin as [Hin _].
  apply list_elem_of_In, List.in_map_iff. eauto.
Qed.

Lemma buildActiveSubjects_spec (dateStr : string) (pw : list WorkItem) :
  NoDup (buildActiveSubjects dateStr pw) /\
  forall r, r ∈ buildActiveSubjects dateStr pw ->
    exists w, pw !! r = Some w /\ 0 < minutesNeeded w
              /\ String.leb dateStr (testDate (subject w)) = true.
Proof.
  unfold buildActiveSubjects.
  set (p := fun iw : nat * WorkItem =>
              String.leb dateStr (testDate (subject (snd iw)))
              && (0 <? minutesNeeded (snd iw))).
  set (cmp := fun a b : nat * WorkItem => compareWork (snd a) (snd b)).
  assert (Permutation (List.map fst (sort cmp (List.filter p (combine (seq 0 (length pw)) pw))))
                      (List.map fst (List.filter p (combine (seq 0 (length pw)) pw)))) as Hperm.
  { apply Permutation_map, sort_Permutation. }
  split.
  - rewrite Hperm. apply NoDup_map_filter, combine_seq_NoDup.
  - intros r Hr. rewrite Hperm in Hr.
    apply list_elem_of_In, List.in_map_iff in Hr as ([i w] & <- & Hin).
    apply List.filter_In in Hin as [Hin Hp].
    apply list_elem_of_In, combine_seq_lookup in Hin as [_ Hl].
    rewrite Nat.sub_0_r in Hl. unfold p in Hp. simpl in *.
    apply andb_true_iff in Hp as [Hd Hn]. exists w. repeat split; [done| lia |done].
Qed.

Section SlotLoop.

Variable uuids : nat -> string.
Variable settings : UserSettings.
Variable dateStr : string.
Variable maxMinutes : Z.

Local Abbreviation body := (slotBody uuids settings dateStr maxMinutes).
Local Abbreviation guard := (slotGuard maxMinutes).

(** What a pass of the inner loop does, by cases. *)
Lemma slotBody_cases (st st' : Locals) :
  body st = Some st' ->
  exists r rest work,
    activeSubjects st = r :: rest /\ pendingWork st !! r = Some work /\
    ((capGate settings (assignedSubjectIdsToday st) (id (subject work)) = true /\
      st' = mkLocals (pendingWork st) (newAutoTasks st) (currentDate st)
              (daysCount st) (assignedSubjectIdsToday st)
              (minutesAllocatedToday st) rest (uuidCalls st))
     \/
     (capGate settings (assignedSubjectIdsToday st) (id (subject work)) = false /\
      exists t, t = Z.min (Z.min slot (maxMinutes - minutesAllocatedToday st))
                          (minutesNeeded work) /\
      st' = mkLocals
              (<[r := mkWorkItem (subject work) (minutesNeeded work - t)]>
                 (pendingWork st))
              (fst (mergeTask uuids dateStr (id (subject work)) t
                      (newAutoTasks st) (uuidCalls st)))
              (currentDate st) (daysCount st)
              ({[ id (subject work) ]} ∪ assignedSubjectIdsToday st)
              (minutesAllocatedToday st + t)
              (if minutesNeeded work - t <=? 0 then rest else rest ++ [r])
              (snd (mergeTask uuids dateStr (id (subject work)) t
                      (newAutoTasks st) (uuidCalls st))))).
Proof.
  unfold slotBody. intros H.
  destruct (activeSubjects st) as [|r rest]; [discriminate|].
  destruct (pendingWork st !! r) as [work|] eqn:Hw; [|discriminate].
  exists r, rest, work. split; [done|]. split; [done|].
  destruct (capGate settings (assignedSubjectIdsToday st) (id (subject work)));
    inversion H; subst; clear H; [left; done|right].
  split; [done|]. eexists. split; [reflexivity|]. reflexivity.
Qed.

Lemma slotGuard_true (st : Locals) :
  guard st = true ->
  minutesAllocatedToday st < maxMinutes /\ activeSubjects st <> [].
Proof.
  unfold slotGuard. rewrite andb_true_iff. intros [H1 H2].
  apply Z.ltb_lt in H1. split; [done|].
  destruct (activeSubjects st); [discriminate|done].
Qed.

(** The minutes of a slot are positive when the head of the queue
    needs minutes and the day has room. *)
Lemma timeToAllocate_pos (alloc need : Z) :
  alloc < maxMinutes -> 0 < need ->
  0 < Z.min (Z.min slot (maxMinutes - alloc)) need <= need.
Proof. unfold slot. lia. Qed.

Lemma queueOK_step (st st' : Locals) :
  queueOK dateStr st -> guard st = true -> body st = Some st' ->
  queueOK dateStr st'.
Proof.
  intros [Hnd Hq] Hg Hb. apply slotGuard_true in Hg as [Hlt _].
  apply slotBody_cases in Hb as (r & rest & work & Hact & Hw & Hcase).
  rewrite Hact in Hnd, Hq. apply NoDup_cons in Hnd as [Hr Hnd].
  destruct Hcase as [[_ ->]|[_ (t & Ht & ->)]]; unfold queueOK; simpl.
  - split; [done|]. intros r' Hr'. apply Hq. by right.
  - destruct (Hq r) as (w & Hw' & Hneed & Hdl); [by left|].
    assert (w = work) as -> by congruence.
    assert (r < length (pendingWork st))%nat as Hlen by (by eapply lookup_lt_Some).
    assert (forall r', r' ∈ rest ->
              exists w, <[r := mkWorkItem (subject work) (minutesNeeded work - t)]>
                          (pendingWork st) !! r' = Some w
                        /\ 0 < minutesNeeded w
                        /\ String.leb dateStr (testDate (subject w)) = true) as Hrest.
    { intros r' Hr'. rewrite list_lookup_insert_ne; [|intros ->; done].
      apply Hq. by right. }
    destruct (minutesNeeded work - t <=? 0) eqn:Hz.
    + split; done.
    + split.
      * apply NoDup_app. split; [done|]. split; [|apply NoDup_singleton].
        intros x Hx Hx'. apply list_elem_of_singleton in Hx'. by subst.
      * intros r' Hr'. apply elem_of_app in Hr' as [Hr'|Hr']; [by apply Hrest|].
        apply list_elem_of_singleton in Hr' as ->.
        rewrite list_lookup_insert_eq by done. eexists. split; [done|].
        simpl. split; [lia|done].
Qed.

(** Each pass either drops the head of the queue or uses up room of
    the day. *)
Lemma slotBody_progress (st : Locals) :
  queueOK dateStr st -> guard st = true ->
  exists st', body st = Some st' /\ queueOK dateStr st'
              /\ (slotFuel maxMinutes st' < slotFuel maxMinutes st)%nat.
Proof.
  intros HQ Hg. pose proof HQ as [Hnd Hq].
  pose proof (slotGuard_true _ Hg) as [Hlt Hne].
  destruct (activeSubjects st) as [|r rest] eqn:Hact; [done|].
  destruct (Hq r) as (work & Hw & Hneed & Hdl); [by left|].
  destruct (body st) as [st'|] eqn:Hb.
  2:{ unfold slotBody in Hb. rewrite Hact, Hw in Hb.
      destruct (capGate _ _ _); discriminate. }
  exists st'. split; [done|]. split; [by eapply queueOK_step|].
  apply slotBody_cases in Hb as (r0 & rest0 & work0 & Hact0 & Hw0 & Hcase).
  rewrite Hact in Hact0. inversion Hact0; subst r0 rest0.
  assert (work0 = work) as -> by congruence.
  unfold slotFuel. rewrite Hact.
  destruct Hcase as [[_ ->]|[_ (t & Ht & ->)]]; simpl; [lia|].
  pose proof (timeToAllocate_pos (minutesAllocatedToday st) _ Hlt Hneed) as Hpos.
  rewrite <- Ht in Hpos.
  destruct (minutesNeeded work - t <=? 0); rewrite ?length_app; simpl; lia.
Qed.

(** The inner loop ends; [slotFuel] is enough for it. *)
Lemma slot_loop_total (st : Locals) :
  queueOK dateStr st ->
  exists r, while (slotFuel maxMinutes st) guard body st = Some r.
Proof.
  intros HQ.
  apply (while_total (queueOK dateStr) (slotFuel maxMinutes)); [|done|lia].
  intros s Hs Hg. apply slotBody_progress; done.
Qed.

(** Invariants of the inner loop may rely on the shape of the queue. *)
Lemma slot_loop_ind (P : Locals -> Prop) :
  (forall st st', queueOK dateStr st -> guard st = true -> P st ->
                  body st = Some st' -> P st') ->
  forall fuel st r, queueOK dateStr st -> P st ->
    while fuel guard body st = Some r -> P r /\ queueOK dateStr r.
Proof.
  intros Hstep fuel st r HQ HP Hw.
  destruct (while_ind (fun s => queueOK dateStr s /\ P s) guard body) with
    (fuel := fuel) (s := st) (r := r) as [[? ?] _]; try done.
  intros s s' [HQs HPs] Hg Hb. split; [by eapply queueOK_step|by eapply Hstep].
Qed.

End SlotLoop.

(** ** Dates and their strings *)

(** Linear arithmetic with division and remainder by constants. *)
Ltac dlia := Z.div_mod_to_equations; lia.

Lemma DaysInMonth_bounds (y m : Z) : 28 <= DaysInMonth y m <= 31.
Proof.
  unfold DaysInMonth.
  destruct (m =? 1); [destruct (InLeapYear y); lia|].
  destruct ((m =? 3) || (m =? 5) || (m =? 8) || (m =? 10)); lia.
Qed.

Lemma nextDay_valid (d : Date) : valid d -> valid (nextDay d).
Proof.
  unfold valid, nextDay, setDate. intros [Hm Hd].
  pose proof (DaysInMonth_bounds (getFullYear d) (getMonth d)).
  pose proof (DaysInMonth_bounds (getFullYear d) (getMonth d + 1)).
  pose proof (DaysInMonth_bounds (getFullYear d + 1) 0).
  destruct (getDate d + 1 <=? DaysInMonth (getFullYear d) (getMonth d)) eqn:E1; simpl.
  - lia.
  - destruct (getMonth d <? 11) eqn:E2; simpl; lia.
Qed.

Lemma nextDay_rank (d : Date) : valid d -> dateRank d < dateRank (nextDay d).
Proof.
  unfold valid, nextDay, setDate, dateRank. intros [Hm Hd].
  pose proof (DaysInMonth_bounds (getFullYear d) (getMonth d)).
  destruct (getDate d + 1 <=? DaysInMonth (getFullYear d) (getMonth d)) eqn:E1; simpl.
  - lia.
  - destruct (getMonth d <? 11) eqn:E2; simpl; lia.
Qed.

Lemma nextDay_year (d : Date) : getFullYear d <= getFullYear (nextDay d).
Proof.
  unfold nextDay, setDate.
  destruct (_ <=? _); simpl; [lia|]. destruct (_ <? _); simpl; lia.
Qed.

Lemma addDays_S (n : nat) (d : Date) : addDays (S n) d = nextDay (addDays n d).
Proof. reflexivity. Qed.

Lemma addDays_valid (n : nat) (d : Date) : valid d -> valid (addDays n d).
Proof.
  intros Hv. induction n as [|n IH]; [done|]. rewrite addDays_S. by apply nextDay_valid.
Qed.

Lemma addDays_rank (n k : nat) (d : Date) :
  valid d -> dateRank (addDays n d) + Z.of_nat k <= dateRank (addDays (n + k) d).
Proof.
  intros Hv. induction k as [|k IH].
  - rewrite Nat.add_0_r. lia.
  - replace (n + S k)%nat with (S (n + k)) by lia. rewrite addDays_S.
    pose proof (nextDay_rank (addDays (n + k) d) (addDays_valid _ _ Hv)). lia.
Qed.

Lemma addDays_year (n k : nat) (d : Date) :
  getFullYear (addDays n d) <= getFullYear (addDays (n + k) d).
Proof.
  induction k as [|k IH].
  - rewrite Nat.add_0_r. lia.
  - replace (n + S k)%nat with (S (n + k)) by lia. rewrite addDays_S.
    pose proof (nextDay_year (addDays (n + k) d)). lia.
Qed.

(** The outer loop never comes back to a date. *)
Lemma addDays_inj (i j : nat) (d : Date) :
  valid d -> addDays i d = addDays j d -> i = j.
Proof.
  intros Hv Heq.
  destruct (Nat.lt_trichotomy i j) as [Hlt|[->|Hlt]]; [|done|].
  - pose proof (addDays_rank i (j - i) d Hv) as H.
    replace (i + (j - i))%nat with j in H by lia. rewrite Heq in H. lia.
  - pose proof (addDays_rank j (i - j) d Hv) as H.
    replace (j + (i - j))%nat with i in H by lia. rewrite Heq in H. lia.
Qed.

(** *** Decimal digits *)

Lemma forallb_seq (p : nat -> bool) (a len : nat) (k : Z) :
  forallb p (seq a len) = true ->
  Z.of_nat a <= k < Z.of_nat a + Z.of_nat len -> p (Z.to_nat k) = true.
Proof.
  intros H Hk. rewrite List.forallb_forall in H. apply H, List.in_seq. lia.
Qed.

Lemma padStart_twoDigits (k : Z) :
  0 <= k < 100 -> padStart (String_ k) 2 "0" = twoDigits k.
Proof.
  intros Hk.
  assert (forallb (fun n => String.eqb (padStart (String_ (Z.of_nat n)) 2 "0")
                              (twoDigits (Z.of_nat n))) (seq 0 100) = true) as H
    by (vm_compute; reflexivity).
  apply (forallb_seq _ _ _ k) in H; [|lia]. cbv beta in H.
  rewrite Z2Nat.id in H by lia. by apply String_eqb_true.
Qed.

Lemma String_fourDigits_table :
  forallb (fun n => String.eqb (String_ (Z.of_nat n)) (fourDigits (Z.of_nat n)))
    (seq (Z.to_nat 1000) (Z.to_nat 9000)) = true.
Proof. vm_cast_no_check (eq_refl true). Qed.

Lemma String_fourDigits (k : Z) :
  1000 <= k <= 9999 -> String_ k = fourDigits k.
Proof.
  intros Hk. pose proof String_fourDigits_table as H.
  apply (forallb_seq _ _ _ k) in H; [|lia]. cbv beta in H.
  rewrite Z2Nat.id in H by lia. by apply String_eqb_true.
Qed.

Lemma String__inj (a b : Z) : String_ a = String_ b -> a = b.
Proof.
  unfold String_. intros H. apply DecimalZ.to_int_inj.
  assert (forall z, NilZero.int_of_string (NilZero.string_of_int (Z.to_int z))
                    = Some (Z.to_int z)) as Hisi.
  { intros z. apply NilZero.isi; destruct z; simpl; try discriminate;
      intros [= E]; by apply DecimalPos.Unsigned.to_uint_nonnil in E. }
  apply (f_equal NilZero.int_of_string) in H. rewrite !Hisi in H. congruence.
Qed.

Lemma digit_compare (a b : Z) :
  0 <= a <= 9 -> 0 <= b <= 9 -> Ascii.compare (digit a) (digit b) = (a ?= b).
Proof.
  intros Ha Hb. unfold Ascii.compare, digit.
  rewrite !N_ascii_embedding by lia.
  rewrite <- N2Z.inj_compare, !N2Z.inj_add, !Z2N.id by lia.
  apply Z.add_compare_mono_l.
Qed.

Lemma digit_inj (a b : Z) : 0 <= a <= 9 -> 0 <= b <= 9 -> digit a = digit b -> a = b.
Proof.
  intros Ha Hb H. apply Z.compare_eq. rewrite <- digit_compare by done.
  rewrite H. unfold Ascii.compare. apply N.compare_refl.
Qed.

(** *** The order of strings *)

Lemma Ascii_compare_refl (a : ascii) : Ascii.compare a a = Eq.
Proof. apply N.compare_refl. Qed.

Lemma String_compare_Lt_trans (s1 s2 s3 : string) :
  String.compare s1 s2 = Lt -> String.compare s2 s3 = Lt -> String.compare s1 s3 = Lt.
Proof.
  revert s2 s3. induction s1 as [|a s1 IH]; intros [|b s2] [|c s3]; simpl; try done.
  unfold Ascii.compare.
  destruct (N.compare_spec (N_of_ascii a) (N_of_ascii b)) as [Hab|Hab|Hab]; try done;
    destruct (N.compare_spec (N_of_ascii b) (N_of_ascii c)) as [Hbc|Hbc|Hbc]; try done;
    destruct (N.compare_spec (N_of_ascii a) (N_of_ascii c)) as [Hac|Hac|Hac];
    try done; try lia.
  apply IH.
Qed.

Lemma String_leb_trans (s1 s2 s3 : string) :
  String.leb s1 s2 = true -> String.leb s2 s3 = true -> String.leb s1 s3 = true.
Proof.
  unfold String.leb. intros H12 H23.
  destruct (String.compare s1 s2) eqn:E12; [| |done].
  - apply String.compare_eq_iff in E12. by subst.
  - destruct (String.compare s2 s3) eqn:E23; [| |done].
    + apply String.compare_eq_iff in E23. subst. by rewrite E12.
    + by rewrite (String_compare_Lt_trans _ _ _ E12 E23).
Qed.

(** [a < b] and [b <= a] exclude each other. *)
Lemma String_ltb_not_leb (s1 s2 : string) :
  String.ltb s1 s2 = true -> String.leb s2 s1 = true -> False.
Proof.
  unfold String.ltb, String.leb. rewrite (String.compare_antisym s2 s1).
  destruct (String.compare s1 s2); simpl; done.
Qed.

Lemma String_length_app (s t : string) :
  String.length (s ++ t) = (String.length s + String.length t)%nat.
Proof. induction s as [|a s IH]; simpl; [done|]. by rewrite IH. Qed.

Lemma String_app_inj (s1 s2 t1 t2 : string) :
  String.length s1 = String.length s2 ->
  (s1 ++ t1)%string = (s2 ++ t2)%string -> s1 = s2 /\ t1 = t2.
Proof.
  revert s2. induction s1 as [|a s1 IH]; intros [|b s2]; simpl; try done.
  intros Hlen Heq. inversion Heq; subst. inversion Hlen as [Hlen'].
  destruct (IH _ Hlen' H1) as [-> ->]. done.
Qed.

(** *** The string of a date *)

Lemma toLocalDateString_valid (d : Date) :
  valid d ->
  toLocalDateString d =
  (String_ (getFullYear d)
   ++ String "-" (twoDigits (getMonth d + 1)
                  ++ String "-" (twoDigits (getDate d))))%string.
Proof.
  intros [Hm Hd]. pose proof (DaysInMonth_bounds (getFullYear d) (getMonth d)).
  unfold toLocalDateString. rewrite !padStart_twoDigits by lia. reflexivity.
Qed.

(** Two dates with the same string are the same date. *)
Lemma toLocalDateString_inj (d1 d2 : Date) :
  valid d1 -> valid d2 -> toLocalDateString d1 = toLocalDateString d2 -> d1 = d2.
Proof.
  intros Hv1 Hv2. rewrite !toLocalDateString_valid by done.
  destruct Hv1 as [Hm1 Hd1], Hv2 as [Hm2 Hd2].
  pose proof (DaysInMonth_bounds (getFullYear d1) (getMonth d1)).
  pose proof (DaysInMonth_bounds (getFullYear d2) (getMonth d2)).
  intros Heq. apply String_app_inj in Heq as [Hy Hrest].
  - apply String__inj in Hy. unfold twoDigits in Hrest. simpl in Hrest.
    cbn in Hrest. injection Hrest as Ha Hb Hc He.
    apply digit_inj in Ha, Hb, Hc, He; try dlia.
    destruct d1, d2; simpl in *. f_equal; dlia.
  - apply (f_equal String.length) in Heq. rewrite !String_length_app in Heq.
    simpl in Heq. lia.
Qed.

(** With four-digit years, the strings of dates are ordered as the
    dates. *)
Lemma toLocalDateString_mono (d1 d2 : Date) :
  valid d1 -> valid d2 ->
  1000 <= getFullYear d1 <= 9999 -> 1000 <= getFullYear d2 <= 9999 ->
  dateRank d1 <= dateRank d2 ->
  String.leb (toLocalDateString d1) (toLocalDateString d2) = true.
Proof.
  intros Hv1 Hv2 Hy1 Hy2. rewrite !toLocalDateString_valid by done.
  rewrite !String_fourDigits by done.
  destruct Hv1 as [Hm1 Hd1], Hv2 as [Hm2 Hd2].
  pose proof (DaysInMonth_bounds (getFullYear d1) (getMonth d1)).
  pose proof (DaysInMonth_bounds (getFullYear d2) (getMonth d2)).
  unfold dateRank. destruct d1 as [y1 m1 a1], d2 as [y2 m2 a2]. simpl in *.
  intros Hrank. unfold String.leb, fourDigits, twoDigits. simpl.
  rewrite !digit_compare by dlia.
  repeat match goal with
         | |- context [?a ?= ?b] => destruct (Z.compare_spec a b)
         end; try done; exfalso; dlia.
Qed.

(** ** What a slot does to the observed quantities *)

Section MergeTaskObserved.

Variable uuids : nat -> string.
Variables dateStr sid : string.
Variable timeToAllocate : Z.
Variable tasks : list DailyTask.
Variable calls : nat.

Local Abbreviation merged := (fst (mergeTask uuids dateStr sid timeToAllocate tasks calls)).

Lemma mergeTask_minutesOn (x : string) :
  minutesOn x merged =
  minutesOn x tasks + (if String.eqb dateStr x then timeToAllocate else 0).
Proof.
  exact (mergeTask_minutes uuids dateStr sid timeToAllocate
           (fun k => String.eqb (snd k) x) tasks calls).
Qed.

Lemma mergeTask_minutesFor (s : string) :
  minutesFor s merged =
  minutesFor s tasks + (if String.eqb sid s then timeToAllocate else 0).
Proof.
  exact (mergeTask_minutes uuids dateStr sid timeToAllocate
           (fun k => String.eqb (fst k) s) tasks calls).
Qed.

Lemma mergeTask_key_elem (k : string * string) :
  k ∈ List.map taskKey merged <-> k ∈ List.map taskKey tasks \/ k = (sid, dateStr).
Proof.
  rewrite mergeTask_keys. case_decide as Hin.
  - split; [by left|]. intros [?| ->]; done.
  - rewrite elem_of_app, list_elem_of_singleton. done.
Qed.

Lemma mergeTask_subjectIdsOn (x : string) :
  subjectIdsOn x merged =
  if decide (x = dateStr) then {[ sid ]} ∪ subjectIdsOn x tasks
  else subjectIdsOn x tasks.
Proof.
  apply set_eq. intros s. rewrite elem_of_subjectIdsOn, mergeTask_key_elem.
  case_decide as Hx.
  - rewrite elem_of_union, elem_of_singleton, elem_of_subjectIdsOn. subst x.
    split; [intros [?|Heq]; [auto|inversion Heq; auto] | intros [->|?]; auto].
  - rewrite elem_of_subjectIdsOn.
    split; [intros [?|Heq]; [done|inversion Heq; congruence] | auto].
Qed.

Lemma mergeTask_keys_Forall (Pk : string * string -> Prop) :
  Pk (sid, dateStr) ->
  Forall Pk (List.map taskKey tasks) -> Forall Pk (List.map taskKey merged).
Proof.
  intros Hnew Hold. rewrite mergeTask_keys. case_decide; [done|].
  apply Forall_app. split; [done|]. by repeat constructor.
Qed.

Lemma mergeTask_keys_NoDup :
  NoDup (List.map taskKey tasks) -> NoDup (List.map taskKey merged).
Proof.
  intros Hnd. rewrite mergeTask_keys. case_decide as Hin; [done|].
  apply NoDup_app. split; [done|]. split; [|apply NoDup_singleton].
  intros k Hk Hk'. apply list_elem_of_singleton in Hk'. by subst.
Qed.

End MergeTaskObserved.

Lemma assignedOn_subjectIdsOn (preserved : list DailyTask) (x : string) :
  assignedOn preserved x = subjectIdsOn x preserved.
Proof.
  unfold assignedOn, subjectIdsOn.
  assert (forall (l : list DailyTask) (acc : gset string),
            fold_left (fun a t => {[ subjectId t ]} ∪ a) l acc
            = list_to_set (List.map subjectId l) ∪ acc) as H.
  { induction l as [|t l IH]; intros acc; simpl.
    - by rewrite (left_id_L ∅ (∪)).
    - rewrite IH. apply set_eq. intros y.
      rewrite !elem_of_union. tauto. }
  rewrite H. by rewrite (right_id_L ∅ (∪)).
Qed.

Lemma existingMinsOn_minutesOn (preserved : list DailyTask) (x : string) :
  existingMinsOn preserved x = minutesOn x preserved.
Proof. reflexivity. Qed.

(** ** Invariants of the inner loop *)

Ltac slot_step Hb :=
  apply slotBody_cases in Hb
    as (r & rest & work & Hact & Hw & [[Hgate ->]|[Hgate (t & Ht & ->)]]);
  cbn [pendingWork newAutoTasks currentDate daysCount assignedSubjectIdsToday
       minutesAllocatedToday activeSubjects uuidCalls].

Ltac queue_head HQ Hact Hw :=
  let Hq := fresh "Hq" in
  let w' := fresh "w" in
  let Hw' := fresh "Hw" in
  pose proof HQ as [_ Hq]; rewrite Hact in Hq;
  destruct (Hq _ (list_elem_of_here _ _)) as (w' & Hw' & Hneed & Hdl);
  rewrite Hw in Hw'; inversion Hw'; subst w'; clear Hw' Hq.

Lemma map_subject_insert (pw : list WorkItem) (r : nat) (work : WorkItem) (n : Z) :
  pw !! r = Some work ->
  List.map subject (<[r := mkWorkItem (subject work) n]> pw) = List.map subject pw.
Proof.
  intros Hw. change (subject <$> <[r:=mkWorkItem (subject work) n]> pw = subject <$> pw).
  rewrite list_fmap_insert. simpl. apply list_insert_id.
  by rewrite list_lookup_fmap, Hw.
Qed.

Section SlotInvariants.

Variable uuids : nat -> string.
Variable settings : UserSettings.
Variable dateStr : string.
Variable maxMinutes : Z.

Local Abbreviation body := (slotBody uuids settings dateStr maxMinutes).
Local Abbreviation guard := (slotGuard maxMinutes).

(** The inner loop leaves the date, the day count and the subjects
    of the work items alone. *)
Lemma slot_loop_frame (fuel : nat) (st st1 : Locals) :
  while fuel guard body st = Some st1 ->
  currentDate st1 = currentDate st /\ daysCount st1 = daysCount st
  /\ List.map subject (pendingWork st1) = List.map subject (pendingWork st).
Proof.
  intros Hwhile.
  apply (while_ind (fun s => currentDate s = currentDate st
                             /\ daysCount s = daysCount st
                             /\ List.map subject (pendingWork s)
                                = List.map subject (pendingWork st))
           guard body) in Hwhile as [H _]; [done| |done].
  intros s s' (Hc & Hd & Hs) _ Hb. slot_step Hb; [done|].
  repeat split; [done|done|]. by rewrite map_subject_insert.
Qed.

(** *** Minutes of the day *)

Lemma minutesInv_step (existing : Z) (tasks0 : list DailyTask) (st st' : Locals) :
  queueOK dateStr st -> guard st = true -> minutesInv dateStr maxMinutes existing tasks0 st ->
  body st = Some st' -> minutesInv dateStr maxMinutes existing tasks0 st'.
Proof.
  intros HQ Hg (Ha & Hx & Hnn & Hcap) Hb.
  apply slotGuard_true in Hg as [Hlt _].
  slot_step Hb; [done|]. queue_head HQ Hact Hw.
  pose proof (timeToAllocate_pos maxMinutes _ _ Hlt Hneed) as Hpos.
  rewrite <- Ht in Hpos. unfold minutesInv. simpl.
  rewrite mergeTask_minutesOn, String.eqb_refl.
  unfold slot in Ht. repeat split; try lia.
  intros x Hne. rewrite mergeTask_minutesOn.
  destruct (String.eqb dateStr x) eqn:E; [|rewrite Hx by done; lia].
  apply String_eqb_true in E. congruence.
Qed.

(** *** Subjects of the day *)

Lemma capGate_false (assigned : gset string) (s : string) :
  capGate settings assigned s = false ->
  s ∈ assigned \/ Z.of_nat (size assigned) < maxSubjectsPerDay settings.
Proof.
  unfold capGate. rewrite andb_false_iff, negb_false_iff, bool_decide_eq_true.
  intros [?|?]; [by left|right; lia].
Qed.

Lemma size_add_le (assigned : gset string) (s : string) :
  (size ({[ s ]} ∪ assigned) <= S (size assigned))%nat.
Proof.
  rewrite size_union_alt, size_singleton.
  assert (assigned ∖ {[ s ]} ⊆ assigned) as Hsub
    by (intros x Hx; by apply elem_of_difference in Hx as [? _]).
  apply subseteq_size in Hsub. lia.
Qed.

Lemma subjectsInv_step (assigned0 : gset string) (tasks0 : list DailyTask)
    (st st' : Locals) :
  subjectsInv settings dateStr assigned0 tasks0 st -> body st = Some st' ->
  subjectsInv settings dateStr assigned0 tasks0 st'.
Proof.
  intros (Ha & Hx & Hsize) Hb. slot_step Hb; [done|].
  unfold subjectsInv. simpl. repeat split.
  - rewrite mergeTask_subjectIdsOn, decide_True by done. rewrite Ha.
    apply set_eq. intros x. rewrite !elem_of_union. tauto.
  - intros x Hne. rewrite mergeTask_subjectIdsOn, decide_False by done. by apply Hx.
  - apply capGate_false in Hgate as [Hin|Hlt].
    + assert ({[ id (subject work) ]} ∪ assignedSubjectIdsToday st
              = assignedSubjectIdsToday st) as ->; [|done].
      apply set_eq. intros x. rewrite elem_of_union, elem_of_singleton.
      split; [intros [->|?]; done|auto].
    + pose proof (size_add_le (assignedSubjectIdsToday st) (id (subject work))). lia.
Qed.

(** *** Keys of the new tasks *)

(** A property of keys that holds of the key of the day for every
    subject of the queue holds of all keys afterwards. *)
Lemma keysInv_step (Pk : string * string -> Prop) (st st' : Locals) :
  (forall s, s ∈ List.map subject (pendingWork st) ->
             String.leb dateStr (testDate s) = true -> Pk (id s, dateStr)) ->
  queueOK dateStr st ->
  Forall Pk (List.map taskKey (newAutoTasks st)) ->
  body st = Some st' ->
  Forall Pk (List.map taskKey (newAutoTasks st')).
Proof.
  intros HPk HQ Hall Hb. slot_step Hb; [done|]. queue_head HQ Hact Hw.
  apply mergeTask_keys_Forall; [|done]. apply HPk; [|done].
  apply list_elem_of_In, List.in_map, list_elem_of_In. by eapply list_elem_of_lookup_2.
Qed.

Lemma keysNoDup_step (st st' : Locals) :
  NoDup (List.map taskKey (newAutoTasks st)) -> body st = Some st' ->
  NoDup (List.map taskKey (newAutoTasks st')).
Proof.
  intros Hnd Hb. slot_step Hb; [done|]. by apply mergeTask_keys_NoDup.
Qed.

End SlotInvariants.

(** ** One day *)

Section Day.

Variable uuids : nat -> string.
Variable settings : UserSettings.
Variable preserved : list DailyTask.

Local Abbreviation dayBody' := (dayBody uuids settings preserved).

Lemma dayStart_queueOK (st : Locals) :
  queueOK (toLocalDateString (currentDate st)) (dayStart preserved st).
Proof. apply buildActiveSubjects_spec. Qed.

(** The body of the outer loop: the inner loop from [dayStart], then
    the step to the next day. *)
Lemma dayBody_cases (st st' : Locals) :
  dayBody' st = Some st' ->
  exists st1,
    while (slotFuel (maxMinutesOf settings (currentDate st)) (dayStart preserved st))
      (slotGuard (maxMinutesOf settings (currentDate st)))
      (slotBody uuids settings (toLocalDateString (currentDate st))
         (maxMinutesOf settings (currentDate st)))
      (dayStart preserved st) = Some st1
    /\ pendingWork st' = pendingWork st1
    /\ newAutoTasks st' = newAutoTasks st1
    /\ uuidCalls st' = uuidCalls st1
    /\ currentDate st' = nextDay (currentDate st)
    /\ daysCount st' = daysCount st + 1.
Proof.
  unfold dayBody. intros H.
  destruct (while _ _ _ _) as [st1|] eqn:Hwhile; [|discriminate].
  inversion H; subst; clear H. exists st1. simpl.
  apply slot_loop_frame in Hwhile as (Hc & Hd & _). simpl in Hc, Hd.
  rewrite Hc, Hd. done.
Qed.

(** The body of the outer loop always completes. *)
Lemma dayBody_total (st : Locals) : exists st', dayBody' st = Some st'.
Proof.
  unfold dayBody.
  destruct (slot_loop_total uuids settings (toLocalDateString (currentDate st))
              (maxMinutesOf settings (currentDate st)) (dayStart preserved st)
              (dayStart_queueOK st)) as [st1 ->].
  eauto.
Qed.

(** An invariant of the inner loop, carried over a day. *)
Lemma day_ind (P : Locals -> Prop) (st st' : Locals) :
  (forall s s', queueOK (toLocalDateString (currentDate st)) s ->
                slotGuard (maxMinutesOf settings (currentDate st)) s = true ->
                P s ->
                slotBody uuids settings (toLocalDateString (currentDate st))
                  (maxMinutesOf settings (currentDate st)) s = Some s' ->
                P s') ->
  P (dayStart preserved st) ->
  dayBody' st = Some st' ->
  exists st1, P st1
    /\ pendingWork st' = pendingWork st1
    /\ newAutoTasks st' = newAutoTasks st1
    /\ uuidCalls st' = uuidCalls st1.
Proof.
  intros Hstep H0 Hb. apply dayBody_cases in Hb as (st1 & Hwhile & Hp & Hn & Hu & _).
  exists st1. split; [|done].
  eapply slot_loop_ind in Hwhile as [HP _]; [exact HP|exact Hstep| |exact H0].
  apply dayStart_queueOK.
Qed.

Lemma day_subjects (st st' : Locals) :
  dayBody' st = Some st' ->
  List.map subject (pendingWork st') = List.map subject (pendingWork st).
Proof.
  intros Hb. apply dayBody_cases in Hb as (st1 & Hwhile & -> & _).
  by apply slot_loop_frame in Hwhile as (_ & _ & ->).
Qed.

(** Keys: the day only adds keys of its own date, for subjects whose
    test is not before it. *)
Lemma day_keys (Pk : string * string -> Prop) (st st' : Locals) :
  (forall s, s ∈ List.map subject (pendingWork st) ->
             String.leb (toLocalDateString (currentDate st)) (testDate s) = true ->
             Pk (id s, toLocalDateString (currentDate st))) ->
  Forall Pk (List.map taskKey (newAutoTasks st)) ->
  dayBody' st = Some st' ->
  Forall Pk (List.map taskKey (newAutoTasks st')).
Proof.
  intros HPk Hall Hb.
  apply (day_ind (fun s => Forall Pk (List.map taskKey (newAutoTasks s))
                           /\ List.map subject (pendingWork s)
                              = List.map subject (pendingWork st))) in Hb
    as (st1 & [H _] & _ & -> & _); [done| |done].
  intros s s' HQ _ [Hk Hs] Hbody. split.
  - eapply keysInv_step; [|done|done|done]. intros x Hx. apply HPk. by rewrite <- Hs.
  - rewrite <- Hs. slot_step Hbody; [done|]. by rewrite map_subject_insert.
Qed.

Lemma day_keys_NoDup (st st' : Locals) :
  NoDup (List.map taskKey (newAutoTasks st)) ->
  dayBody' st = Some st' ->
  NoDup (List.map taskKey (newAutoTasks st')).
Proof.
  intros Hnd Hb.
  apply (day_ind (fun s => NoDup (List.map taskKey (newAutoTasks s)))) in Hb
    as (st1 & H & _ & -> & _); [done| |done].
  intros s s' _ _ Hs Hbody. by eapply keysNoDup_step.
Qed.

(** Minutes: on a date that has no new task yet, the day stays
    within [maxMinutes] unless it adds nothing. *)
Lemma day_minutes (st st' : Locals) :
  let dateStr := toLocalDateString (currentDate st) in
  (forall t, t ∈ newAutoTasks st -> date t <> dateStr) ->
  dayBody' st = Some st' ->
  (forall x, x <> dateStr ->
     minutesOn x (newAutoTasks st') = minutesOn x (newAutoTasks st))
  /\ 0 <= minutesOn dateStr (newAutoTasks st')
  /\ (minutesOn dateStr (newAutoTasks st') = 0
      \/ minutesOn dateStr preserved + minutesOn dateStr (newAutoTasks st')
         <= maxMinutesOf settings (currentDate st)).
Proof.
  intros dateStr Hfresh Hb.
  apply (day_ind (minutesInv dateStr (maxMinutesOf settings (currentDate st))
                    (minutesOn dateStr preserved) (newAutoTasks st))) in Hb
    as (st1 & (Ha & Hx & Hnn & Hcap) & _ & -> & _).
  - repeat split; [done|done|]. destruct Hcap as [?|?]; [by left|right; lia].
  - intros s s' HQ Hg Hs Hbody. by eapply minutesInv_step.
  - unfold minutesInv. simpl. fold dateStr.
    assert (minutesOn dateStr (newAutoTasks st) = 0) as ->.
    { unfold minutesOn. by rewrite tasksOn_fresh. }
    rewrite existingMinsOn_minutesOn. repeat split; try lia.
Qed.

(** Subjects: likewise for the number of subjects of the date. *)
Lemma day_subjectIds (st st' : Locals) :
  let dateStr := toLocalDateString (currentDate st) in
  (forall t, t ∈ newAutoTasks st -> date t <> dateStr) ->
  dayBody' st = Some st' ->
  (forall x, x <> dateStr ->
     subjectIdsOn x (newAutoTasks st') = subjectIdsOn x (newAutoTasks st))
  /\ Z.of_nat (size (subjectIdsOn dateStr preserved
                     ∪ subjectIdsOn dateStr (newAutoTasks st')))
     <= Z.max (Z.of_nat (size (subjectIdsOn dateStr preserved)))
              (maxSubjectsPerDay settings).
Proof.
  intros dateStr Hfresh Hb.
  apply (day_ind (subjectsInv settings dateStr
                    (subjectIdsOn dateStr preserved) (newAutoTasks st))) in Hb
    as (st1 & (Ha & Hx & Hsize) & _ & -> & _).
  - split; [done|]. by rewrite <- Ha.
  - intros s s' _ _ Hs Hbody. by eapply subjectsInv_step.
  - unfold subjectsInv. simpl. fold dateStr.
    rewrite assignedOn_subjectIdsOn.
    assert (subjectIdsOn dateStr (newAutoTasks st) = ∅) as ->.
    { unfold subjectIdsOn. by rewrite tasksOn_fresh. }
    rewrite (right_id_L ∅ (∪)). repeat split; lia.
Qed.

End Day.

(** ** The whole run *)

Lemma dayGuard_true (st : Locals) :
  dayGuard st = true ->
  daysCount st < MAX_DAYS
  /\ exists w, w ∈ pendingWork st /\ 0 < minutesNeeded w.
Proof.
  unfold dayGuard. rewrite andb_true_iff, List.existsb_exists.
  intros [(w & Hin & Hw) Hd]. split; [lia|]. exists w.
  split; [by apply list_elem_of_In|lia].
Qed.

Section WholeRun.

Variable uuids : nat -> string.
Variable calls0 : nat.
Variable settings : UserSettings.
Variable preserved : list DailyTask.
Variable pw0 : list WorkItem.
Variable today : Date.

Local Abbreviation run := (allocate uuids calls0 settings preserved pw0 today).
Local Abbreviation start := (mkLocals pw0 [] today 0 ∅ 0 [] calls0).

(** The outer loop ends: the day count bounds it. *)
Lemma allocate_total : exists st, run = Some st.
Proof.
  unfold allocate.
  apply (while_total (fun _ => True)
           (fun s => Z.to_nat (MAX_DAYS - daysCount s))); [|done|simpl; lia].
  intros s _ Hg. apply dayGuard_true in Hg as [Hlt _].
  destruct (dayBody_total uuids settings preserved s) as [s' Hs'].
  exists s'. split; [done|]. split; [done|].
  apply dayBody_cases in Hs' as (_ & _ & _ & _ & _ & _ & ->). lia.
Qed.

(** Induction over the days of a run: [Q n] is to hold after [n]
    days. *)
Lemma run_ind (Q : nat -> Locals -> Prop) (st : Locals) :
  Q O start ->
  (forall n s s', (n < 365)%nat ->
                  currentDate s = addDays n today -> daysCount s = Z.of_nat n ->
                  Q n s -> dayGuard s = true ->
                  dayBody uuids settings preserved s = Some s' -> Q (S n) s') ->
  run = Some st ->
  exists n, (n <= 365)%nat /\ daysCount st = Z.of_nat n
            /\ currentDate st = addDays n today /\ Q n st
            /\ dayGuard st = false.
Proof.
  intros H0 Hstep Hrun. unfold allocate in Hrun.
  apply (while_ind (fun s => exists n, (n <= 365)%nat /\ daysCount s = Z.of_nat n
                                       /\ currentDate s = addDays n today /\ Q n s))
    in Hrun as [(n & Hn & Hd & Hc & HQ) Hg].
  - exists n. done.
  - intros s s' (n & Hn & Hd & Hc & HQ) Hg Hb.
    pose proof (dayGuard_true _ Hg) as [Hlt _]. unfold MAX_DAYS in Hlt.
    exists (S n). pose proof Hb as Hb'.
    apply dayBody_cases in Hb' as (_ & _ & _ & _ & _ & Hc' & Hd').
    repeat split; [lia|lia|by rewrite Hc', Hc|].
    eapply Hstep; [|exact Hc|exact Hd|exact HQ|exact Hg|exact Hb]. lia.
  - exists O. simpl. repeat split; [lia|exact H0].
Qed.

Lemma walked_fresh (n : nat) (tasks : list DailyTask) :
  valid today ->
  Forall (walked today n) (List.map taskKey tasks) ->
  forall t, t ∈ tasks -> date t <> toLocalDateString (addDays n today).
Proof.
  intros Hv Hall t Ht Heq. rewrite Forall_forall in Hall.
  destruct (Hall (taskKey t)) as (j & Hj & Hk).
  { apply list_elem_of_In, List.in_map, list_elem_of_In, Ht. }
  simpl in Hk. rewrite Heq in Hk.
  apply toLocalDateString_inj in Hk; [|by apply addDays_valid..].
  apply addDays_inj in Hk; [lia|done].
Qed.

Lemma walked_step (n : nat) (s s' : Locals) :
  currentDate s = addDays n today ->
  Forall (walked today n) (List.map taskKey (newAutoTasks s)) ->
  dayBody uuids settings preserved s = Some s' ->
  Forall (walked today (S n)) (List.map taskKey (newAutoTasks s')).
Proof.
  intros Hc Hall Hb. eapply day_keys; [| |exact Hb].
  - intros x _ _. exists n. split; [lia|]. simpl. by rewrite Hc.
  - eapply Forall_impl; [exact Hall|]. intros k (j & Hj & Hk). exists j. split; [lia|done].
Qed.

Lemma walkInv_run (st : Locals) :
  valid today -> run = Some st ->
  exists n, (n <= 365)%nat /\ daysCount st = Z.of_nat n /\ walkInv settings preserved today n st.
Proof.
  intros Hv Hrun.
  apply (run_ind (walkInv settings preserved today)) in Hrun as (n & Hn & Hd & _ & HQ & _); [by exists n| |].
  - unfold walkInv. simpl. repeat split; [constructor|by left|].
    intros x. unfold subjectIdsOn at 2. simpl. rewrite (right_id_L ∅ (∪)). lia.
  - intros n s s' Hn Hc Hd (Hwalk & Hmin & Hsub) _ Hb.
    pose proof (walked_fresh n _ Hv Hwalk) as Hfresh. rewrite <- Hc in Hfresh.
    pose proof (day_minutes uuids settings preserved s s' Hfresh Hb)
      as (Hmx & Hm0 & Hmd).
    pose proof (day_subjectIds uuids settings preserved s s' Hfresh Hb)
      as (Hsx & Hsd).
    split; [by eapply walked_step|]. split.
    + intros x. destruct (decide (x = toLocalDateString (currentDate s))) as [->|Hne].
      * destruct Hmd as [?|Hle]; [by left|right].
        exists n. rewrite <- Hc. repeat split; [lia|done].
      * rewrite Hmx by done. destruct (Hmin x) as [?|(j & Hj & Hx & Hle)]; [by left|right].
        exists j. repeat split; [lia|done|done].
    + intros x. destruct (decide (x = toLocalDateString (currentDate s))) as [->|Hne].
      * done.
      * rewrite Hsx by done. apply Hsub.
Qed.

End WholeRun.

(** ** [generateSchedule] *)

Lemma generateSchedule_cases (uuids : nat -> string) (calls : nat)
    (subjects : list Subject) (schedule : list DailyTask)
    (settings : UserSettings) (today : Date) (out : Outcome) :
  generateSchedule uuids calls subjects schedule settings today = Some out ->
  (subjects = [] /\ out = mkOutcome schedule [] [] 0 calls)
  \/ (subjects <> [] /\
      exists st,
        allocate uuids calls settings (fixedOrCompleted schedule)
          (initialPendingWork subjects (fixedOrCompleted schedule)) today = Some st
        /\ out = mkOutcome (fixedOrCompleted schedule ++ newAutoTasks st)
                   (newAutoTasks st) (pendingWork st) (daysCount st) (uuidCalls st)).
Proof.
  unfold generateSchedule. destruct subjects as [|s subjects].
  - intros [= <-]. by left.
  - destruct (allocate _ _ _ _ _ _) as [st|]; [|discriminate].
    intros [= <-]. right. split; [done|]. by exists st.
Qed.

(** The call always completes. *)
Lemma generateSchedule_total (uuids : nat -> string) (calls : nat)
    (subjects : list Subject) (schedule : list DailyTask)
    (settings : UserSettings) (today : Date) :
  exists out, generateSchedule uuids calls subjects schedule settings today = Some out.
Proof.
  unfold generateSchedule. destruct subjects as [|s subjects]; [eauto|].
  destruct (allocate_total uuids calls settings (fixedOrCompleted schedule)
              (initialPendingWork (s :: subjects) (fixedOrCompleted schedule)) today)
    as [st ->].
  eauto.
Qed.

(** ** Planned minutes of the new tasks *)


Lemma divide_30_pos (x : Z) : (30 | x) -> 0 < x -> 30 <= x.
Proof. intros [z ->] Hpos. lia. Qed.

Section SlotMinutes.

Variable uuids : nat -> string.
Variable settings : UserSettings.
Variable dateStr : string.
Variable maxMinutes : Z.

Local Abbreviation body := (slotBody uuids settings dateStr maxMinutes).
Local Abbreviation guard := (slotGuard maxMinutes).

Lemma positive_step (st st' : Locals) :
  queueOK dateStr st -> guard st = true ->
  Forall (fun t => 0 < plannedMinutes t) (newAutoTasks st) ->
  body st = Some st' ->
  Forall (fun t => 0 < plannedMinutes t) (newAutoTasks st').
Proof.
  intros HQ Hg Hall Hb. apply slotGuard_true in Hg as [Hlt _].
  slot_step Hb; [done|]. queue_head HQ Hact Hw.
  pose proof (timeToAllocate_pos maxMinutes _ _ Hlt Hneed) as Hpos.
  rewrite <- Ht in Hpos.
  apply mergeTask_Forall; [|simpl; lia|done].
  intros x Hx _. simpl. lia.
Qed.

Lemma divisible_step (st st' : Locals) :
  (30 | maxMinutes) ->
  queueOK dateStr st -> guard st = true -> divisibleInv st ->
  body st = Some st' -> divisibleInv st'.
Proof.
  intros HM HQ Hg (Ha & Hpw & Hnew) Hb. apply slotGuard_true in Hg as [Hlt _].
  slot_step Hb; [done|]. queue_head HQ Hact Hw.
  assert ((30 | minutesNeeded work)) as Hdiv.
  { rewrite Forall_forall in Hpw. apply Hpw. by eapply list_elem_of_lookup_2. }
  assert (t = 30) as ->.
  { apply divide_30_pos in Hdiv; [|done].
    assert (30 <= maxMinutes - minutesAllocatedToday st)
      by (apply divide_30_pos; [by apply Z.divide_sub_r|lia]).
    unfold slot in Ht. lia. }
  unfold divisibleInv. simpl. repeat split.
  - apply Z.divide_add_r; [done|by exists 1].
  - apply Forall_insert; [done|]. simpl. apply Z.divide_sub_r; [done|by exists 1].
  - apply mergeTask_Forall; [|by exists 1|done].
    intros x Hx _. simpl. apply Z.divide_add_r; [done|by exists 1].
Qed.

End SlotMinutes.

Lemma reduce_sum_divide {A} (f : A -> Z) (l : list A) :
  Forall (fun x => (30 | f x)) l -> (30 | reduce_sum f l).
Proof.
  induction 1 as [|x l' Hx _ IH]; [by exists 0|].
  rewrite reduce_sum_cons. by apply Z.divide_add_r.
Qed.

Lemma Forall_filter_list {A} (P : A -> Prop) (p : A -> bool) (l : list A) :
  Forall P l -> Forall P (List.filter p l).
Proof.
  rewrite !Forall_forall. intros H x Hx. apply H.
  apply list_elem_of_In in Hx. apply List.filter_In in Hx as [Hx _].
  by apply list_elem_of_In.
Qed.

Lemma maxMinutesOf_divide (settings : UserSettings) (d : Date) :
  (30 | maxMinutesOf settings d).
Proof.
  unfold maxMinutesOf. destruct (isWeekend d);
    [exists (weekendHours settings * 2)|exists (weekdayHours settings * 2)]; lia.
Qed.

Lemma initialPendingWork_divide (subjects : list Subject) (preserved : list DailyTask) :
  Forall (fun t => (30 | creditedMinutes t)) preserved ->
  Forall (fun w => (30 | minutesNeeded w)) (initialPendingWork subjects preserved).
Proof.
  intros Hp. unfold initialPendingWork. apply Forall_filter_list.
  apply Forall_forall. intros w Hw.
  apply list_elem_of_In, List.in_map_iff in Hw as (s & <- & _). simpl.
  assert ((30 | reduce_sum creditedMinutes
                  (List.filter (fun t => String.eqb (subjectId t) (id s)) preserved)))
    as [c Hc] by (by apply reduce_sum_divide, Forall_filter_list).
  rewrite Hc. unfold calculateTotalHoursNeeded.
  destruct (Z.max_spec 0 (difficulty s * 3 * 60 - c * 30)) as [[_ ->]|[_ ->]].
  - exists (difficulty s * 6 - c). lia.
  - by exists 0.
Qed.

Section RunMinutes.

Variable uuids : nat -> string.
Variable calls0 : nat.
Variable settings : UserSettings.
Variable preserved : list DailyTask.
Variable pw0 : list WorkItem.
Variable today : Date.

(** Every new task has minutes. *)
Lemma run_positive (st : Locals) :
  allocate uuids calls0 settings preserved pw0 today = Some st ->
  Forall (fun t => 0 < plannedMinutes t) (newAutoTasks st).
Proof.
  intros Hrun.
  apply (run_ind uuids calls0 settings preserved pw0 today
           (fun _ s => Forall (fun t => 0 < plannedMinutes t) (newAutoTasks s)))
    in Hrun as (n & _ & _ & _ & H & _); [done|by constructor|].
  intros n s s' _ _ _ Hs _ Hb.
  apply (day_ind uuids settings preserved
           (fun s => Forall (fun t => 0 < plannedMinutes t) (newAutoTasks s))) in Hb
    as (st1 & H & _ & -> & _); [done| |done].
  intros s1 s1' HQ Hg H1 Hbody. by eapply positive_step.
Qed.

(** When the kept tasks count in multiples of 30, so do the new
    tasks. *)
Lemma run_divisible (st : Locals) :
  Forall (fun t => (30 | plannedMinutes t)) preserved ->
  Forall (fun w => (30 | minutesNeeded w)) pw0 ->
  allocate uuids calls0 settings preserved pw0 today = Some st ->
  Forall (fun t => (30 | plannedMinutes t)) (newAutoTasks st).
Proof.
  intros Hp Hpw Hrun.
  apply (run_ind uuids calls0 settings preserved pw0 today
           (fun _ s => Forall (fun w => (30 | minutesNeeded w)) (pendingWork s)
                       /\ Forall (fun t => (30 | plannedMinutes t)) (newAutoTasks s)))
    in Hrun as (n & _ & _ & _ & [_ H] & _); [done|by split; [|constructor]|].
  intros n s s' _ _ _ [Hs1 Hs2] _ Hb.
  apply (day_ind uuids settings preserved divisibleInv) in Hb
    as (st1 & (_ & H1 & H2) & -> & -> & _); [done| |].
  - intros s1 s1' HQ Hg H1 Hbody.
    eapply divisible_step; [apply maxMinutesOf_divide|done..].
  - unfold divisibleInv. simpl. split; [|done].
    by apply reduce_sum_divide, Forall_filter_list.
Qed.

End RunMinutes.

(** ** Further properties of a run *)

(** *** Keys and flags of the new tasks *)

Lemma run_keys_NoDup (uuids : nat -> string) (calls0 : nat) (settings : UserSettings)
    (preserved : list DailyTask) (pw0 : list WorkItem) (today : Date) (st : Locals) :
  allocate uuids calls0 settings preserved pw0 today = Some st ->
  NoDup (List.map taskKey (newAutoTasks st)).
Proof.
  intros Hrun.
  apply (run_ind uuids calls0 settings preserved pw0 today
           (fun _ s => NoDup (List.map taskKey (newAutoTasks s))))
    in Hrun as (n & _ & _ & _ & H & _); [done|by constructor|].
  intros n s s' _ _ _ Hs _ Hb. by eapply day_keys_NoDup.
Qed.

Lemma run_new_flags (uuids : nat -> string) (calls0 : nat) (settings : UserSettings)
    (preserved : list DailyTask) (pw0 : list WorkItem) (today : Date) (st : Locals) :
  allocate uuids calls0 settings preserved pw0 today = Some st ->
  Forall (fun t => isFixed t || completed t = false) (newAutoTasks st).
Proof.
  intros Hrun.
  apply (run_ind uuids calls0 settings preserved pw0 today
           (fun _ s => Forall (fun t => isFixed t || completed t = false)
                         (newAutoTasks s)))
    in Hrun as (n & _ & _ & _ & H & _); [done|by constructor|].
  intros n s s' _ _ _ Hs _ Hb.
  apply (day_ind uuids settings preserved
           (fun s => Forall (fun t => isFixed t || completed t = false)
                       (newAutoTasks s))) in Hb
    as (st1 & H & _ & -> & _); [done| |done].
  intros s1 s1' _ _ H1 Hbody. slot_step Hbody; [done|].
  by apply mergeTask_Forall.
Qed.

Lemma fixedOrCompleted_idemp (schedule : list DailyTask) :
  fixedOrCompleted (fixedOrCompleted schedule) = fixedOrCompleted schedule.
Proof.
  unfold fixedOrCompleted. induction schedule as [|t l IH]; simpl; [done|].
  destruct (isFixed t || completed t) eqn:E; simpl; [|done]. by rewrite E, IH.
Qed.

Lemma fixedOrCompleted_new (tasks : list DailyTask) :
  Forall (fun t => isFixed t || completed t = false) tasks ->
  fixedOrCompleted tasks = [].
Proof.
  unfold fixedOrCompleted. induction 1 as [|t l Ht _ IH]; simpl; [done|]. by rewrite Ht.
Qed.

Lemma fixedOrCompleted_app (l1 l2 : list DailyTask) :
  fixedOrCompleted (l1 ++ l2) = fixedOrCompleted l1 ++ fixedOrCompleted l2.
Proof. apply List.filter_app. Qed.

(** *** Subjects and test dates *)

Lemma initialPendingWork_subjects (subjects : list Subject) (preserved : list DailyTask)
    (s : Subject) :
  s ∈ List.map subject (initialPendingWork subjects preserved) -> s ∈ subjects.
Proof.
  unfold initialPendingWork. intros Hs.
  apply list_elem_of_In, List.in_map_iff in Hs as (w & <- & Hw).
  apply List.filter_In in Hw as [Hw _].
  apply List.in_map_iff in Hw as (s' & <- & Hs'). simpl. by apply list_elem_of_In.
Qed.

Lemma NoDup_id_inj (subjects : list Subject) (s1 s2 : Subject) :
  NoDup (List.map id subjects) -> s1 ∈ subjects -> s2 ∈ subjects ->
  id s1 = id s2 -> s1 = s2.
Proof.
  induction subjects as [|s l IH]; simpl; intros Hnd H1 H2 Heq.
  - by apply elem_of_nil in H1.
  - apply NoDup_cons in Hnd as [Hs Hnd].
    apply elem_of_cons in H1 as [->|H1]; apply elem_of_cons in H2 as [->|H2].
    + done.
    + exfalso. apply Hs. rewrite Heq.
      by apply list_elem_of_In, List.in_map, list_elem_of_In.
    + exfalso. apply Hs. rewrite <- Heq.
      by apply list_elem_of_In, List.in_map, list_elem_of_In.
    + by apply IH.
Qed.

Lemma filter_nil_iff {A} (p : A -> bool) (l : list A) :
  (forall x, x ∈ l -> p x = false) -> List.filter p l = [].
Proof.
  induction l as [|x l IH]; simpl; intros H; [done|].
  rewrite (H x) by (by left). apply IH. intros y Hy. apply H. by right.
Qed.

(** A property of keys that holds of the key of each day walked, for
    each subject whose test is not before that day, holds of the keys of
    all new tasks. *)
Lemma run_keys (uuids : nat -> string) (calls0 : nat) (settings : UserSettings)
    (preserved : list DailyTask) (pw0 : list WorkItem) (today : Date)
    (Pk : string * string -> Prop) (st : Locals) :
  (forall n s, (n < 365)%nat -> s ∈ List.map subject pw0 ->
               String.leb (toLocalDateString (addDays n today)) (testDate s) = true ->
               Pk (id s, toLocalDateString (addDays n today))) ->
  allocate uuids calls0 settings preserved pw0 today = Some st ->
  Forall Pk (List.map taskKey (newAutoTasks st))
  /\ List.map subject (pendingWork st) = List.map subject pw0.
Proof.
  intros HPk Hrun.
  apply (run_ind uuids calls0 settings preserved pw0 today
           (fun _ s => Forall Pk (List.map taskKey (newAutoTasks s))
                       /\ List.map subject (pendingWork s) = List.map subject pw0))
    in Hrun as (n & _ & _ & _ & H & _); [done|by split; [constructor|]|].
  intros n s s' Hn Hc _ [Hk Hs] _ Hb. split.
  - eapply day_keys; [|exact Hk|exact Hb]. rewrite Hc, Hs. intros x Hx Hdl. by apply HPk.
  - rewrite <- Hs. by eapply day_subjects.
Qed.

Lemma run_dueKeys (uuids : nat -> string) (calls0 : nat) (settings : UserSettings)
    (subjects : list Subject) (preserved : list DailyTask) (today : Date) (st : Locals) :
  allocate uuids calls0 settings preserved
    (initialPendingWork subjects preserved) today = Some st ->
  Forall (dueKey subjects today) (List.map taskKey (newAutoTasks st)).
Proof.
  intros Hrun. eapply run_keys in Hrun as [H _]; [exact H|].
  intros n s Hn Hs Hdl. exists s, n. simpl.
  repeat split; [by eapply initialPendingWork_subjects|done|done].
Qed.

(** The strings of the days walked do not precede that of today. *)
Lemma today_leb_walked (today : Date) (j : nat) :
  valid today -> 1000 <= getFullYear today ->
  getFullYear (addDays 364 today) <= 9999 -> (j < 365)%nat ->
  String.leb (toLocalDateString today) (toLocalDateString (addDays j today)) = true.
Proof.
  intros Hv Hlo Hhi Hj.
  pose proof (addDays_year 0 j today) as Hy1.
  pose proof (addDays_year j (364 - j) today) as Hy2.
  replace (j + (364 - j))%nat with (Z.to_nat 364) in Hy2 by lia.
  pose proof (addDays_rank 0 j today Hv) as Hr.
  rewrite Nat.add_0_l in Hy1, Hr. change (addDays 0 today) with today in Hy1, Hr.
  change (Z.to_nat 364) with 364%nat in Hy2.
  apply toLocalDateString_mono; [done|by apply addDays_valid|lia|lia|lia].
Qed.

(** *** A limit of no subject *)

Lemma mergeTask_nonempty (uuids : nat -> string) (dateStr sid : string) (m : Z)
    (tasks : list DailyTask) (calls : nat) :
  fst (mergeTask uuids dateStr sid m tasks calls) <> [].
Proof.
  intros Hnil.
  assert ((sid, dateStr) ∈ List.map taskKey (fst (mergeTask uuids dateStr sid m tasks calls)))
    as Hin by (apply mergeTask_key_elem; by right).
  rewrite Hnil in Hin. by apply elem_of_nil in Hin.
Qed.

Section NoNewSubject.

Variable uuids : nat -> string.
Variable calls0 : nat.
Variable settings : UserSettings.
Variable preserved : list DailyTask.
Variable pw0 : list WorkItem.
Variable today : Date.

Hypothesis no_subject : maxSubjectsPerDay settings <= 0.

Lemma keptInv_step (dateStr : string) (maxMinutes : Z) (st st' : Locals) :
  keptInv preserved dateStr st ->
  slotBody uuids settings dateStr maxMinutes st = Some st' ->
  keptInv preserved dateStr st'.
Proof.
  intros [Hsub Hall] Hb. slot_step Hb; [done|].
  apply capGate_false in Hgate as [Hin|Hlt]; [|lia].
  pose proof (Hsub _ Hin) as Hkept. unfold keptInv. simpl. split.
  - intros x Hx. apply elem_of_union in Hx as [Hx|Hx]; [|by apply Hsub].
    apply elem_of_singleton in Hx. by subst.
  - apply mergeTask_keys_Forall; [|done]. by apply elem_of_subjectIdsOn.
Qed.

Lemma run_kept_keys (st : Locals) :
  allocate uuids calls0 settings preserved pw0 today = Some st ->
  Forall (fun k => k ∈ List.map taskKey preserved) (List.map taskKey (newAutoTasks st)).
Proof.
  intros Hrun.
  apply (run_ind uuids calls0 settings preserved pw0 today
           (fun _ s => Forall (fun k => k ∈ List.map taskKey preserved)
                         (List.map taskKey (newAutoTasks s))))
    in Hrun as (n & _ & _ & _ & H & _); [done|by constructor|].
  intros n s s' _ _ _ Hs _ Hb.
  apply (day_ind uuids settings preserved
           (keptInv preserved (toLocalDateString (currentDate s)))) in Hb
    as (st1 & [_ H] & _ & -> & _); [done| |].
  - intros s1 s1' _ _ H1 Hbody. by eapply keptInv_step.
  - split; [|done]. simpl. by rewrite assignedOn_subjectIdsOn.
Qed.

End NoNewSubject.

(** While a run has created no task, the work items are as at the
    start. *)
Lemma run_idle (uuids : nat -> string) (calls0 : nat) (settings : UserSettings)
    (preserved : list DailyTask) (pw0 : list WorkItem) (today : Date) (st : Locals) :
  allocate uuids calls0 settings preserved pw0 today = Some st ->
  newAutoTasks st = [] -> pendingWork st = pw0.
Proof.
  intros Hrun.
  apply (run_ind uuids calls0 settings preserved pw0 today
           (fun _ s => newAutoTasks s = [] -> pendingWork s = pw0))
    in Hrun as (n & _ & _ & _ & H & _); [done|done|].
  intros n s s' _ _ _ Hs _ Hb.
  apply (day_ind uuids settings preserved
           (fun s => newAutoTasks s = [] -> pendingWork s = pw0)) in Hb
    as (st1 & H & -> & -> & _); [done| |done].
  intros s1 s1' _ _ H1 Hbody. slot_step Hbody; [done|].
  intros Hnil. by apply mergeTask_nonempty in Hnil.
Qed.

Lemma initialPendingWork_needs (subjects : list Subject) (preserved : list DailyTask) :
  Forall (fun w => 0 < minutesNeeded w) (initialPendingWork subjects preserved).
Proof.
  apply Forall_forall. intros w Hw. unfold initialPendingWork in Hw.
  apply list_elem_of_In, List.filter_In in Hw as [_ Hw]. lia.
Qed.

(** *** Minutes of a subject *)







(** *** Subjects with a kept task of the day *)

Lemma buildActiveSubjects_elem (dateStr : string) (pw : list WorkItem) (r : nat)
    (w : WorkItem) :
  pw !! r = Some w -> 0 < minutesNeeded w ->
  String.leb dateStr (testDate (subject w)) = true ->
  r ∈ buildActiveSubjects dateStr pw.
Proof.
  intros Hw Hneed Hdl. unfold buildActiveSubjects.
  apply list_elem_of_In, List.in_map_iff. exists (r, w). split; [done|].
  apply list_elem_of_In. rewrite sort_Permutation.
  apply list_elem_of_In, List.filter_In. split.
  - apply list_elem_of_In, combine_seq_lookup. split; [lia|]. by rewrite Nat.sub_0_r.
  - simpl. rewrite Hdl. simpl. lia.
Qed.

Lemma capGate_assigned (settings : UserSettings) (assigned : gset string) (sid : string) :
  sid ∈ assigned -> capGate settings assigned sid = false.
Proof.
  intros Hin. unfold capGate. by rewrite bool_decide_eq_true_2.
Qed.

Lemma servedInv_step (uuids : nat -> string) (settings : UserSettings)
    (dateStr : string) (maxMinutes : Z) (r0 : nat) (s0 : Subject) (st st' : Locals) :
  servedInv r0 s0 st ->
  slotBody uuids settings dateStr maxMinutes st = Some st' ->
  servedInv r0 s0 st'.
Proof.
  intros (Hin & w & Hw0 & Hid & Hq) Hb. slot_step Hb.
  - split; [done|]. exists w. repeat split; [done|done|].
    destruct Hq as [Hq|?]; [left|by right]. rewrite Hact in Hq.
    apply elem_of_cons in Hq as [->|?]; [|done].
    assert (work = w) as -> by congruence.
    rewrite Hid, capGate_assigned in Hgate by done. discriminate.
  - split; [apply elem_of_union; by right|].
    assert (r < length (pendingWork st))%nat by (by eapply lookup_lt_Some).
    cbn [pendingWork activeSubjects].
    destruct (decide (r0 = r)) as [->|Hne].
    + assert (work = w) as -> by congruence.
      rewrite list_lookup_insert_eq by done. eexists. split; [done|]. simpl.
      split; [done|]. destruct (minutesNeeded w - t <=? 0) eqn:E; [right; lia|left].
      apply elem_of_app. right. apply list_elem_of_here.
    + rewrite list_lookup_insert_ne by done. exists w. repeat split; [done|done|].
      destruct Hq as [Hq|?]; [left|by right]. rewrite Hact in Hq.
      apply elem_of_cons in Hq as [?|Hq]; [done|].
      destruct (_ <=? _); [done|]. apply elem_of_app. by left.
Qed.

(** *** Runs that differ in their identifiers *)

Lemma mergeTask_content (uuids1 uuids2 : nat -> string) (dateStr sid : string) (m : Z)
    (l1 l2 : list DailyTask) (calls1 calls2 : nat) :
  List.map taskContent l1 = List.map taskContent l2 ->
  List.map taskContent (fst (mergeTask uuids1 dateStr sid m l1 calls1))
  = List.map taskContent (fst (mergeTask uuids2 dateStr sid m l2 calls2)).
Proof.
  revert l2. induction l1 as [|t1 l1 IH]; intros [|t2 l2] Heq; try discriminate.
  - reflexivity.
  - simpl in Heq.
    assert (taskContent t1 = taskContent t2
            /\ List.map taskContent l1 = List.map taskContent l2) as [Ht Hl]
      by (split; congruence).
    rewrite !mergeTask_cons. unfold isTaskOfDay.
    assert (date t1 = date t2 /\ subjectId t1 = subjectId t2) as [-> ->]
      by (unfold taskContent in Ht; by inversion Ht).
    destruct (String.eqb (date t2) dateStr && String.eqb (subjectId t2) sid); simpl.
    + f_equal; [|done]. unfold taskContent in *. inversion Ht. simpl. congruence.
    + f_equal; [done|]. by apply IH.
Qed.

Lemma slotBody_sameButIds (uuids1 uuids2 : nat -> string) (settings : UserSettings)
    (dateStr : string) (maxMinutes : Z) (s1 s2 s1' : Locals) :
  sameButIds s1 s2 ->
  slotBody uuids1 settings dateStr maxMinutes s1 = Some s1' ->
  exists s2', slotBody uuids2 settings dateStr maxMinutes s2 = Some s2'
              /\ sameButIds s1' s2'.
Proof.
  intros (Hpw & Hnew & Hc & Hd & Has & Hal & Hq) Hb. unfold slotBody in *.
  rewrite <- Hq, <- Hpw, <- Has, <- Hal.
  destruct (activeSubjects s1) as [|r rest]; [discriminate|].
  destruct (pendingWork s1 !! r) as [work|]; [|discriminate].
  destruct (capGate settings (assignedSubjectIdsToday s1) (id (subject work)));
    inversion Hb; subst; clear Hb; eexists; (split; [reflexivity|]);
    unfold sameButIds; simpl; repeat split; try done.
  by apply mergeTask_content.
Qed.

Lemma dayBody_sameButIds (uuids1 uuids2 : nat -> string) (settings : UserSettings)
    (preserved : list DailyTask) (s1 s2 s1' : Locals) :
  sameButIds s1 s2 ->
  dayBody uuids1 settings preserved s1 = Some s1' ->
  exists s2', dayBody uuids2 settings preserved s2 = Some s2' /\ sameButIds s1' s2'.
Proof.
  intros HR Hb. pose proof HR as (Hpw & Hnew & Hc & Hd & Has & Hal & Hq).
  unfold dayBody in *. rewrite <- Hc.
  destruct (while _ _ _ (dayStart preserved s1)) as [st1|] eqn:Hwhile; [|discriminate].
  inversion Hb; subst; clear Hb.
  assert (sameButIds (dayStart preserved s1) (dayStart preserved s2)) as HR0.
  { unfold sameButIds, dayStart. simpl. rewrite <- Hc, <- Hpw. done. }
  assert (slotFuel (maxMinutesOf settings (currentDate s1)) (dayStart preserved s2)
          = slotFuel (maxMinutesOf settings (currentDate s1)) (dayStart preserved s1))
    as ->.
  { unfold slotFuel, dayStart. simpl. by rewrite <- Hc, <- Hpw. }
  eapply (while_rel sameButIds) in Hwhile as (st2 & -> & HR1); [| | |exact HR0].
  - eexists. split; [reflexivity|].
    destruct HR1 as (Hpw1 & Hnew1 & Hc1 & Hd1 & Has1 & Hal1 & Hq1).
    unfold sameButIds. simpl. rewrite Hc1, Hd1. done.
  - intros x1 x2 (_ & _ & _ & _ & _ & Hal' & Hq'). unfold slotGuard.
    by rewrite Hal', Hq'.
  - intros x1 x2 x1' Hx. by apply slotBody_sameButIds.
Qed.

(** The identifiers drawn do not change what a run allocates. *)
Lemma allocate_sameButIds (uuids1 uuids2 : nat -> string) (calls1 calls2 : nat)
    (settings : UserSettings) (preserved : list DailyTask) (pw0 : list WorkItem)
    (today : Date) (st1 : Locals) :
  allocate uuids1 calls1 settings preserved pw0 today = Some st1 ->
  exists st2, allocate uuids2 calls2 settings preserved pw0 today = Some st2
              /\ sameButIds st1 st2.
Proof.
  unfold allocate. intros Hrun.
  eapply (while_rel sameButIds) in Hrun as (st2 & Hst2 & HR); [by exists st2| | |].
  - intros x1 x2 (Hpw & _ & _ & Hd & _). unfold dayGuard. by rewrite Hpw, Hd.
  - intros x1 x2 x1' Hx. by apply dayBody_sameButIds.
  - unfold sameButIds. simpl. done.
Qed.

(** * The claims *)

(** ** C1: minutes of a day *)




(** ** C2: subjects of a day *)

(** C2, as stated, fails: the kept tasks alone can exceed the limit.
    Here two subjects have a completed task on a day, and the limit is
    one subject. *)
Lemma C2_counterexample :
  exists out,
    generateSchedule ex_uuids 0 [ex_math; ex_physics]
      [ex_math_done; ex_physics_done] (mkUserSettings 2 5 1) ex_today
    = Some out
    /\ 1 <= maxSubjectsPerDay (mkUserSettings 2 5 1)
    /\ maxSubjectsPerDay (mkUserSettings 2 5 1)
       < Z.of_nat (size (subjectIdsOn (toLocalDateString ex_today) (out_schedule out))).
Proof.
  eexists. split; [vm_compute; reflexivity|]. vm_compute. split; [discriminate|reflexivity].
Qed.

(** C2, amended: on every date on which a run creates a task, the
    number of subjects with a task on that date in the resulting
    schedule is at most the larger of [maxSubjectsPerDay] and the number
    of subjects the kept tasks already have on that date. *)
Theorem C2_subjects_on_scheduled_days (uuids : nat -> string) (calls : nat)
    (subjects : list Subject) (schedule : list DailyTask)
    (settings : UserSettings) (today : Date) :
  valid today ->
  exists out,
    generateSchedule uuids calls subjects schedule settings today = Some out /\
    forall x,
      tasksOn x (out_newAutoTasks out) = []
      \/ Z.of_nat (size (subjectIdsOn x (out_schedule out)))
         <= Z.max (maxSubjectsPerDay settings)
                  (Z.of_nat (size (subjectIdsOn x (fixedOrCompleted schedule)))).
Proof.
  intros Hv.
  destruct (generateSchedule_total uuids calls subjects schedule settings today)
    as [out Hout].
  exists out. split; [done|]. intros x.
  apply generateSchedule_cases in Hout as [[_ ->]|[_ (st & Hrun & ->)]]; [by left|].
  simpl. right.
  apply walkInv_run in Hrun as (n & Hn & _ & _ & _ & Hsub); [|done].
  rewrite subjectIdsOn_app. specialize (Hsub x). lia.
Qed.

Lemma C2_subjects_witness :
  exists out,
    generateSchedule ex_uuids 0 [ex_math; ex_physics]
      [ex_math_done; ex_physics_done] (mkUserSettings 2 5 1) ex_today = Some out /\
    forall x,
      tasksOn x (out_newAutoTasks out) = []
      \/ Z.of_nat (size (subjectIdsOn x (out_schedule out)))
         <= Z.max (maxSubjectsPerDay (mkUserSettings 2 5 1))
                  (Z.of_nat (size (subjectIdsOn x
                     (fixedOrCompleted [ex_math_done; ex_physics_done])))).
Proof.
  apply (C2_subjects_on_scheduled_days ex_uuids 0 [ex_math; ex_physics]
           [ex_math_done; ex_physics_done] (mkUserSettings 2 5 1) ex_today).
  unfold valid, DaysInMonth. simpl. lia.
Defined.

(** ** C3: test dates *)

(** C3: no new task of a subject lies after the test date of the
    subject, the two dates compared as strings; and a subject whose test
    date is before today gets no new task. Subjects are told apart by
    their [id], and the second part reads the dates as YYYY-MM-DD, with
    years of four digits. *)
Theorem C3_deadline_respected (uuids : nat -> string) (calls : nat)
    (subjects : list Subject) (schedule : list DailyTask)
    (settings : UserSettings) (today : Date) :
  NoDup (List.map id subjects) ->
  exists out,
    generateSchedule uuids calls subjects schedule settings today = Some out /\
    (forall s t, s ∈ subjects -> t ∈ out_newAutoTasks out -> subjectId t = id s ->
                 String.leb (date t) (testDate s) = true) /\
    (valid today -> 1000 <= getFullYear today ->
     getFullYear (addDays 364 today) <= 9999 ->
     forall s, s ∈ subjects ->
               String.ltb (testDate s) (toLocalDateString today) = true ->
               tasksOf (id s) (out_newAutoTasks out) = []).
Proof.
  intros Hnd.
  destruct (generateSchedule_total uuids calls subjects schedule settings today)
    as [out Hout].
  exists out. split; [done|].
  apply generateSchedule_cases in Hout as [[_ ->]|[_ (st & Hrun & ->)]];
    cbn [out_newAutoTasks].
  { split; [|done]. intros s t _ Ht. by apply elem_of_nil in Ht. }
  apply run_dueKeys in Hrun. rewrite Forall_forall in Hrun.
  assert (forall s t, s ∈ subjects -> t ∈ newAutoTasks st -> subjectId t = id s ->
            String.leb (date t) (testDate s) = true
            /\ exists j, (j < 365)%nat /\ date t = toLocalDateString (addDays j today))
    as Hdue.
  { intros s t Hs Ht Hid.
    destruct (Hrun (taskKey t)) as (s' & j & Hs' & Hid' & Hdl & Hj & Hd).
    { by apply list_elem_of_In, List.in_map, list_elem_of_In. }
    cbn [taskKey fst snd] in *.
    assert (s' = s) as -> by (eapply NoDup_id_inj; [done..|congruence]).
    split; [done|]. by exists j. }
  split; [intros s t Hs Ht Hid; by apply Hdue|].
  intros Hv Hlo Hhi s Hs Hpast. apply filter_nil_iff. intros t Ht.
  destruct (String.eqb (subjectId t) (id s)) eqn:E; [|done]. exfalso.
  apply String_eqb_true in E.
  destruct (Hdue s t Hs Ht E) as (Hdl & j & Hj & Hd).
  eapply String_ltb_not_leb; [exact Hpast|].
  eapply String_leb_trans; [|exact Hdl]. rewrite Hd. by apply today_leb_walked.
Qed.

Lemma C3_deadline_witness :
  exists out,
    generateSchedule ex_uuids 0 [ex_math; ex_history] [] ex_settings ex_today
    = Some out /\
    (forall s t, s ∈ [ex_math; ex_history] -> t ∈ out_newAutoTasks out ->
                 subjectId t = id s -> String.leb (date t) (testDate s) = true) /\
    tasksOf (id ex_history) (out_newAutoTasks out) = [].
Proof.
  destruct (C3_deadline_respected ex_uuids 0 [ex_math; ex_history] [] ex_settings
              ex_today) as (out & Hout & Hdue & Hpast).
  - apply NoDup_ListNoDup. vm_compute.
    constructor; [intros [H|[]]; discriminate|].
    constructor; [intros []|constructor].
  - exists out. split; [exact Hout|]. split; [exact Hdue|].
    apply Hpast.
    + unfold valid, DaysInMonth. simpl. lia.
    + simpl. lia.
    + vm_compute. discriminate.
    + apply list_elem_of_further, list_elem_of_here.
    + reflexivity.
Defined.

(** ** C4: minutes of a subject *)




(** ** C5: running twice *)

(** C5, as stated, fails: the tasks of the second run carry new
    identifiers. Here the first run draws ["task-0"] and ["task-1"] and
    the second ["task-2"] and ["task-3"]. *)
Lemma C5_counterexample :
  exists out1 out2,
    generateSchedule ex_uuids 0 [ex_math] [] ex_settings ex_today = Some out1
    /\ generateSchedule ex_uuids (out_uuidCalls out1) [ex_math] (out_schedule out1)
         ex_settings ex_today = Some out2
    /\ out_newAutoTasks out2 <> out_newAutoTasks out1.
Proof.
  eexists. eexists. split; [vm_compute; reflexivity|].
  split; [vm_compute; reflexivity|]. simpl. discriminate.
Qed.

(** C5, amended: a second run on the schedule the first run left, with
    the same subjects, settings and date, creates the same tasks as the
    first, their identifiers apart, whatever the identifiers; and it
    leaves the same schedule, again identifiers apart. *)
Theorem C5_second_run_same_tasks (uuids : nat -> string) (calls : nat)
    (subjects : list Subject) (schedule : list DailyTask)
    (settings : UserSettings) (today : Date) :
  exists out1 out2,
    generateSchedule uuids calls subjects schedule settings today = Some out1
    /\ generateSchedule uuids (out_uuidCalls out1) subjects (out_schedule out1)
         settings today = Some out2
    /\ List.map taskContent (out_newAutoTasks out2)
       = List.map taskContent (out_newAutoTasks out1)
    /\ List.map taskContent (out_schedule out2)
       = List.map taskContent (out_schedule out1).
Proof.
  destruct (generateSchedule_total uuids calls subjects schedule settings today)
    as [out1 Hout1].
  exists out1. pose proof Hout1 as Hcase.
  apply generateSchedule_cases in Hcase as [[-> ->]|[Hne (st1 & Hrun & ->)]].
  - eexists. repeat split; reflexivity.
  - cbn [out_uuidCalls out_schedule out_newAutoTasks].
    assert (fixedOrCompleted (fixedOrCompleted schedule ++ newAutoTasks st1)
            = fixedOrCompleted schedule) as Hkept.
    { rewrite fixedOrCompleted_app, fixedOrCompleted_idemp.
      rewrite (fixedOrCompleted_new (newAutoTasks st1)); [apply app_nil_r|].
      by eapply run_new_flags. }
    destruct (allocate_sameButIds uuids uuids calls (uuidCalls st1) settings
                (fixedOrCompleted schedule)
                (initialPendingWork subjects (fixedOrCompleted schedule)) today st1 Hrun)
      as (st2 & Hrun2 & (_ & Hnew & _)).
    destruct subjects as [|s subjects]; [done|].
    unfold generateSchedule at 2. rewrite Hkept, Hrun2.
    eexists. split; [exact Hout1|]. split; [reflexivity|].
    cbn [out_schedule out_newAutoTasks]. split; [done|].
    by rewrite !List.map_app, Hnew.
Qed.

(** ** C6: one task per subject and date *)

(** C6, as stated, fails: the search of line 310 looks among the new
    tasks only, so a subject gets a new task on a date on which it has a
    kept one. Here the subject has done 30 of 180 minutes in a completed
    task of the second day, which has 60 minutes of room left. *)
Lemma C6_counterexample :
  exists out t1 t2,
    generateSchedule ex_uuids 0 [ex_math] [ex_short_done] ex_settings ex_today
    = Some out
    /\ out_schedule out !! 0%nat = Some t1
    /\ out_schedule out !! 2%nat = Some t2
    /\ taskKey t1 = taskKey t2.
Proof.
  eexists. eexists. eexists. split; [vm_compute; reflexivity|].
  repeat split; reflexivity.
Qed.

(** C6, amended: among the tasks a run creates there is at most one
    per subject and date; the resulting schedule is the kept tasks
    followed by them. *)
Theorem C6_new_tasks_unique (uuids : nat -> string) (calls : nat)
    (subjects : list Subject) (schedule : list DailyTask)
    (settings : UserSettings) (today : Date) :
  exists out,
    generateSchedule uuids calls subjects schedule settings today = Some out /\
    NoDup (List.map taskKey (out_newAutoTasks out)).
Proof.
  destruct (generateSchedule_total uuids calls subjects schedule settings today)
    as [out Hout].
  exists out. split; [done|].
  apply generateSchedule_cases in Hout as [[_ ->]|[_ (st & Hrun & ->)]];
    [by constructor|].
  simpl. by eapply run_keys_NoDup.
Qed.

(** ** C7: the kept tasks *)




(** ** C8: planned minutes of a new task *)

(** C8, as stated, fails: the last slot of a subject is what the
    subject still needs. Here 170 of the 180 minutes of a subject are
    done, and the new task has 10 minutes. *)
Lemma C8_counterexample :
  exists out t,
    generateSchedule ex_uuids 0 [ex_math] [ex_overrun] ex_settings ex_today
    = Some out
    /\ t ∈ out_newAutoTasks out
    /\ plannedMinutes t = 10
    /\ ~ (slot | plannedMinutes t).
Proof.
  eexists. eexists. split; [vm_compute; reflexivity|].
  split; [apply list_elem_of_here|]. split; [reflexivity|].
  simpl. intros [z Hz]. unfold slot in Hz. lia.
Qed.

(** C8, amended: every new task has a positive number of planned
    minutes, and a multiple of the 30-minute slot when the planned and
    the counted minutes of every kept task are multiples of 30. *)
Theorem C8_planned_minutes (uuids : nat -> string) (calls : nat)
    (subjects : list Subject) (schedule : list DailyTask)
    (settings : UserSettings) (today : Date) :
  exists out,
    generateSchedule uuids calls subjects schedule settings today = Some out /\
    Forall (fun t => 0 < plannedMinutes t) (out_newAutoTasks out) /\
    (Forall (fun t => (slot | plannedMinutes t) /\ (slot | creditedMinutes t))
       (fixedOrCompleted schedule) ->
     Forall (fun t => (slot | plannedMinutes t)) (out_newAutoTasks out)).
Proof.
  destruct (generateSchedule_total uuids calls subjects schedule settings today)
    as [out Hout].
  exists out. split; [done|].
  apply generateSchedule_cases in Hout as [[_ ->]|[_ (st & Hrun & ->)]];
    [by split; [constructor|intros _; constructor]|].
  simpl. split; [by eapply run_positive|]. intros Hall.
  eapply run_divisible; [| |exact Hrun].
  - eapply Forall_impl; [exact Hall|]. by intros t [? _].
  - apply initialPendingWork_divide.
    eapply Forall_impl; [exact Hall|]. by intros t [_ ?].
Qed.

Lemma C8_planned_minutes_witness :
  exists out,
    generateSchedule ex_uuids 0 [ex_math; ex_physics]
      [ex_math_done; ex_physics_done] ex_settings ex_today = Some out /\
    Forall (fun t => 0 < plannedMinutes t) (out_newAutoTasks out) /\
    Forall (fun t => (slot | plannedMinutes t)) (out_newAutoTasks out).
Proof.
  destruct (C8_planned_minutes ex_uuids 0 [ex_math; ex_physics]
              [ex_math_done; ex_physics_done] ex_settings ex_today)
    as (out & Hout & Hpos & Hdiv).
  exists out. split; [exact Hout|]. split; [exact Hpos|]. apply Hdiv.
  simpl. constructor; [split; exists 2; reflexivity|].
  constructor; [split; exists 2; reflexivity|constructor].
Defined.

(** ** C9: a limit of no subject *)

(** C9, as stated, fails: with [maxSubjectsPerDay] 0 a subject that
    has a kept task on a day passes the gate, and the day does allocate.
    Here the subject has a completed task of 60 minutes today and gets
    the remaining 60 minutes of the day. *)
Lemma C9_counterexample :
  exists out,
    generateSchedule ex_uuids 0 [ex_math] [ex_math_done] (mkUserSettings 2 5 0)
      ex_today = Some out
    /\ maxSubjectsPerDay (mkUserSettings 2 5 0) = 0
    /\ minutesOn (toLocalDateString ex_today) (out_newAutoTasks out) = 60.
Proof.
  eexists. split; [vm_compute; reflexivity|]. split; reflexivity.
Qed.

(** C9, amended: with [maxSubjectsPerDay] 0 (or less) the call
    completes; a subject gets a new task on a date only where it has a
    kept task; so without kept tasks no day allocates anything, and a
    run that allocates nothing while some subject needs minutes goes
    through all 365 days. *)
Theorem C9_no_subject_limit_terminates (uuids : nat -> string) (calls : nat)
    (subjects : list Subject) (schedule : list DailyTask)
    (settings : UserSettings) (today : Date) :
  maxSubjectsPerDay settings <= 0 ->
  exists out,
    generateSchedule uuids calls subjects schedule settings today = Some out /\
    (forall t, t ∈ out_newAutoTasks out ->
       exists p, p ∈ fixedOrCompleted schedule
                 /\ subjectId p = subjectId t /\ date p = date t) /\
    (fixedOrCompleted schedule = [] -> out_newAutoTasks out = []) /\
    (out_newAutoTasks out = [] ->
     initialPendingWork subjects (fixedOrCompleted schedule) <> [] ->
     out_daysCount out = MAX_DAYS).
Proof.
  intros Hmax.
  destruct (generateSchedule_total uuids calls subjects schedule settings today)
    as [out Hout].
  exists out. split; [done|].
  apply generateSchedule_cases in Hout as [[-> ->]|[_ (st & Hrun & ->)]];
    cbn [out_newAutoTasks out_daysCount].
  { split; [intros t Ht; by apply elem_of_nil in Ht|]. split; [done|]. by intros _ []. }
  pose proof (run_kept_keys _ _ _ _ _ _ Hmax _ Hrun) as Hkept.
  rewrite Forall_forall in Hkept.
  assert (forall t, t ∈ newAutoTasks st ->
            exists p, p ∈ fixedOrCompleted schedule
                      /\ subjectId p = subjectId t /\ date p = date t) as Hnew.
  { intros t Ht.
    assert (taskKey t ∈ List.map taskKey (fixedOrCompleted schedule)) as Hin.
    { apply Hkept. by apply list_elem_of_In, List.in_map, list_elem_of_In. }
    apply list_elem_of_In, List.in_map_iff in Hin as (p & Hk & Hp).
    inversion Hk. exists p. by rewrite <- list_elem_of_In in Hp. }
  split; [done|]. split.
  - intros Hnone. destruct (newAutoTasks st) as [|t l]; [done|].
    destruct (Hnew t) as (p & Hp & _); [by left|]. rewrite Hnone in Hp.
    by apply elem_of_nil in Hp.
  - intros Hnil Hpw. pose proof (run_idle _ _ _ _ _ _ _ Hrun Hnil) as Hsame.
    apply (run_ind _ _ _ _ _ _ (fun _ _ => True)) in Hrun
      as (n & Hn & Hd & _ & _ & Hg); [|done|done].
    rewrite Hd. unfold dayGuard in Hg. rewrite Hsame, Hd in Hg.
    pose proof (initialPendingWork_needs subjects (fixedOrCompleted schedule)) as Hneeds.
    destruct (initialPendingWork subjects (fixedOrCompleted schedule)) as [|w l];
      [done|].
    inversion Hneeds as [|?? Hw _]; subst. simpl in Hg.
    assert ((0 <? minutesNeeded w) = true) as Hpos by lia.
    rewrite Hpos in Hg. simpl in Hg. unfold MAX_DAYS in *. lia.
Qed.

Lemma C9_no_subject_limit_witness :
  exists out,
    generateSchedule ex_uuids 0 [ex_math; ex_physics] [] (mkUserSettings 2 5 0)
      ex_today = Some out /\
    out_newAutoTasks out = [] /\ out_daysCount out = MAX_DAYS.
Proof.
  destruct (C9_no_subject_limit_terminates ex_uuids 0 [ex_math; ex_physics] []
              (mkUserSettings 2 5 0) ex_today) as (out & Hout & _ & Hnone & Hall).
  - simpl. lia.
  - exists out. split; [exact Hout|].
    assert (out_newAutoTasks out = []) as Hnil by (apply Hnone; reflexivity).
    split; [exact Hnil|]. apply Hall; [exact Hnil|]. vm_compute. discriminate.
Defined.

(** ** C10: subjects with a kept task of the day *)

(** C10: a subject that has a kept task on a day is never stopped by
    the subject-count check of that day, whatever [maxSubjectsPerDay]
    is and however many subjects the day has. At the check, a subject
    that is among the subjects of the day is let through and given the
    minutes of a slot; the subjects of the kept tasks of the day are
    among them from the start; and over the day such a subject is given
    minutes until it needs no more or the day is full. With
    [maxSubjectsPerDay] 0, a subject of 180 minutes with a completed
    task of 60 minutes today gets the remaining 60 minutes of the
    day. *)
Theorem C10_kept_subject_passes_gate (uuids : nat -> string) (settings : UserSettings)
    (preserved : list DailyTask) :
  (forall dateStr maxMinutes st r rest w,
     activeSubjects st = r :: rest -> pendingWork st !! r = Some w ->
     id (subject w) ∈ assignedSubjectIdsToday st ->
     capGate settings (assignedSubjectIdsToday st) (id (subject w)) = false
     /\ exists st',
          slotBody uuids settings dateStr maxMinutes st = Some st'
          /\ minutesOn dateStr (newAutoTasks st')
             = minutesOn dateStr (newAutoTasks st)
               + Z.min (Z.min slot (maxMinutes - minutesAllocatedToday st))
                       (minutesNeeded w)
          /\ minutesFor (id (subject w)) (newAutoTasks st')
             = minutesFor (id (subject w)) (newAutoTasks st)
               + Z.min (Z.min slot (maxMinutes - minutesAllocatedToday st))
                       (minutesNeeded w))
  /\ (forall st r w,
        pendingWork st !! r = Some w -> 0 < minutesNeeded w ->
        String.leb (toLocalDateString (currentDate st)) (testDate (subject w)) = true ->
        id (subject w) ∈ subjectIdsOn (toLocalDateString (currentDate st)) preserved ->
        id (subject w) ∈ assignedSubjectIdsToday (dayStart preserved st)
        /\ exists st',
             dayBody uuids settings preserved st = Some st'
             /\ ((exists w', pendingWork st' !! r = Some w' /\ subject w' = subject w
                             /\ minutesNeeded w' <= 0)
                 \/ maxMinutesOf settings (currentDate st) <= minutesAllocatedToday st'))
  /\ (exists out,
        generateSchedule ex_uuids 0 [ex_math] [ex_math_done] (mkUserSettings 2 5 0)
          ex_today = Some out
        /\ maxSubjectsPerDay (mkUserSettings 2 5 0)
           <= Z.of_nat (size (subjectIdsOn (toLocalDateString ex_today)
                                (fixedOrCompleted [ex_math_done])))
        /\ minutesOn (toLocalDateString ex_today) (out_newAutoTasks out) = 60).
Proof.
  split; [|split].
  - intros dateStr maxMinutes st r rest w Hact Hw Hin.
    pose proof (capGate_assigned settings _ _ Hin) as Hgate. split; [done|].
    unfold slotBody. rewrite Hact, Hw, Hgate. eexists. split; [reflexivity|].
    cbn [newAutoTasks]. rewrite mergeTask_minutesOn, mergeTask_minutesFor.
    by rewrite !String.eqb_refl.
  - intros st r w Hw Hneed Hdl Hkept.
    set (dateStr := toLocalDateString (currentDate st)) in *.
    assert (id (subject w) ∈ assignedSubjectIdsToday (dayStart preserved st)) as Hstart
      by (simpl; by rewrite assignedOn_subjectIdsOn).
    split; [done|].
    destruct (dayBody_total uuids settings preserved st) as [st' Hst'].
    exists st'. split; [done|]. unfold dayBody in Hst'.
    destruct (while _ _ _ _) as [st1|] eqn:Hwhile; [|discriminate].
    inversion Hst'; subst; clear Hst'. cbn [pendingWork minutesAllocatedToday].
    pose proof Hwhile as Hexit. apply while_ind with (P := fun _ => True) in Hexit
      as [_ Hexit]; [|done|done].
    apply (slot_loop_ind uuids settings dateStr (maxMinutesOf settings (currentDate st))
             (servedInv r (subject w))) in Hwhile
      as [(_ & w' & Hw' & Hid & Hq) _].
    + unfold slotGuard in Hexit. apply andb_false_iff in Hexit as [Hfull|Hempty].
      * right. lia.
      * left. exists w'. split; [done|]. split; [done|].
        destruct Hq as [Hq|Hdone]; [|done].
        apply Z.ltb_ge in Hempty.
        destruct (activeSubjects st1); [by apply elem_of_nil in Hq|].
        rewrite length_cons in Hempty. lia.
    + intros s s' _ _ Hs Hbody. by eapply servedInv_step.
    + apply dayStart_queueOK.
    + split; [done|].
      exists w. simpl. repeat split; [done|]. left.
      by eapply buildActiveSubjects_elem.
  - eexists. split; [vm_compute; reflexivity|]. split; [vm_compute; discriminate|].
    reflexivity.
Qed.

Lemma C10_kept_subject_witness :
  exists st',
    dayBody ex_uuids (mkUserSettings 2 5 0) [ex_math_done]
      (mkLocals [mkWorkItem ex_math 120] [] ex_today 0 ∅ 0 [] 0) = Some st'
    /\ ((exists w', pendingWork st' !! 0%nat = Some w' /\ subject w' = ex_math
                    /\ minutesNeeded w' <= 0)
        \/ maxMinutesOf (mkUserSettings 2 5 0) ex_today <= minutesAllocatedToday st').
Proof.
  destruct (C10_kept_subject_passes_gate ex_uuids (mkUserSettings 2 5 0)
              [ex_math_done]) as (_ & Hday & _).
  destruct (Hday (mkLocals [mkWorkItem ex_math 120] [] ex_today 0 ∅ 0 [] 0)
              0%nat (mkWorkItem ex_math 120)) as (_ & Hserved).
  - reflexivity.
  - simpl. lia.
  - reflexivity.
  - apply elem_of_subjectIdsOn. simpl. apply list_elem_of_here.
  - exact Hserved.
Defined.

(** * Further properties of the component *)

(** ** Day numbers *)







Lemma newDate_in_month (year month day : Z) :
  0 <= month <= 11 -> 1 <= day <= DaysInMonth (fullYearOf year) month ->
  newDate year month day = mkDate (fullYearOf year) month day.
Proof.
  intros Hm Hd. unfold newDate, dateOfFields.
  replace (month / 12) with 0 by dlia. replace (month mod 12) with month by dlia.
  rewrite Z.add_0_r. destruct (1 <=? day) eqn:E; [|lia].
  unfold setDate. cbn [getFullYear getMonth].
  destruct (day <=? _) eqn:E1; [done|lia].
Qed.

Lemma getDaysInMonth_spec (year month : Z) :
  0 <= month <= 11 -> getDaysInMonth year month = DaysInMonth (fullYearOf year) month.
Proof.
  intros Hm. unfold getDaysInMonth, newDate, dateOfFields. fold (fullYearOf year).
  cbn [Z.leb Z.compare]. 
  destruct (Z.eq_dec month 11) as [->|Hne].
  - reflexivity.
  - replace ((month + 1) / 12) with 0 by dlia.
    replace ((month + 1) mod 12) with (month + 1) by dlia.
    destruct (month + 1 =? 0) eqn:E; [lia|]. cbn [getDate].
    rewrite Z.add_0_r, Z.add_0_r. f_equal. lia.
Qed.

Lemma getFirstDayOfMonth_spec (year month : Z) :
  0 <= month <= 11 ->
  getFirstDayOfMonth year month = getDay (mkDate (fullYearOf year) month 1).
Proof.
  intros Hm. unfold getFirstDayOfMonth. rewrite newDate_in_month; [done|done|].
  pose proof (DaysInMonth_bounds (fullYearOf year) month). lia.
Qed.

Lemma getDay_bounds (d : Date) : 0 <= getDay d < 7.
Proof. unfold getDay. dlia. Qed.

Lemma getDay_in_month (y m i : Z) :
  getDay (mkDate y m i) = (getDay (mkDate y m 1) + i - 1) mod 7.
Proof. unfold getDay, MakeDay. cbn [getFullYear getMonth getDate]. dlia. Qed.

Lemma generateCalendarGrid_spec (d : Date) :
  0 <= getMonth d <= 11 ->
  let y := fullYearOf (getFullYear d) in
  let m := getMonth d in
  generateCalendarGrid d =
  repeat None (Z.to_nat (getDay (mkDate y m 1)))
  ++ List.map (fun i => Some (mkDate y m (Z.of_nat i)))
       (seq 1 (Z.to_nat (DaysInMonth y m))).
Proof.
  intros Hm y m. unfold generateCalendarGrid.
  rewrite getDaysInMonth_spec, getFirstDayOfMonth_spec by done.
  f_equal. apply map_ext_in. intros i Hi. apply in_seq in Hi.
  rewrite newDate_in_month; [done|done|]. fold y m. lia.
Qed.

(** ** The calendar *)

Lemma calendar_cells_in_weekday_columns_aux (d : Date) :
  valid d ->
  let y := fullYearOf (getFullYear d) in
  let m := getMonth d in
  let grid := generateCalendarGrid d in
  (forall idx cell, grid !! idx = Some (Some cell) ->
     cell = mkDate y m (Z.of_nat idx - getDay (mkDate y m 1) + 1)
     /\ valid cell)
  /\ (forall day, 1 <= day <= DaysInMonth y m ->
        grid !! Z.to_nat (getDay (mkDate y m 1) + day - 1)
        = Some (Some (mkDate y m day))).
Proof.
  intros [Hm _] y m grid. unfold grid.
  rewrite generateCalendarGrid_spec by done. fold y m.
  pose proof (getDay_bounds (mkDate y m 1)) as Hf.
  pose proof (DaysInMonth_bounds y m) as Hdim.
  set (f := getDay (mkDate y m 1)) in *.
  assert (forall day, 1 <= day <= DaysInMonth y m ->
            (repeat None (Z.to_nat f)
             ++ List.map (fun i => Some (mkDate y m (Z.of_nat i)))
                  (seq 1 (Z.to_nat (DaysInMonth y m))))
            !! Z.to_nat (f + day - 1) = Some (Some (mkDate y m day))) as Hcell.
  { intros day Hday. rewrite lookup_app_r by (rewrite repeat_length; lia).
    rewrite repeat_length. rewrite list_lookup_fmap.
    replace (Z.to_nat (f + day - 1) - Z.to_nat f)%nat with (Z.to_nat (day - 1)) by lia.
    rewrite lookup_seq_lt by lia. simpl. repeat f_equal. lia. }
  split; [|exact Hcell].
  intros idx cell Hidx.
  destruct (decide (idx < Z.to_nat f)%nat) as [Hlt|Hge].
  - rewrite lookup_app_l in Hidx by (rewrite repeat_length; lia).
    apply list_elem_of_lookup_2, list_elem_of_In, repeat_spec in Hidx. done.
  - assert (idx < Z.to_nat f + Z.to_nat (DaysInMonth y m))%nat as Hup.
    { apply lookup_lt_Some in Hidx. rewrite length_app, repeat_length,
        length_map, length_seq in Hidx. lia. }
    pose proof (Hcell (Z.of_nat idx - f + 1) ltac:(lia)) as Hc.
    replace (Z.to_nat (f + (Z.of_nat idx - f + 1) - 1)) with idx in Hc by lia.
    rewrite Hidx in Hc. inversion Hc as [Heq]. split; [done|].
    split; cbn [getMonth getDate getFullYear]; lia.
Qed.

(** X1. The cells of the calendar. For the month of a date, the grid
    holds one cell for each day of the month, in order, after as many
    empty cells as the weekday of the first; the cell at position
    [idx] is therefore in the column of its weekday, [idx mod 7]. *)
Theorem calendar_cells_in_weekday_columns (d : Date) :
  valid d ->
  let y := fullYearOf (getFullYear d) in
  let m := getMonth d in
  let grid := generateCalendarGrid d in
  (forall idx cell, grid !! idx = Some (Some cell) ->
     cell = mkDate y m (Z.of_nat idx - getDay (mkDate y m 1) + 1)
     /\ valid cell
     /\ getDay cell = Z.of_nat idx mod 7)
  /\ (forall day, 1 <= day <= DaysInMonth y m ->
        grid !! Z.to_nat (getDay (mkDate y m 1) + day - 1)
        = Some (Some (mkDate y m day)))
  /\ Z.of_nat (length grid) = getDay (mkDate y m 1) + DaysInMonth y m
  /\ (length grid <= 37)%nat.
Proof.
  intros Hv y m grid.
  destruct (calendar_cells_in_weekday_columns_aux d Hv) as (Hcells & Hdays).
  fold y m grid in Hcells, Hdays.
  pose proof (getDay_bounds (mkDate y m 1)) as Hf.
  pose proof (DaysInMonth_bounds y m) as Hdim.
  assert (Z.of_nat (length grid) = getDay (mkDate y m 1) + DaysInMonth y m) as Hlen.
  { unfold grid. destruct Hv as [Hm _]. rewrite generateCalendarGrid_spec by done.
    rewrite length_app, repeat_length, length_map, length_seq. fold y m. lia. }
  split; [|split; [exact Hdays|split; [exact Hlen|lia]]].
  intros idx cell Hidx. pose proof (lookup_lt_Some _ _ _ Hidx) as Hlt.
  destruct (decide (Z.of_nat idx < getDay (mkDate y m 1))) as [Hlow|Hlow].
  - apply Hcells in Hidx as (-> & [_ Hd]). cbn [getDate] in Hd. lia.
  - apply Hcells in Hidx as (-> & Hvc). split; [done|]. split; [done|].
    rewrite getDay_in_month. f_equal. lia.
Qed.

(** Witness: February 2028, a leap February that starts on a Tuesday. *)
Lemma calendar_cells_witness :
  let grid := generateCalendarGrid (mkDate 2028 1 14) in
  (forall idx cell, grid !! idx = Some (Some cell) ->
     cell = mkDate 2028 1 (Z.of_nat idx - 2 + 1)
     /\ valid cell /\ getDay cell = Z.of_nat idx mod 7)
  /\ grid !! 30%nat = Some (Some (mkDate 2028 1 29))
  /\ length grid = 31%nat.
Proof.
  assert (valid (mkDate 2028 1 14)) as Hv by (unfold valid, DaysInMonth; simpl; lia).
  destruct (calendar_cells_in_weekday_columns (mkDate 2028 1 14) Hv)
    as (H1 & H2 & H3 & _).
  split; [exact H1|]. split; [exact (H2 29 ltac:(vm_compute; split; discriminate))|].
  reflexivity.
Defined.

(** X2. A task in the calendar. No task is listed in two cells of the
    grid, and a task of the schedule dated on a day of the month shown
    is listed in the cell of that day. *)
Theorem calendar_lists_a_task_once (d : Date) (schedule : list DailyTask)
    (t : DailyTask) :
  valid d ->
  let y := fullYearOf (getFullYear d) in
  let m := getMonth d in
  let grid := generateCalendarGrid d in
  (forall i j ci cj,
     grid !! i = Some (Some ci) -> grid !! j = Some (Some cj) ->
     t ∈ dayTasks schedule ci -> t ∈ dayTasks schedule cj -> i = j)
  /\ (forall day,
        t ∈ schedule -> 1 <= day <= DaysInMonth y m ->
        date t = toLocalDateString (mkDate y m day) ->
        exists i ci, grid !! i = Some (Some ci) /\ getDate ci = day
                     /\ t ∈ dayTasks schedule ci).
Proof.
  intros Hv y m grid.
  destruct (calendar_cells_in_weekday_columns_aux d Hv) as (Hcells & Hdays).
  fold y m grid in Hcells, Hdays. split.
  - intros i j ci cj Hi Hj Hti Htj.
    apply Hcells in Hi as (Hci & Hvi), Hj as (Hcj & Hvj).
    unfold dayTasks in Hti, Htj.
    apply list_elem_of_In, filter_In in Hti as [_ Hti], Htj as [_ Htj].
    apply String_eqb_true in Hti, Htj.
    assert (ci = cj) as Heq by (apply toLocalDateString_inj; congruence).
    rewrite Hci, Hcj in Heq. injection Heq. lia.
  - intros day Ht Hday Hdate. eexists _, _. split; [by apply Hdays|].
    split; [done|]. unfold dayTasks. apply list_elem_of_In, filter_In.
    split; [by apply list_elem_of_In|]. by apply String_eqb_true.
Qed.

(** Witness: a task of 29 February 2028 in the calendar of that month. *)
Lemma calendar_task_witness :
  exists i ci,
    generateCalendarGrid (mkDate 2028 1 14) !! i = Some (Some ci)
    /\ getDate ci = 29
    /\ mkDailyTask "t" "s" "2028-02-29" 30 false 0 false
       ∈ dayTasks [mkDailyTask "t" "s" "2028-02-29" 30 false 0 false] ci.
Proof.
  assert (valid (mkDate 2028 1 14)) as Hv by (unfold valid, DaysInMonth; simpl; lia).
  destruct (calendar_lists_a_task_once (mkDate 2028 1 14)
              [mkDailyTask "t" "s" "2028-02-29" 30 false 0 false]
              (mkDailyTask "t" "s" "2028-02-29" 30 false 0 false) Hv) as [_ H].
  apply (H 29).
  - apply list_elem_of_here.
  - vm_compute. split; discriminate.
  - reflexivity.
Defined.


Lemma setMonth_cases (d : Date) (delta : Z) :
  valid d ->
  let d' := setMonth d (getMonth d + delta) in
  let ty := (monthIndex d + delta) / 12 in
  let tm := (monthIndex d + delta) mod 12 in
  valid d'
  /\ (getDate d <= DaysInMonth ty tm -> d' = mkDate ty tm (getDate d))
  /\ (DaysInMonth ty tm < getDate d ->
      d' = mkDate ty (tm + 1) (getDate d - DaysInMonth ty tm)
      /\ monthIndex d' = monthIndex d + delta + 1).
Proof.
  intros [Hm Hd] d' ty tm. unfold d', setMonth, dateOfFields.
  assert (getFullYear d + (getMonth d + delta) / 12 = ty) as -> by
    (unfold ty, monthIndex; dlia).
  assert ((getMonth d + delta) mod 12 = tm) as -> by (unfold ty, tm, monthIndex; dlia).
  assert (0 <= tm <= 11) as Htm by (unfold tm; dlia).
  pose proof (DaysInMonth_bounds (getFullYear d) (getMonth d)).
  pose proof (DaysInMonth_bounds ty tm) as Hb.
  pose proof (DaysInMonth_bounds ty (tm + 1)) as Hb1.
  destruct (1 <=? getDate d) eqn:E1; [|lia].
  unfold setDate. cbn [getFullYear getMonth].
  destruct (getDate d <=? DaysInMonth ty tm) eqn:E2.
  - split; [split; cbn [getFullYear getMonth getDate]; lia|]. split; [done|lia].
  - assert (tm <> 11) as Hne.
    { intros Heq. rewrite Heq in E2. change (DaysInMonth ty 11) with 31 in E2. lia. }
    destruct (tm <? 11) eqn:E3; [|lia].
    split; [split; cbn [getFullYear getMonth getDate]; lia|]. split; [lia|].
    intros _. split; [done|]. unfold monthIndex. cbn [getFullYear getMonth].
    unfold ty, tm, monthIndex in *. dlia.
Qed.



(** X3. The arrows of the calendar. The date the calendar is on after
    an arrow keeps its day of the month when the month aimed at has
    that day. When it has not, the date runs over into the month after
    the one aimed at: the arrow to the right then skips a month, and
    the arrow to the left stays in the month it started from. *)
Theorem month_arrows (st : App.State) (delta : Z) :
  valid (App.currentDateForCalendar st) ->
  let d := App.currentDateForCalendar st in
  let d' := App.currentDateForCalendar (App.showMonth delta st) in
  let ty := (monthIndex d + delta) / 12 in
  let tm := (monthIndex d + delta) mod 12 in
  valid d'
  /\ (getDate d <= DaysInMonth ty tm -> d' = mkDate ty tm (getDate d))
  /\ (DaysInMonth ty tm < getDate d ->
      d' = mkDate ty (tm + 1) (getDate d - DaysInMonth ty tm)
      /\ monthIndex d' = monthIndex d + delta + 1).
Proof. intros Hv. apply (setMonth_cases _ delta Hv). Qed.

(** Witness: the arrow to the right on 31 January 2027 shows March. *)
Lemma month_arrows_witness :
  App.currentDateForCalendar
    (App.showMonth 1 (App.initial (mkDate 2027 0 31))) = mkDate 2027 2 3.
Proof.
  assert (valid (App.currentDateForCalendar (App.initial (mkDate 2027 0 31)))) as Hv
    by (unfold valid, DaysInMonth; simpl; lia).
  destruct (month_arrows (App.initial (mkDate 2027 0 31)) 1 Hv) as (_ & _ & H).
  apply H. vm_compute. reflexivity.
Defined.



(** ** The strings of dates *)

Lemma String_leb_antisym (a b : string) :
  String.leb a b = true -> String.leb b a = true -> a = b.
Proof.
  intros Hab Hba. destruct (String.compare a b) eqn:E.
  - by apply String.compare_eq_iff.
  - exfalso. apply (String_ltb_not_leb a b); [|done]. unfold String.ltb. by rewrite E.
  - unfold String.leb in Hab. by rewrite E in Hab.
Qed.

(** X5. The string of a date names the date: two dates that a [Date]
    can hold have the same string only when they are the same date. *)
Theorem date_string_names_one_date (d1 d2 : Date) :
  valid d1 -> valid d2 ->
  toLocalDateString d1 = toLocalDateString d2 <-> d1 = d2.
Proof.
  intros Hv1 Hv2. split; [by apply toLocalDateString_inj|congruence].
Qed.

(** Witness: the last day of one year and the first of the next. *)
Lemma date_string_witness :
  toLocalDateString (mkDate 2026 11 31) = toLocalDateString (addDays 1 (mkDate 2026 11 30))
  <-> mkDate 2026 11 31 = addDays 1 (mkDate 2026 11 30).
Proof.
  apply date_string_names_one_date; unfold valid, DaysInMonth; simpl; lia.
Defined.

(** X6. With years of four digits, the string of a date has ten
    characters, and the strings are in the order of the dates: this is
    what the comparisons of [dateStr] with [testDate] rely on. *)
Theorem date_strings_in_date_order (d1 d2 : Date) :
  valid d1 -> valid d2 ->
  1000 <= getFullYear d1 <= 9999 -> 1000 <= getFullYear d2 <= 9999 ->
  String.length (toLocalDateString d1) = 10%nat
  /\ (String.leb (toLocalDateString d1) (toLocalDateString d2) = true
      <-> dateRank d1 <= dateRank d2).
Proof.
  intros Hv1 Hv2 Hy1 Hy2. split.
  - rewrite toLocalDateString_valid, String_fourDigits by done. reflexivity.
  - split; [|by apply toLocalDateString_mono].
    intros Hle. destruct (Z.le_gt_cases (dateRank d1) (dateRank d2)) as [|Hgt]; [done|].
    assert (d1 = d2) as ->; [|lia].
    apply toLocalDateString_inj; [done|done|].
    apply String_leb_antisym; [done|]. apply toLocalDateString_mono; [done..|lia].
Qed.

(** Witness: 28 February and 1 March 2027. *)
Lemma date_strings_order_witness :
  String.leb (toLocalDateString (mkDate 2027 1 28)) (toLocalDateString (mkDate 2027 2 1))
  = true
  <-> dateRank (mkDate 2027 1 28) <= dateRank (mkDate 2027 2 1).
Proof.
  apply date_strings_in_date_order;
    (unfold valid, DaysInMonth; simpl; lia).
Defined.

(** ** The days of a run *)



(** ** The timer *)

Lemma formatTime_nonneg (a : Z) :
  0 <= a ->
  formatTime a =
  ((if (0 <? a / 3600)%Z then String_ (a / 3600)%Z ++ ":" else "")
   ++ (twoDigits (a mod 3600 / 60)%Z ++ String ":" (twoDigits (a mod 60)%Z)))%string.
Proof.
  intros Ha. unfold formatTime. rewrite !Z.rem_mod_nonneg by lia.
  rewrite !padStart_twoDigits by dlia. reflexivity.
Qed.

(** X8. The display of the timer. Two elapsed times are shown alike
    only when they are the same number of seconds, and below an hour
    the display has five characters. *)
Theorem formatTime_shows_the_seconds (a b : Z) :
  0 <= a -> 0 <= b ->
  (formatTime a = formatTime b -> a = b)
  /\ (a < 3600 -> String.length (formatTime a) = 5%nat).
Proof.
  intros Ha Hb. split.
  - rewrite !formatTime_nonneg by done. intros Heq.
    assert (String.length
              (if 0 <? a / 3600 then (String_ (a / 3600) ++ ":")%string
               else ""%string)
            = String.length
                (if 0 <? b / 3600 then (String_ (b / 3600) ++ ":")%string
                 else ""%string))
      as Hlen.
    { apply (f_equal String.length) in Heq. rewrite !String_length_app in Heq.
      simpl in Heq. lia. }
    apply String_app_inj in Heq as [Hpre Hsuf]; [|done].
    unfold twoDigits in Hsuf. cbn in Hsuf. injection Hsuf as H1 H2 H3 H4.
    apply digit_inj in H1, H2, H3, H4; try dlia.
    assert (a / 3600 = b / 3600) as Hh; [|dlia].
    destruct (0 <? a / 3600) eqn:Ea; destruct (0 <? b / 3600) eqn:Eb.
    + apply String_app_inj in Hpre as [Hpre _].
      * by apply String__inj.
      * rewrite !String_length_app in Hlen. simpl in Hlen. lia.
    + rewrite String_length_app in Hlen. simpl in Hlen. lia.
    + rewrite String_length_app in Hlen. simpl in Hlen. lia.
    + apply Z.ltb_ge in Ea, Eb. dlia.
  - intros Hlt. rewrite formatTime_nonneg by done.
    replace (a / 3600) with 0 by dlia. reflexivity.
Qed.

(** Witness: an hour, a minute and a second. *)
Lemma formatTime_witness :
  formatTime 3661 = "1:01:01"%string
  /\ (formatTime 3661 = formatTime 61 -> 3661 = 61).
Proof.
  split; [reflexivity|].
  apply (formatTime_shows_the_seconds 3661 61); lia.
Defined.

(** ** Sorting *)

Lemma ordered_lookup {A} (R : A -> A -> Prop) (l : list A) (i j : nat) (x y : A) :
  ordered R l -> (i < j)%nat -> l !! i = Some x -> l !! j = Some y -> R x y.
Proof.
  revert i j. induction l as [|z l IH]; intros i j Hord Hij Hi Hj; [done|].
  destruct Hord as [Hz Hord]. destruct j as [|j]; [lia|]. simpl in Hj.
  destruct i as [|i].
  - injection Hi as ->. rewrite Forall_forall in Hz.
    apply Hz. by eapply list_elem_of_lookup_2.
  - simpl in Hi. apply (IH i j); [done|lia|done|done].
Qed.

Lemma ordered_filter {A} (R : A -> A -> Prop) (p : A -> bool) (l : list A) :
  ordered R l -> ordered R (List.filter p l).
Proof.
  induction l as [|x l IH]; [done|]. intros [Hx Hl]. simpl.
  destruct (p x); [|by apply IH]. split; [|by apply IH].
  by apply Forall_filter_list.
Qed.

(** [sort] puts a list in the order of its comparator and, being
    stable, leaves elements that compare equal in the order they had:
    [pos] tells the places of the elements before the sort. *)
Section SortOrder.

Context {A : Type}.
Variable cmp : A -> A -> Z.
Variable pos : A -> nat.

Local Abbreviation le := (fun x y => cmp x y <= 0).
Local Abbreviation before :=
  (fun x y => cmp x y <= 0 /\ (cmp y x <= 0 -> (pos x < pos y)%nat)).

Hypothesis cmp_total : forall x y, le x y \/ le y x.
Hypothesis cmp_trans : forall x y z, le x y -> le y z -> le x z.

Lemma sort_insert_ordered (x : A) (l : list A) :
  Forall (fun y => (pos x < pos y)%nat) l ->
  ordered before l -> ordered before (sort_insert cmp x l).
Proof.
  induction l as [|y l IH]; [by repeat constructor|].
  intros Hpos [Hy Hs]. apply Forall_cons in Hpos as [Hposy Hpos].
  simpl. destruct (cmp x y <=? 0) eqn:E.
  - apply Z.leb_le in E. split; [|by split].
    constructor; [done|]. rewrite Forall_forall in Hy, Hpos |- *.
    intros z Hz. split; [|by intros _; apply Hpos].
    apply (cmp_trans x y z); [done|]. by apply Hy.
  - apply Z.leb_gt in E. split; [|by apply IH].
    rewrite sort_insert_Permutation.
    constructor; [|done]. split; [|lia]. destruct (cmp_total x y); [lia|done].
Qed.

Lemma sort_ordered (l : list A) :
  ordered (fun x y => (pos x < pos y)%nat) l -> ordered before (sort cmp l).
Proof.
  induction l as [|x l IH]; [done|]. intros [Hx Hl].
  change (sort cmp (x :: l)) with (sort_insert cmp x (sort cmp l)).
  apply sort_insert_ordered; [|by apply IH].
  by rewrite sort_Permutation.
Qed.

Lemma sort_insert_sorted (x : A) (l : list A) :
  ordered le l -> ordered le (sort_insert cmp x l).
Proof.
  induction l as [|y l IH]; [by repeat constructor|].
  intros [Hy Hs]. simpl. destruct (cmp x y <=? 0) eqn:E.
  - apply Z.leb_le in E. split; [|by split].
    constructor; [done|]. eapply Forall_impl; [exact Hy|].
    intros z Hz. by apply (cmp_trans x y z).
  - apply Z.leb_gt in E. split; [|by apply IH].
    rewrite sort_insert_Permutation.
    constructor; [|done]. destruct (cmp_total x y); [lia|done].
Qed.

Lemma sort_sorted (l : list A) : ordered le (sort cmp l).
Proof.
  induction l as [|x l IH]; [done|]. by apply sort_insert_sorted.
Qed.

End SortOrder.

(** The first element of a sorted list is the first of the least
    elements of the list. *)
Lemma sort_head_first {A} (cmp : A -> A -> Z) (l : list A) (m : A) :
  (forall x y, 0 < cmp x y -> cmp y x < 0) ->
  head (sort cmp l) = Some m ->
  exists l1 l2, l = l1 ++ m :: l2 /\ forall y, y ∈ l1 -> cmp m y < 0.
Proof.
  intros Hanti. revert m. induction l as [|x l IH]; intros m; [done|].
  change (sort cmp (x :: l)) with (sort_insert cmp x (sort cmp l)).
  destruct (sort cmp l) as [|y l'] eqn:E; simpl.
  - intros [= <-]. exists [], l. split; [done|]. intros y Hy. by apply elem_of_nil in Hy.
  - destruct (cmp x y <=? 0) eqn:Ec; simpl; intros [= <-].
    + exists [], l. split; [done|]. intros z Hz. by apply elem_of_nil in Hz.
    + apply Z.leb_gt in Ec. destruct (IH y eq_refl) as (l1 & l2 & -> & Hbefore).
      exists (x :: l1), l2. split; [done|]. intros z Hz.
      apply elem_of_cons in Hz as [->|Hz]; [by apply Hanti|by apply Hbefore].
Qed.

Lemma localeCompare_le (a b : string) :
  localeCompare a b <= 0 <-> String.leb a b = true.
Proof.
  unfold localeCompare, String.leb. destruct (String.compare a b); split; (lia || done).
Qed.

Lemma String_leb_total (a b : string) :
  String.leb a b = true \/ String.leb b a = true.
Proof.
  unfold String.leb. rewrite (String.compare_antisym b a).
  destruct (String.compare a b); simpl; auto.
Qed.

(** ** The next test *)

(** X9. The next test. [getNextTestDays] answers [null] exactly when
    no subject has its test today or later; otherwise it answers a
    subject of the list whose test is today or later, and no such
    subject has an earlier test. Of several subjects with that
    earliest test it answers the first of the list: the subjects
    before it, of those with a test today or later, have a later test. *)
Theorem getNextTestDays_is_the_earliest (subjects : list Subject) (now : Date) :
  let today := toLocalDateString now in
  (getNextTestDays subjects now = None
   <-> forall s, s ∈ subjects -> String.leb today (testDate s) = false)
  /\ (forall s, getNextTestDays subjects now = Some s ->
        s ∈ subjects
        /\ String.leb today (testDate s) = true
        /\ (forall s', s' ∈ subjects -> String.leb today (testDate s') = true ->
                       String.leb (testDate s) (testDate s') = true)
        /\ exists l1 l2,
             List.filter (fun s => String.leb today (testDate s)) subjects
             = l1 ++ s :: l2
             /\ forall s', s' ∈ l1 ->
                           String.ltb (testDate s) (testDate s') = true).
Proof.
  intros today.
  set (cmp := fun a b : Subject => localeCompare (testDate a) (testDate b)).
  set (upcoming := sort cmp
         (List.filter (fun s => String.leb today (testDate s)) subjects)).
  assert (getNextTestDays subjects now = head upcoming) as ->.
  { unfold getNextTestDays. destruct subjects; [done|]. fold today cmp upcoming.
    by destruct upcoming. }
  assert (forall s, s ∈ upcoming <->
                    s ∈ subjects /\ String.leb today (testDate s) = true) as Hin.
  { intros s. unfold upcoming. rewrite sort_Permutation.
    rewrite list_elem_of_In, filter_In, <- list_elem_of_In. done. }
  assert (ordered (fun x y => cmp x y <= 0) upcoming) as Hsorted.
  { apply (sort_sorted cmp); unfold cmp.
    - intros x y. rewrite !localeCompare_le. apply String_leb_total.
    - intros x y z. rewrite !localeCompare_le. apply String_leb_trans. }
  split.
  - split.
    + intros Hnone s Hs. destruct (String.leb today (testDate s)) eqn:E; [|done].
      assert (s ∈ upcoming) as Hup by (by apply Hin).
      destruct upcoming; [by apply elem_of_nil in Hup|done].
    + intros Hall. destruct upcoming as [|s l] eqn:E; [done|].
      assert (s ∈ s :: l) as Hs by apply list_elem_of_here.
      apply Hin in Hs as [Hs Hle]. by rewrite (Hall s Hs) in Hle.
  - intros s Hhead. destruct upcoming as [|s0 l] eqn:E; [done|].
    injection Hhead as ->.
    assert (s ∈ s :: l) as Hs by apply list_elem_of_here.
    apply Hin in Hs as [Hs Hle]. split; [done|]. split; [done|]. split.
    + intros s' Hs' Hle'. assert (s' ∈ s :: l) as Hup by (by apply Hin).
      destruct Hsorted as [Hfirst _].
      apply elem_of_cons in Hup as [->|Hl].
      * destruct (String_leb_total (testDate s) (testDate s)); done.
      * rewrite Forall_forall in Hfirst.
        apply Hfirst in Hl. unfold cmp in Hl. by apply localeCompare_le.
    + destruct (sort_head_first cmp
                  (List.filter (fun s => String.leb today (testDate s)) subjects) s)
        as (l1 & l2 & Hsplit & Hbefore).
      * intros x y Hxy. unfold cmp, localeCompare in *.
        rewrite (String.compare_antisym (testDate y) (testDate x)).
        destruct (String.compare (testDate x) (testDate y)); simpl; lia.
      * fold upcoming. by rewrite E.
      * exists l1, l2. split; [done|]. intros s' Hs'. apply Hbefore in Hs'.
        unfold cmp, localeCompare, String.ltb in *.
        destruct (String.compare (testDate s) (testDate s')); (done || lia).
Qed.

(** Witness: of two tests of one date the first of the list, and not
    the test of yesterday. *)
Lemma getNextTestDays_witness :
  ex_physics ∈ [ex_history; ex_physics; ex_math]
  /\ String.leb (toLocalDateString ex_today) (testDate ex_physics) = true.
Proof.
  destruct (getNextTestDays_is_the_earliest [ex_history; ex_physics; ex_math] ex_today)
    as [_ H].
  destruct (H ex_physics) as (H1 & H2 & _); [reflexivity|]. by split.
Defined.

(** ** The queue of a day *)

Lemma String_compare_refl (a : string) : String.compare a a = Eq.
Proof.
  induction a as [|c a IH]; [done|]. simpl. by rewrite Ascii_compare_refl.
Qed.

Lemma compareWork_le (a b : WorkItem) :
  compareWork a b <= 0 <->
  String.ltb (testDate (subject a)) (testDate (subject b)) = true
  \/ (testDate (subject a) = testDate (subject b)
      /\ difficulty (subject b) <= difficulty (subject a)).
Proof.
  unfold compareWork, localeCompare, String.ltb.
  destruct (String.eqb _ _) eqn:E; simpl.
  - apply String_eqb_true in E. rewrite E.
    rewrite String_compare_refl.
    split; [intros; right; split; [done|lia]|intros [?|[_ ?]]; [done|lia]].
  - assert (testDate (subject a) <> testDate (subject b)) as Hne.
    { intros Heq. apply String_eqb_true in Heq. congruence. }
    destruct (String.compare _ _) eqn:Ec.
    + apply String.compare_eq_iff in Ec. done.
    + split; [by left|lia].
    + split; [lia|intros [?|[? _]]; done].
Qed.

Lemma String_ltb_leb (a b : string) : String.ltb a b = true -> String.leb a b = true.
Proof. unfold String.ltb, String.leb. by destruct (String.compare a b). Qed.

Lemma String_ltb_irrefl (a : string) : String.ltb a a = false.
Proof.
  unfold String.ltb. by rewrite String_compare_refl.
Qed.

Lemma compareWork_total (a b : WorkItem) : compareWork a b <= 0 \/ compareWork b a <= 0.
Proof.
  rewrite !compareWork_le. unfold String.ltb.
  rewrite (String.compare_antisym (testDate (subject b)) (testDate (subject a))).
  destruct (String.compare (testDate (subject a)) (testDate (subject b))) eqn:E; simpl.
  - apply String.compare_eq_iff in E.
    destruct (Z.le_ge_cases (difficulty (subject a)) (difficulty (subject b)));
      [right; right|left; right]; split; (done || lia).
  - left. by left.
  - right. by left.
Qed.

Lemma compareWork_trans (a b c : WorkItem) :
  compareWork a b <= 0 -> compareWork b c <= 0 -> compareWork a c <= 0.
Proof.
  rewrite !compareWork_le. unfold String.ltb.
  intros [Hab|[Hab Hd1]] [Hbc|[Hbc Hd2]].
  - left. destruct (String.compare (testDate (subject a)) (testDate (subject b))) eqn:E1;
      try done.
    destruct (String.compare (testDate (subject b)) (testDate (subject c))) eqn:E2;
      try done.
    by rewrite (String_compare_Lt_trans _ _ _ E1 E2).
  - left. by rewrite <- Hbc.
  - left. by rewrite Hab.
  - right. split; [congruence|lia].
Qed.

Lemma combine_seq_ordered {A} (l : list A) (a : nat) :
  ordered (fun x y : nat * A => (fst x < fst y)%nat) (combine (seq a (length l)) l).
Proof.
  revert a. induction l as [|x l IH]; intros a; [done|]. simpl. split; [|apply IH].
  rewrite Forall_forall. intros [i y] Hin. apply combine_seq_lookup in Hin. simpl. lia.
Qed.

(** X10. The queue of a day. [activeSubjects] holds, once each, the
    work items that still need minutes and whose test is not before
    the day. They are in the order of their test dates; those of one
    test date are in the order of falling difficulty; and those equal
    in both are in the order of [pendingWork]. *)
Theorem queue_of_the_day_in_priority_order (dateStr : string) (pw : list WorkItem) :
  let queue := buildActiveSubjects dateStr pw in
  NoDup queue
  /\ (forall r, r ∈ queue <->
                exists w, pw !! r = Some w /\ 0 < minutesNeeded w
                          /\ String.leb dateStr (testDate (subject w)) = true)
  /\ (forall i j r1 r2 w1 w2,
        (i < j)%nat -> queue !! i = Some r1 -> queue !! j = Some r2 ->
        pw !! r1 = Some w1 -> pw !! r2 = Some w2 ->
        hasPriority (r1, w1) (r2, w2)).
Proof.
  intros queue. split; [apply buildActiveSubjects_spec|]. split.
  - intros r. split; [apply buildActiveSubjects_spec|].
    intros (w & Hw & Hn & Hd). by apply (buildActiveSubjects_elem dateStr pw r w).
  - unfold queue, buildActiveSubjects.
    set (p := fun iw : nat * WorkItem =>
                String.leb dateStr (testDate (subject (snd iw)))
                && (0 <? minutesNeeded (snd iw))).
    set (cmp := fun a b : nat * WorkItem => compareWork (snd a) (snd b)).
    set (sorted := sort cmp (List.filter p (combine (seq 0 (length pw)) pw))).
    assert (ordered (fun x y => cmp x y <= 0
                                /\ (cmp y x <= 0 -> (fst x < fst y)%nat)) sorted)
      as Hord.
    { apply (sort_ordered cmp fst); unfold cmp.
      - intros x y. apply compareWork_total.
      - intros x y z. apply compareWork_trans.
      - apply ordered_filter, combine_seq_ordered. }
    assert (forall k r w, sorted !! k = Some (r, w) -> pw !! r = Some w) as Hpw.
    { intros k r w Hk. apply list_elem_of_lookup_2 in Hk. unfold sorted in Hk.
      rewrite sort_Permutation in Hk.
      apply list_elem_of_In, List.filter_In in Hk as [Hk _].
      apply list_elem_of_In, combine_seq_lookup in Hk as [_ Hk].
      by rewrite Nat.sub_0_r in Hk. }
    intros i j r1 r2 w1 w2 Hij Hi Hj Hw1 Hw2.
    rewrite list_lookup_fmap in Hi, Hj.
    destruct (sorted !! i) as [[r1' w1']|] eqn:Ei; [|done].
    destruct (sorted !! j) as [[r2' w2']|] eqn:Ej; [|done].
    simpl in Hi, Hj. injection Hi as ->. injection Hj as ->.
    pose proof (Hpw _ _ _ Ei) as H1. pose proof (Hpw _ _ _ Ej) as H2.
    rewrite Hw1 in H1. rewrite Hw2 in H2. injection H1 as <-. injection H2 as <-.
    destruct (ordered_lookup _ _ _ _ _ _ Hord Hij Ei Ej) as [Hle Htie].
    unfold cmp in Hle, Htie. simpl in Hle, Htie.
    rewrite compareWork_le in Hle. rewrite compareWork_le in Htie.
    unfold hasPriority. simpl. split.
    + destruct Hle as [Hlt|[-> _]]; [by apply String_ltb_leb|].
      destruct (String_leb_total (testDate (subject w2)) (testDate (subject w2))); done.
    + intros Heq. rewrite Heq, String_ltb_irrefl in Hle.
      destruct Hle as [?|[_ Hd]]; [done|]. split; [done|].
      intros Hd'. apply Htie. right. split; [done|lia].
Qed.

(** ** The new tasks of a run *)

Lemma mergeTask_ids (uuids : nat -> string) (dateStr sid : string) (m : Z)
    (tasks : list DailyTask) (calls0 calls : nat) :
  calls = (calls0 + length tasks)%nat ->
  List.map task_id tasks = List.map uuids (seq calls0 (length tasks)) ->
  let merged := mergeTask uuids dateStr sid m tasks calls in
  snd merged = (calls0 + length (fst merged))%nat
  /\ List.map task_id (fst merged) = List.map uuids (seq calls0 (length (fst merged))).
Proof.
  intros Hcalls Hids. unfold mergeTask.
  destruct (findIndex (isTaskOfDay dateStr sid) tasks) as [k|]; cbn [fst snd].
  - assert (List.map task_id (alter (addPlanned m) k tasks) = List.map task_id tasks)
      as Hsame.
    { clear. revert k. induction tasks as [|t l IH]; intros [|k]; simpl; try done.
      f_equal. apply IH. }
    rewrite Hsame, length_alter. done.
  - rewrite length_app, List.map_app. simpl.
    replace (length tasks + 1)%nat with (S (length tasks)) by lia.
    rewrite seq_S, List.map_app, Hids, Hcalls. simpl. split; [lia|done].
Qed.

Lemma run_newTasksInv (uuids : nat -> string) (calls0 : nat) (settings : UserSettings)
    (preserved : list DailyTask) (pw0 : list WorkItem) (today : Date) (st : Locals) :
  allocate uuids calls0 settings preserved pw0 today = Some st ->
  newTasksInv uuids calls0 st.
Proof.
  intros Hrun.
  apply (run_ind uuids calls0 settings preserved pw0 today
           (fun _ s => newTasksInv uuids calls0 s))
    in Hrun as (n & _ & _ & _ & H & _); [done| |].
  - split; [by constructor|]. simpl. split; [lia|done].
  - intros n s s' _ _ _ Hs _ Hb.
    apply (day_ind uuids settings preserved (newTasksInv uuids calls0)) in Hb
      as (st1 & H & _ & Hn & Hc); [| |done].
    + unfold newTasksInv. by rewrite Hn, Hc.
    + intros s1 s1' _ _ (H1 & H2 & H3) Hbody. slot_step Hbody; [done|].
      split; [by apply mergeTask_Forall|]. by apply mergeTask_ids.
Qed.

(** X11. The new tasks of a run. Each is created open: not completed,
    with no minutes done, and not fixed. Their identifiers are the
    values [uuid ()] returned during the run, one call for each new
    task, in the order of the tasks; they differ from one another when
    [uuid ()] never returns a value twice. *)
Theorem new_tasks_are_open_and_numbered (uuids : nat -> string) (calls : nat)
    (subjects : list Subject) (schedule : list DailyTask)
    (settings : UserSettings) (today : Date) :
  exists out,
    generateSchedule uuids calls subjects schedule settings today = Some out /\
    Forall (fun t => completed t = false /\ actualMinutes t = 0 /\ isFixed t = false)
      (out_newAutoTasks out) /\
    out_uuidCalls out = (calls + length (out_newAutoTasks out))%nat /\
    List.map task_id (out_newAutoTasks out)
    = List.map uuids (seq calls (length (out_newAutoTasks out))) /\
    ((forall i j, uuids i = uuids j -> i = j) ->
     NoDup (List.map task_id (out_newAutoTasks out))).
Proof.
  destruct (generateSchedule_total uuids calls subjects schedule settings today)
    as [out Hout].
  exists out. split; [done|].
  assert (newTasksInv uuids calls
            (mkLocals (out_pendingWork out) (out_newAutoTasks out) today 0 ∅ 0 []
               (out_uuidCalls out))) as (H1 & H2 & H3).
  { apply generateSchedule_cases in Hout as [[-> ->]|[_ (st & Hrun & ->)]].
    - split; [by constructor|]. simpl. split; [lia|done].
    - by apply run_newTasksInv in Hrun. }
  cbn [newAutoTasks uuidCalls] in H1, H2, H3. split; [done|]. split; [done|].
  split; [done|]. intros Hinj. rewrite H3.
  apply NoDup_fmap_2; [|apply NoDup_ListNoDup, List.seq_NoDup].
  intros i j. apply Hinj.
Qed.

(** ** The end of a run *)






(** ** Minutes left over on a day *)

Lemma capGate_true (settings : UserSettings) (assigned : gset string) (sid : string) :
  capGate settings assigned sid = true <->
  (sid ∉ assigned) /\ maxSubjectsPerDay settings <= Z.of_nat (size assigned).
Proof.
  unfold capGate. rewrite andb_true_iff, negb_true_iff, bool_decide_eq_false, Z.leb_le.
  done.
Qed.

Lemma busyInv_step (uuids : nat -> string) (settings : UserSettings)
    (dateStr : string) (maxMinutes : Z) (st st' : Locals) :
  queueOK dateStr st -> busyInv settings dateStr st ->
  slotBody uuids settings dateStr maxMinutes st = Some st' ->
  busyInv settings dateStr st'.
Proof.
  intros HQ Hinv Hb. slot_step Hb; intros r' w' Hw'; cbn [pendingWork] in Hw'.
  - (* the head of the queue is turned away *)
    destruct (Hinv r' w' Hw') as [H|[H|[H|H]]]; [by left|by right; left| |by do 3 right].
    rewrite Hact in H. apply elem_of_cons in H as [->|H]; [|by right; right; left].
    do 3 right. cbn [assignedSubjectIdsToday]. congruence.
  - (* the head of the queue is given a slot *)
    cbn [activeSubjects assignedSubjectIdsToday].
    destruct (decide (r' = r)) as [->|Hne].
    + rewrite list_lookup_insert_eq in Hw' by (by eapply lookup_lt_Some).
      injection Hw' as <-. cbn [minutesNeeded subject].
      destruct (minutesNeeded work - t <=? 0) eqn:E.
      * left. by apply Z.leb_le.
      * right. right. left. apply elem_of_app. right. apply list_elem_of_here.
    + rewrite list_lookup_insert_ne in Hw' by done.
      destruct (Hinv r' w' Hw') as [H|[H|[H|H]]]; [by left|by right; left| |].
      * rewrite Hact in H. apply elem_of_cons in H as [->|H]; [done|].
        right. right. left.
        destruct (minutesNeeded work - t <=? 0); [done|].
        apply elem_of_app. by left.
      * do 3 right. apply capGate_true in H as [Hnot Hfull].
        apply capGate_false in Hgate as [Hin|Hroom]; [|lia].
        assert ({[id (subject work)]} ∪ assignedSubjectIdsToday st
                = assignedSubjectIdsToday st) as ->; [|by apply capGate_true].
        apply set_eq. intros x. rewrite elem_of_union, elem_of_singleton.
        split; [intros [->|?]; done|by right].
Qed.

(** X13. No minutes are left over without a reason. When the inner
    loop has ended on a day, every work item is in one of four cases:
    it needs no more minutes; its test is before the day; the minutes
    of the day are used up; or its subject has no task on the day and
    the subjects of the day have reached the limit. *)
Theorem no_minutes_left_over_on_a_day (uuids : nat -> string) (settings : UserSettings)
    (preserved : list DailyTask) (st : Locals) :
  exists st',
    dayBody uuids settings preserved st = Some st' /\
    forall r w, pendingWork st' !! r = Some w ->
      minutesNeeded w <= 0
      \/ String.leb (toLocalDateString (currentDate st)) (testDate (subject w)) = false
      \/ maxMinutesOf settings (currentDate st) <= minutesAllocatedToday st'
      \/ ((id (subject w) ∉ assignedSubjectIdsToday st')
          /\ maxSubjectsPerDay settings
             <= Z.of_nat (size (assignedSubjectIdsToday st'))).
Proof.
  destruct (dayBody_total uuids settings preserved st) as [st' Hst'].
  exists st'. split; [done|]. unfold dayBody in Hst'.
  destruct (while _ _ _ _) as [st1|] eqn:Hwhile; [|done].
  injection Hst' as <-.
  cbn [pendingWork minutesAllocatedToday assignedSubjectIdsToday].
  set (dateStr := toLocalDateString (currentDate st)) in *.
  set (maxMinutes := maxMinutesOf settings (currentDate st)) in *.
  destruct (while_ind (fun _ => True) (slotGuard maxMinutes)
              (slotBody uuids settings dateStr maxMinutes) ltac:(done) _ _ _ I Hwhile)
    as [_ Hguard].
  assert (busyInv settings dateStr (dayStart preserved st)) as H0.
  { intros r w Hw. cbn [dayStart pendingWork activeSubjects] in *. fold dateStr.
    destruct (Z.lt_ge_cases 0 (minutesNeeded w)) as [Hpos|]; [|left; lia].
    destruct (String.leb dateStr (testDate (subject w))) eqn:E; [|by right; left].
    right. right. left. by apply (buildActiveSubjects_elem _ _ r w). }
  destruct (slot_loop_ind uuids settings dateStr maxMinutes (busyInv settings dateStr)
              (fun s s' HQ _ Hs Hb => busyInv_step _ _ _ _ _ _ HQ Hs Hb)
              _ _ _ (dayStart_queueOK preserved st) H0 Hwhile) as [Hinv _].
  intros r w Hw. destruct (Hinv r w Hw) as [H|[H|[H|H]]];
    [by left|by right; left| |by do 3 right; apply capGate_true].
  right. right. left. unfold slotGuard in Hguard.
  apply andb_false_iff in Hguard as [Hfull|Hempty].
  - by apply Z.ltb_ge.
  - destruct (activeSubjects st1); [by apply elem_of_nil in H|].
    simpl in Hempty. apply Z.ltb_ge in Hempty. lia.
Qed.

(** ** The turns of a day *)







(** ** The handlers of the component *)

Lemma elem_of_filter_list {A} (p : A -> bool) (l : list A) (x : A) :
  x ∈ List.filter p l <-> x ∈ l /\ p x = true.
Proof. by rewrite list_elem_of_In, List.filter_In, <- list_elem_of_In. Qed.

Lemma elem_of_map_list {A B} (f : A -> B) (l : list A) (y : B) :
  y ∈ List.map f l <-> exists x, f x = y /\ x ∈ l.
Proof.
  rewrite list_elem_of_In, List.in_map_iff.
  split; intros (x & ? & ?); exists x; by rewrite ?list_elem_of_In in *.
Qed.

Lemma markCompleted_id (task : DailyTask) (actualMins : Z) (l : list DailyTask) :
  List.map task_id (List.map (App.markCompleted task actualMins) l) = List.map task_id l.
Proof.
  rewrite List.map_map. apply List.map_ext. intros t. unfold App.markCompleted.
  by destruct (String.eqb _ _).
Qed.

Lemma markCompleted_subjectId (task : DailyTask) (actualMins : Z) (t : DailyTask) :
  subjectId (App.markCompleted task actualMins t) = subjectId t.
Proof. unfold App.markCompleted. by destruct (String.eqb _ _). Qed.

Section WellFormed.

Variable uuids : nat -> string.
Hypothesis uuids_inj : forall i j, uuids i = uuids j -> i = j.

Lemma addSubject_wellFormed (color : string) (st : App.State) :
  wellFormed uuids st -> wellFormed uuids (App.addSubject uuids color st).
Proof.
  intros (Hnames & Hids & Htasks & Hrefs & Hdrawn). unfold App.addSubject.
  destruct (_ || _); [done|].
  destruct (List.find _ _) as [s|] eqn:Efind; [done|].
  unfold wellFormed.
  cbn [App.subjects App.schedule App.idsDrawn App.setFormDate App.setFormSubjectName
       App.setFeedback App.setSubjects App.setIdsDrawn].
  rewrite !List.map_app. cbn [List.map name id].
  split; [|split; [|split; [done|split]]].
  - apply NoDup_app. split; [done|]. split; [|apply NoDup_singleton].
    intros x Hx Hx'. apply list_elem_of_singleton in Hx'. subst x.
    apply elem_of_map_list in Hx as (s & Hs & Hin).
    apply list_elem_of_In in Hin.
    apply (List.find_none _ _ Efind) in Hin. simpl in Hin.
    apply String.eqb_neq in Hin. done.
  - apply NoDup_app. split; [done|]. split; [|apply NoDup_singleton].
    intros x Hx Hx'. apply list_elem_of_singleton in Hx'. subst x.
    destruct (Hdrawn (uuids (App.idsDrawn st))) as (k & Hk & Heq).
    { apply elem_of_app. by left. }
    apply uuids_inj in Heq. lia.
  - intros t Ht. destruct (Hrefs t Ht) as (s & Hs & Hid).
    exists s. split; [|done]. apply elem_of_app. by left.
  - intros x Hx. rewrite <- app_assoc in Hx.
    apply elem_of_app in Hx as [Hx|Hx].
    + destruct (Hdrawn x) as (k & Hk & Heq); [apply elem_of_app; by left|].
      exists k. split; [lia|done].
    + apply elem_of_cons in Hx as [->|Hx].
      * exists (App.idsDrawn st). split; [lia|done].
      * destruct (Hdrawn x) as (k & Hk & Heq); [apply elem_of_app; by right|].
        exists k. split; [lia|done].
Qed.

Lemma deleteSubject_wellFormed (id_ : string) (st : App.State) :
  wellFormed uuids st -> wellFormed uuids (App.deleteSubject id_ st).
Proof.
  intros (Hnames & Hids & Htasks & Hrefs & Hdrawn). unfold App.deleteSubject, wellFormed.
  cbn [App.subjects App.schedule App.idsDrawn App.setSchedule App.setSubjects].
  split; [by apply NoDup_map_filter|]. split; [by apply NoDup_map_filter|].
  split; [by apply NoDup_map_filter|]. split.
  - intros t Ht. apply elem_of_filter_list in Ht as [Ht Hne].
    destruct (Hrefs t Ht) as (s & Hs & Hid). exists s. split; [|done].
    apply elem_of_filter_list. split; [done|]. by rewrite Hid.
  - intros x Hx. apply Hdrawn. apply elem_of_app in Hx as [Hx|Hx];
      apply elem_of_map_list in Hx as (y & Hy & Hin);
      apply elem_of_filter_list in Hin as [Hin _];
      apply elem_of_app; [left|right]; apply elem_of_map_list; eauto.
Qed.

Lemma deleteTask_wellFormed (taskId : string) (st : App.State) :
  wellFormed uuids st -> wellFormed uuids (App.deleteTask taskId st).
Proof.
  intros (Hnames & Hids & Htasks & Hrefs & Hdrawn). unfold App.deleteTask, wellFormed.
  cbn [App.subjects App.schedule App.idsDrawn App.setSchedule].
  split; [done|]. split; [done|]. split; [by apply NoDup_map_filter|]. split.
  - intros t Ht. apply elem_of_filter_list in Ht as [Ht _]. by apply Hrefs.
  - intros x Hx. apply Hdrawn. apply elem_of_app in Hx as [Hx|Hx];
      [apply elem_of_app; by left|].
    apply elem_of_map_list in Hx as (y & Hy & Hin).
    apply elem_of_filter_list in Hin as [Hin _].
    apply elem_of_app; right; apply elem_of_map_list; eauto.
Qed.

Lemma handleTaskComplete_wellFormed (task : DailyTask) (actualMins : Z)
    (st : App.State) :
  wellFormed uuids st -> wellFormed uuids (App.handleTaskComplete task actualMins st).
Proof.
  intros (Hnames & Hids & Htasks & Hrefs & Hdrawn).
  unfold App.handleTaskComplete, wellFormed.
  cbn [App.subjects App.schedule App.idsDrawn App.setSchedule App.setView
       App.setIsTimerRunning App.setTimerSeconds App.setActiveTask App.setFeedback].
  rewrite markCompleted_id. split; [done|]. split; [done|]. split; [done|].
  split; [|done].
  intros t Ht. apply elem_of_map_list in Ht as (t0 & <- & Ht0).
  rewrite markCompleted_subjectId. by apply Hrefs.
Qed.

Lemma runGenerateSchedule_wellFormed (today : Date) (st : App.State) :
  wellFormed uuids st ->
  exists st', App.runGenerateSchedule uuids today st = Some st'
              /\ wellFormed uuids st'.
Proof.
  intros (Hnames & Hids & Htasks & Hrefs & Hdrawn). unfold App.runGenerateSchedule.
  destruct (App.subjects st) as [|s0 l] eqn:Esub.
  { exists st. split; [done|]. unfold wellFormed. by rewrite Esub. }
  rewrite <- Esub in *.
  destruct (generateSchedule_total uuids (App.idsDrawn st) (App.subjects st)
              (App.schedule st) (App.settings st) today) as [out Hout].
  rewrite Hout. eexists. split; [done|].
  apply generateSchedule_cases in Hout as [[Hnil _]|[_ (r & Hrun & ->)]];
    [by rewrite Esub in Hnil|].
  pose proof (run_newTasksInv _ _ _ _ _ _ _ Hrun) as (_ & Hcalls & Hnew).
  pose proof (run_dueKeys _ _ _ _ _ _ _ Hrun) as Hdue.
  unfold wellFormed.
  cbn [App.subjects App.schedule App.idsDrawn App.setFeedback App.setSchedule
       App.setIdsDrawn out_schedule out_uuidCalls].
  split; [done|]. split; [done|].
  assert (forall x, x ∈ List.map task_id (fixedOrCompleted (App.schedule st)) ->
                    exists k, (k < App.idsDrawn st)%nat /\ x = uuids k) as Hold.
  { intros x Hx. apply Hdrawn, elem_of_app. right.
    apply elem_of_map_list in Hx as (y & Hy & Hin).
    apply elem_of_filter_list in Hin as [Hin _]. apply elem_of_map_list. eauto. }
  assert (forall x, x ∈ List.map task_id (newAutoTasks r) ->
                    exists k, (App.idsDrawn st <= k < uuidCalls r)%nat /\ x = uuids k)
    as Hfresh.
  { intros x Hx. rewrite Hnew in Hx. apply elem_of_map_list in Hx as (k & <- & Hk).
    apply list_elem_of_In, in_seq in Hk. exists k. split; [lia|done]. }
  split; [|split].
  - rewrite List.map_app. apply NoDup_app. split; [by apply NoDup_map_filter|].
    split.
    + intros x Hx Hx'. apply Hold in Hx as (k & Hk & ->).
      apply Hfresh in Hx' as (k' & Hk' & Heq). apply uuids_inj in Heq. lia.
    + rewrite Hnew. apply NoDup_fmap_2; [|apply NoDup_ListNoDup, List.seq_NoDup].
      intros i j. apply uuids_inj.
  - intros t Ht. apply elem_of_app in Ht as [Ht|Ht].
    + apply elem_of_filter_list in Ht as [Ht _]. by apply Hrefs.
    + rewrite Forall_forall in Hdue.
      destruct (Hdue (taskKey t)) as (s & j & Hs & Hid & _).
      { apply elem_of_map_list. eauto. }
      exists s. split; [done|]. done.
  - intros x Hx. rewrite List.map_app in Hx.
    apply elem_of_app in Hx as [Hx|Hx].
    + destruct (Hdrawn x) as (k & Hk & Heq); [apply elem_of_app; by left|].
      exists k. split; [lia|done].
    + apply elem_of_app in Hx as [Hx|Hx].
      * apply Hold in Hx as (k & Hk & ->). exists k. split; [lia|done].
      * apply Hfresh in Hx as (k & Hk & ->). exists k. split; [lia|done].
Qed.

Lemma handle_wellFormed (e : App.Event) (st : App.State) :
  wellFormed uuids st ->
  exists st', App.handle uuids e st = Some st' /\ wellFormed uuids st'.
Proof.
  intros Hwf. destruct e; cbn [App.handle];
    try (eexists; split; [reflexivity|]; exact Hwf).
  - eexists. split; [done|]. by apply addSubject_wellFormed.
  - eexists. split; [done|]. by apply deleteSubject_wellFormed.
  - by apply runGenerateSchedule_wellFormed.
  - eexists. split; [done|]. unfold App.openTask. by destruct (completed task).
  - eexists. split; [done|]. by apply deleteTask_wellFormed.
  - eexists. split; [done|]. unfold App.completeClick.
    destruct (App.activeTask st) as [task|]; [|done].
    destruct userActual as [parsed|]; [|done].
    by apply handleTaskComplete_wellFormed.
Qed.

Lemma run_wellFormed (es : list App.Event) (st : App.State) :
  wellFormed uuids st ->
  exists st', App.run uuids es st = Some st' /\ wellFormed uuids st'.
Proof.
  revert st. induction es as [|e es IH]; intros st Hwf; [by exists st|].
  destruct (handle_wellFormed e st Hwf) as (st1 & H1 & Hwf1).
  simpl. rewrite H1. by apply IH.
Qed.

End WellFormed.

Lemma ex_uuids_inj (i j : nat) : ex_uuids i = ex_uuids j -> i = j.
Proof.
  unfold ex_uuids. intros Heq. apply String_app_inj in Heq as [_ Heq]; [|done].
  apply String__inj in Heq. lia.
Qed.

Lemma initial_wellFormed (uuids : nat -> string) (now : Date) :
  wellFormed uuids (App.initial now).
Proof.
  unfold wellFormed, App.initial. simpl.
  repeat split; try apply NoDup_nil_2; intros x Hx; by apply elem_of_nil in Hx.
Qed.

(** X15. The state stays in good order. When [uuid ()] never returns a
    value twice, every handler of the component takes a state in good
    order to a state in good order: the subjects keep different names
    and identifiers, the tasks keep different identifiers, and every
    task has its subject in the list. In such a state the calendar
    finds the subject of every task, and there are no tasks when there
    are no subjects. *)
Theorem handlers_keep_the_state_in_order (uuids : nat -> string)
    (es : list App.Event) (st : App.State) :
  (forall i j, uuids i = uuids j -> i = j) ->
  wellFormed uuids st ->
  exists st',
    App.run uuids es st = Some st'
    /\ wellFormed uuids st'
    /\ (forall t, t ∈ App.schedule st' ->
          exists s, subjectOfTask (App.subjects st') t = Some s)
    /\ (App.subjects st' = [] -> App.schedule st' = []).
Proof.
  intros Hinj Hwf.
  destruct (run_wellFormed uuids Hinj es st Hwf) as (st' & Hrun & Hwf').
  exists st'. split; [done|]. split; [done|].
  destruct Hwf' as (_ & _ & _ & Hrefs & _).
  assert (forall t, t ∈ App.schedule st' ->
            exists s, subjectOfTask (App.subjects st') t = Some s) as Hfound.
  { intros t Ht. destruct (Hrefs t Ht) as (s & Hs & Hid).
    unfold subjectOfTask.
    destruct (List.find _ _) as [s'|] eqn:E; [by exists s'|].
    apply list_elem_of_In in Hs. apply (List.find_none _ _ E) in Hs.
    simpl in Hs. rewrite Hid in Hs. apply String.eqb_neq in Hs. done. }
  split; [done|]. intros Hnil.
  destruct (App.schedule st') as [|t l] eqn:E; [done|].
  destruct (Hfound t) as [s Hs]; [apply list_elem_of_here|].
  unfold subjectOfTask in Hs. rewrite Hnil in Hs. done.
Qed.

(** Witness: a subject is added, scheduled, worked on and deleted. *)
Lemma handlers_keep_order_witness :
  exists st',
    App.run ex_uuids
      [App.TypeSubjectName "Math"; App.PickDate "2026-11-20";
       App.AddSubject "bg-red-200 text-red-800"; App.GenerateSchedule ex_today;
       App.TypeSubjectName "Math"; App.PickDate "2026-12-01";
       App.AddSubject "bg-sky-200 text-sky-800";
       App.DeleteTask (ex_uuids 1); App.DeleteSubject (ex_uuids 0)]
      (App.initial ex_today) = Some st'
    /\ wellFormed ex_uuids st'
    /\ App.schedule st' = [].
Proof.
  destruct (handlers_keep_the_state_in_order ex_uuids
              [App.TypeSubjectName "Math"; App.PickDate "2026-11-20";
               App.AddSubject "bg-red-200 text-red-800"; App.GenerateSchedule ex_today;
               App.TypeSubjectName "Math"; App.PickDate "2026-12-01";
               App.AddSubject "bg-sky-200 text-sky-800";
               App.DeleteTask (ex_uuids 1); App.DeleteSubject (ex_uuids 0)]
              (App.initial ex_today) ex_uuids_inj (initial_wellFormed _ _))
    as (st' & Hrun & Hwf & _ & Hnil).
  exists st'. split; [done|]. split; [done|]. apply Hnil.
  vm_compute in Hrun. injection Hrun as <-. reflexivity.
Defined.

(** X16. A deleted subject is gone for good. After [deleteSubject],
    and still after a [generateSchedule] that follows it, no subject
    and no task of the state bears the identifier. *)
Theorem deleted_subject_leaves_no_task (uuids : nat -> string) (id_ : string)
    (today : Date) (st : App.State) :
  let st1 := App.deleteSubject id_ st in
  (forall s, s ∈ App.subjects st1 -> id s <> id_)
  /\ (forall t, t ∈ App.schedule st1 -> subjectId t <> id_)
  /\ exists st2,
       App.runGenerateSchedule uuids today st1 = Some st2
       /\ App.subjects st2 = App.subjects st1
       /\ (forall t, t ∈ App.schedule st2 -> subjectId t <> id_).
Proof.
  intros st1.
  assert (forall s, s ∈ App.subjects st1 -> id s <> id_) as Hsub.
  { intros s Hs. apply elem_of_filter_list in Hs as [_ Hs].
    apply negb_true_iff, String.eqb_neq in Hs. done. }
  assert (forall t, t ∈ App.schedule st1 -> subjectId t <> id_) as Htask.
  { intros t Ht. apply elem_of_filter_list in Ht as [_ Ht].
    apply negb_true_iff, String.eqb_neq in Ht. done. }
  split; [done|]. split; [done|]. unfold App.runGenerateSchedule.
  destruct (App.subjects st1) as [|s0 l] eqn:Esub; [by exists st1|].
  rewrite <- Esub in *.
  destruct (generateSchedule_total uuids (App.idsDrawn st1) (App.subjects st1)
              (App.schedule st1) (App.settings st1) today) as [out Hout].
  rewrite Hout. eexists. split; [done|]. split; [done|].
  apply generateSchedule_cases in Hout as [[Hnil _]|[_ (r & Hrun & ->)]];
    [by rewrite Esub in Hnil|].
  pose proof (run_dueKeys _ _ _ _ _ _ _ Hrun) as Hdue.
  cbn [App.schedule App.setFeedback App.setSchedule out_schedule].
  intros t Ht. apply elem_of_app in Ht as [Ht|Ht].
  - apply elem_of_filter_list in Ht as [Ht _]. by apply Htask.
  - rewrite Forall_forall in Hdue.
    destruct (Hdue (taskKey t)) as (s & j & Hs & Hid & _).
    { apply elem_of_map_list. eauto. }
    simpl in Hid. rewrite <- Hid. by apply Hsub.
Qed.



Lemma filter_all {A} (p : A -> bool) (l : list A) :
  (forall x, x ∈ l -> p x = true) -> List.filter p l = l.
Proof.
  induction l as [|x l IH]; intros Hall; [done|]. simpl.
  rewrite (Hall x (list_elem_of_here _ _)). f_equal. apply IH.
  intros y Hy. apply Hall. by apply list_elem_of_further.
Qed.

(** X18. A deleted task that was open makes no difference to the next
    run. With a subject in the list, [generateSchedule] after the
    deletion of a task that is neither completed nor fixed leads to
    the state it leads to without the deletion: the minutes of the
    task are planned again. *)
Theorem deleted_open_task_is_planned_again (uuids : nat -> string)
    (taskId : string) (today : Date) (st : App.State) :
  App.subjects st <> [] ->
  (forall t, t ∈ App.schedule st -> task_id t = taskId ->
             completed t = false /\ isFixed t = false) ->
  App.runGenerateSchedule uuids today (App.deleteTask taskId st)
  = App.runGenerateSchedule uuids today st.
Proof.
  intros Hsub Hopen.
  assert (fixedOrCompleted
            (List.filter (fun t => negb (String.eqb (task_id t) taskId)) (App.schedule st))
          = fixedOrCompleted (App.schedule st)) as Hkept.
  { unfold fixedOrCompleted.
    induction (App.schedule st) as [|t l IH]; [done|]. simpl.
    assert (forall t', t' ∈ l -> task_id t' = taskId ->
                       completed t' = false /\ isFixed t' = false) as Hl
      by (intros t' Ht'; apply Hopen; by apply list_elem_of_further).
    destruct (String.eqb (task_id t) taskId) eqn:E; simpl.
    - apply String_eqb_true in E.
      destruct (Hopen t (list_elem_of_here _ _) E) as [-> ->]. simpl. by apply IH.
    - rewrite IH by done. done. }
  unfold App.runGenerateSchedule, App.deleteTask.
  cbn [App.subjects App.schedule App.settings App.idsDrawn App.setSchedule].
  destruct (App.subjects st) as [|s0 l] eqn:Esub; [done|].
  unfold generateSchedule. rewrite Hkept.
  destruct (allocate _ _ _ _ _ _) as [r|]; [|done].
  by destruct st.
Qed.

(** Witness: the first task of a new schedule is deleted. *)
Lemma deleted_open_task_witness :
  App.runGenerateSchedule ex_uuids ex_today
    (App.deleteTask "task-0"
       (App.setSchedule
          [mkDailyTask "task-0" "s-math" "2026-11-03" 120 false 0 false]
          (App.setSubjects [ex_math] (App.initial ex_today))))
  = App.runGenerateSchedule ex_uuids ex_today
      (App.setSchedule
         [mkDailyTask "task-0" "s-math" "2026-11-03" 120 false 0 false]
         (App.setSubjects [ex_math] (App.initial ex_today))).
Proof.
  apply deleted_open_task_is_planned_again; [done|].
  intros t Ht _. apply list_elem_of_singleton in Ht. by subst t.
Defined.

(** X19. Adding a subject and deleting it again. In a state in good
    order, with a [uuid ()] that never returns a value twice,
    [deleteSubject] with the identifier that [addSubject] draws leaves
    the subjects and the schedule as they were before [addSubject]. *)
Theorem added_subject_can_be_deleted (uuids : nat -> string) (color : string)
    (st : App.State) :
  (forall i j, uuids i = uuids j -> i = j) ->
  wellFormed uuids st ->
  let st' := App.deleteSubject (uuids (App.idsDrawn st))
               (App.addSubject uuids color st) in
  App.subjects st' = App.subjects st /\ App.schedule st' = App.schedule st.
Proof.
  intros Hinj (_ & _ & _ & Hrefs & Hdrawn) st'.
  assert (forall x, x ∈ List.map id (App.subjects st) -> x <> uuids (App.idsDrawn st))
    as Hfresh.
  { intros x Hx Heq. destruct (Hdrawn x) as (k & Hk & Hxk);
      [apply elem_of_app; by left|].
    rewrite Hxk in Heq. apply Hinj in Heq. lia. }
  assert (List.filter (fun s => negb (String.eqb (id s) (uuids (App.idsDrawn st))))
            (App.subjects st) = App.subjects st) as Hsub.
  { apply filter_all. intros s Hs. apply negb_true_iff, String.eqb_neq.
    apply Hfresh. apply elem_of_map_list. eauto. }
  assert (List.filter (fun t => negb (String.eqb (subjectId t) (uuids (App.idsDrawn st))))
            (App.schedule st) = App.schedule st) as Hsch.
  { apply filter_all. intros t Ht. apply negb_true_iff, String.eqb_neq.
    destruct (Hrefs t Ht) as (s & Hs & <-). apply Hfresh.
    apply elem_of_map_list. eauto. }
  unfold st', App.deleteSubject, App.addSubject.
  destruct (_ || _); [by cbn; rewrite Hsub, Hsch|].
  destruct (List.find _ _); [by cbn; rewrite Hsub, Hsch|].
  cbn [App.subjects App.schedule App.setSchedule App.setSubjects App.setFormDate
       App.setFormSubjectName App.setFeedback App.setIdsDrawn].
  rewrite List.filter_app, Hsub, Hsch. simpl. rewrite String.eqb_refl. simpl.
  by rewrite app_nil_r.
Qed.

(** Witness: a first subject is added and deleted. *)
Lemma added_subject_witness :
  App.subjects
    (App.deleteSubject (ex_uuids 0)
       (App.addSubject ex_uuids "bg-red-200 text-red-800"
          (App.setFormDate "2026-11-20"
             (App.setFormSubjectName "Math" (App.initial ex_today))))) = [].
Proof.
  apply (added_subject_can_be_deleted ex_uuids "bg-red-200 text-red-800"
           (App.setFormDate "2026-11-20"
              (App.setFormSubjectName "Math" (App.initial ex_today)))
           ex_uuids_inj (initial_wellFormed ex_uuids ex_today)).
Defined.

(** ** The timer and the minutes done *)

(** X20. The minutes the timer records. With seconds on the timer, the
    button never records 0 minutes: an answer of 0, or one that is no
    number, records the minutes of the timer, rounded up. The feedback
    is praise exactly when the recorded minutes reach the minutes
    planned; and unless a negative number is entered, the recorded
    minutes are positive, so that the message for no work at all is
    not shown. *)
Theorem completion_feedback (task : DailyTask) (timerSeconds : Z)
    (parsed : option Z) :
  0 < timerSeconds ->
  let m := App.recordedMinutes timerSeconds parsed in
  m <> 0
  /\ (parsed = None \/ parsed = Some 0 ->
      m = ceilDiv timerSeconds 60 /\ 60 * (m - 1) < timerSeconds <= 60 * m)
  /\ (App.type (App.completionFeedback task m) = App.praise
      <-> plannedMinutes task <= m)
  /\ ((forall n, parsed = Some n -> 0 <= n) ->
      0 < m
      /\ App.message (App.completionFeedback task m)
         <> "サボりは禁物です。次は頑張りましょう。"%string).
Proof.
  intros Hpos m.
  assert (ceilDiv timerSeconds 60 = - (- timerSeconds / 60)) as Hceil by done.
  assert (0 < ceilDiv timerSeconds 60
          /\ 60 * (ceilDiv timerSeconds 60 - 1) < timerSeconds
             <= 60 * ceilDiv timerSeconds 60) as [Hc1 Hc2].
  { rewrite Hceil. dlia. }
  assert (m <> 0) as Hm.
  { unfold m, App.recordedMinutes. destruct parsed as [n|]; [|lia].
    destruct (n =? 0) eqn:E; [lia|]. by apply Z.eqb_neq. }
  split; [done|]. split; [|split].
  - unfold m, App.recordedMinutes. intros [-> | ->]; done.
  - unfold App.completionFeedback.
    destruct (0 <=? m - plannedMinutes task) eqn:E1; simpl.
    + apply Z.leb_le in E1. split; [lia|done].
    + apply Z.leb_gt in E1. destruct (0 <? m); simpl; split; (done || lia).
  - intros Hnn.
    assert (0 < m) as Hmpos.
    { unfold m, App.recordedMinutes in *. destruct parsed as [n|]; [|lia].
      pose proof (Hnn n eq_refl). destruct (n =? 0) eqn:E; [lia|].
      apply Z.eqb_neq in E. lia. }
    split; [done|]. unfold App.completionFeedback.
    destruct (0 <=? m - plannedMinutes task); [simpl; discriminate|].
    destruct (0 <? m) eqn:E; [simpl; discriminate|]. apply Z.ltb_ge in E. lia.
Qed.

(** Witness: 61 seconds on the timer and an answer of 0. *)
Lemma completion_feedback_witness :
  App.recordedMinutes 61 (Some 0) <> 0
  /\ (App.recordedMinutes 61 (Some 0) = ceilDiv 61 60
      /\ 60 * (App.recordedMinutes 61 (Some 0) - 1) < 61
         <= 60 * App.recordedMinutes 61 (Some 0)).
Proof.
  destruct (completion_feedback ex_stale 61 (Some 0) ltac:(lia)) as (H1 & H2 & _).
  split; [exact H1|]. apply H2. by right.
Defined.

(** X21. The seconds of a timer that was cancelled. Leaving the timer
    does not set it back: after [n] seconds on one task, cancelling
    and opening another task shows the timer at those [n] seconds
    more, and it is the other task that a completion would record. *)
Theorem cancel_keeps_the_elapsed_seconds (task1 task2 : DailyTask) (n : nat)
    (st : App.State) :
  completed task2 = false ->
  let st' := App.openTask task2
               (App.cancelTimer (Nat.iter n App.tick (App.openTask task1 st))) in
  App.timerSeconds st' = App.timerSeconds st + Z.of_nat n
  /\ App.activeTask st' = Some task2
  /\ App.view st' = App.timer.
Proof.
  intros H2 st'. unfold st', App.openTask. rewrite H2.
  cbn [App.timerSeconds App.activeTask App.view App.setView App.setActiveTask
       App.cancelTimer App.setIsTimerRunning].
  split; [|done].
  induction n as [|n IH].
  - simpl. destruct (completed task1); simpl; lia.
  - rewrite Nat.iter_succ. unfold App.tick at 1.
    cbn [App.timerSeconds App.setTimerSeconds]. rewrite IH. lia.
Qed.

(** Witness: ten seconds on a task, then another task. *)
Lemma cancel_keeps_seconds_witness :
  App.timerSeconds
    (App.openTask ex_stale
       (App.cancelTimer
          (Nat.iter 10 App.tick
             (App.openTask (mkDailyTask "t8" "s-math" "2026-11-03" 60 false 0 false)
                (App.initial ex_today))))) = 10.
Proof.
  apply (cancel_keeps_the_elapsed_seconds
           (mkDailyTask "t8" "s-math" "2026-11-03" 60 false 0 false) ex_stale 10
           (App.initial ex_today)). reflexivity.
Defined.
